(** * travel-road-sage: the itinerary pipeline, embedded and verified

    A shallow embedding of the planner pipeline of
    [backend/app/services] (planner.py, deepseek_ai.py, search.py,
    database.py) together with the properties the design document states
    about it.

    Conventions.
    - A Python [str] is a sequence of Unicode code points: [list N].  The
      regular expression [\s] and [str.startswith] work on code points, so
      bytes would not do.  Literals are written as UTF-8 text and decoded
      by [u].
    - Values decoded from JSON (the chat provider's output, HTTP bodies)
      are dynamically typed: [json].  Operations that Python checks at run
      time return a [result].
    - Calls to the outside world go through a record of oracles; every
      call is appended to a log, and an oracle sees the log so far, so a
      provider may answer the same question differently each time. *)

From Stdlib Require Import ZArith NArith Strings.String Strings.Ascii Lia Bool.
From stdpp Require Import base tactics option list gmap.

Set Default Proof Using "Type".
Set Warnings "-register-all".
Local Open Scope N_scope.

(** ** Python strings *)

Abbreviation pystr := (list N).

Fixpoint utf8_bytes (s : string) : list N :=
  match s with
  | EmptyString => []
  | String a s' => N_of_ascii a :: utf8_bytes s'
  end.

(** UTF-8 decoding of a literal; ill-formed tails are dropped (no literal
    of this file has one). *)
Fixpoint utf8_decode (bs : list N) : pystr :=
  match bs with
  | [] => []
  | b0 :: r =>
    if b0 <? 128 then b0 :: utf8_decode r
    else if b0 <? 224 then
      match r with
      | b1 :: r' => ((b0 - 192) * 64 + (b1 - 128)) :: utf8_decode r'
      | _ => []
      end
    else if b0 <? 240 then
      match r with
      | b1 :: b2 :: r' =>
        ((b0 - 224) * 4096 + (b1 - 128) * 64 + (b2 - 128)) :: utf8_decode r'
      | _ => []
      end
    else
      match r with
      | b1 :: b2 :: b3 :: r' =>
        ((b0 - 240) * 262144 + (b1 - 128) * 4096 + (b2 - 128) * 64 + (b3 - 128))
          :: utf8_decode r'
      | _ => []
      end
  end.

Definition u (s : string) : pystr := utf8_decode (utf8_bytes s).

(** [needle in hay] *)
Fixpoint startswith (s p : pystr) : bool :=
  match p, s with
  | [], _ => true
  | _ :: _, [] => false
  | c :: p', d :: s' => if decide (c = d) then startswith s' p' else false
  end.

Fixpoint py_in (needle hay : pystr) : bool :=
  startswith hay needle ||
  match hay with
  | [] => false
  | _ :: hay' => py_in needle hay'
  end.

Definition contains (hay needle : pystr) : Prop :=
  ∃ pre post, hay = pre ++ needle ++ post.

(** [sep.join(parts)] *)
Fixpoint join (sep : pystr) (parts : list pystr) : pystr :=
  match parts with
  | [] => []
  | [p] => p
  | p :: rest => p ++ sep ++ join sep rest
  end.

(** [str(n)] for an [int] *)
Definition digit (d : N) : N := 48 + d.

Fixpoint str_pos_fuel (fuel : nat) (n : N) (acc : pystr) : pystr :=
  match fuel with
  | O => acc
  | S fuel' =>
    if n <? 10 then digit n :: acc
    else str_pos_fuel fuel' (n / 10) (digit (n mod 10) :: acc)
  end.

Definition str_of_int (z : Z) : pystr :=
  match z with
  | Z0 => [digit 0]
  | Zpos p => str_pos_fuel (S (N.to_nat (N.log2 (Npos p)))) (Npos p) []
  | Zneg p => 45 :: str_pos_fuel (S (N.to_nat (N.log2 (Npos p)))) (Npos p) []
  end.

(** ** Dynamically typed values *)

(** A value as [json.loads] produces it.  A [float] is kept as its 64-bit
    pattern; a [dict] as its items in insertion order, keys distinct. *)
Inductive json : Type :=
| JNull
| JBool (b : bool)
| JInt (z : Z)
| JFloat (bits : Z)
| JStr (s : pystr)
| JList (l : list json)
| JDict (d : list (pystr * json)).

Abbreviation pydict := (list (pystr * json)).

Inductive exn : Type :=
| TypeError
| KeyError
| AttributeError
| IndexError
| JSONDecodeError
| ConstraintError
| ProviderError (msg : pystr).

Inductive result (A : Type) : Type :=
| Ok (a : A)
| Raise (e : exn).
Arguments Ok {A} a.
Arguments Raise {A} e.

(** [d.get(k)] and [d.get(k, default)] on a [dict] *)
Fixpoint dict_get (d : pydict) (k : pystr) : option json :=
  match d with
  | [] => None
  | (k', v) :: d' => if decide (k' = k) then Some v else dict_get d' k
  end.

(** [d[k] = v]: in place when the key exists, appended otherwise *)
Fixpoint dict_set (d : pydict) (k : pystr) (v : json) : pydict :=
  match d with
  | [] => [(k, v)]
  | (k', v') :: d' =>
    if decide (k' = k) then (k, v) :: d' else (k', v') :: dict_set d' k v
  end.

(** [bool(v)] *)
Definition truthy (v : json) : bool :=
  match v with
  | JNull => false
  | JBool b => b
  | JInt z => negb (Z.eqb z 0)
  | JFloat bits => negb (Z.eqb bits 0 || Z.eqb bits (2 ^ 63))
  | JStr s => negb (bool_decide (s = []))
  | JList l => negb (bool_decide (l = []))
  | JDict d => negb (bool_decide (d = []))
  end.

(** ** Points of interest *)

(** A POI as [AmapClient._parse_pois] builds it: always these eight keys.
    The name is text (models.POI); address and tel are forced to text by
    the parser; the rest is whatever the provider sent. *)
Record POI : Type := mkPOI {
  poi_id : json;
  poi_name : pystr;
  poi_address : pystr;
  poi_location : json;
  poi_type : json;
  poi_tel : pystr;
  poi_rating : json;
  poi_cost : json
}.

(** ** ContextGatherer: merging the attraction lists
    planner.py, [_gather_context_with_intent], "合并去重景点" *)

Fixpoint dedup_loop (all_attractions : list POI) (seen_names : gset pystr)
    (unique_attractions : list POI) : list POI :=
  match all_attractions with
  | [] => unique_attractions
  | attr :: rest =>
    if decide (poi_name attr ∈ seen_names)
    then dedup_loop rest seen_names unique_attractions
    else dedup_loop rest ({[poi_name attr]} ∪ seen_names)
                    (unique_attractions ++ [attr])
  end.

Definition unique_attractions_of (specific_attractions general_attractions : list POI)
    : list POI :=
  dedup_loop (specific_attractions ++ general_attractions) ∅ [].






(** ** The result monad: Python exceptions *)

Global Instance result_ret : MRet result := λ A a, Ok a.
Global Instance result_bind : MBind result := λ A B f m,
  match m with
  | Ok a => f a
  | Raise e => Raise e
  end.

(** [try: body except Exception: handler] *)
Definition try_except {A} (body : result A) (handler : exn → result A) : result A :=
  match body with
  | Ok a => Ok a
  | Raise e => handler e
  end.

(** [v.get(k)]: only a [dict] has the method *)
Definition py_get (v : json) (k : pystr) : result (option json) :=
  match v with
  | JDict d => Ok (dict_get d k)
  | _ => Raise AttributeError
  end.

(** [v == s] for a string literal [s] *)
Definition eq_str (v : option json) (s : pystr) : bool :=
  match v with
  | Some (JStr t) => bool_decide (t = s)
  | _ => false
  end.

(** ** The regular expression [```json\s*(.*?)\s*```] with [re.DOTALL] *)

(** [\s] on a [str] pattern: the characters of [str.isspace] *)
Definition is_space (c : N) : bool :=
  ((9 <=? c) && (c <=? 13)) || ((28 <=? c) && (c <=? 32))
  || (c =? 133) || (c =? 160) || (c =? 5760)
  || ((8192 <=? c) && (c <=? 8202))
  || (c =? 8232) || (c =? 8233) || (c =? 8239) || (c =? 8287) || (c =? 12288).

(** A backtracking matcher in continuation-passing style: every piece of
    the pattern gets the rest of the pattern as [k] and tries its
    alternatives in the order of Python's engine. *)
Section regex.
Context {A : Type}.

(** a literal *)
Fixpoint re_lit (p s : pystr) (k : pystr → option A) : option A :=
  match p with
  | [] => k s
  | c :: p' =>
    match s with
    | d :: s' => if decide (c = d) then re_lit p' s' k else None
    | [] => None
    end
  end.

(** [\s*], greedy: the longest run first, then one less, ... *)
Fixpoint re_spaces (s : pystr) (k : pystr → option A) : option A :=
  match s with
  | c :: s' =>
    if is_space c
    then match re_spaces s' k with
         | Some r => Some r
         | None => k s
         end
    else k s
  | [] => k []
  end.

(** [(.*?)], lazy, [.] matching every character: the shortest capture
    first, then one more, ... *)
Fixpoint re_lazy_group (s captured : pystr) (k : pystr → pystr → option A)
    : option A :=
  match k captured s with
  | Some r => Some r
  | None =>
    match s with
    | c :: s' => re_lazy_group s' (captured ++ [c]) k
    | [] => None
    end
  end.
End regex.

Definition fence_open : pystr := Eval vm_compute in u "```json".
Definition fence_close : pystr := Eval vm_compute in u "```".

(** [re.match] of the pattern at the start of [s]; the result is group 1 *)
Definition json_block_at (s : pystr) : option pystr :=
  re_lit fence_open s (λ s1,
  re_spaces s1 (λ s2,
  re_lazy_group s2 [] (λ group1 s3,
  re_spaces s3 (λ s4,
  re_lit fence_close s4 (λ _, Some group1))))).

(** [re.search]: the leftmost position where the pattern matches *)
Fixpoint re_search_json_block (s : pystr) : option pystr :=
  match json_block_at s with
  | Some group1 => Some group1
  | None =>
    match s with
    | _ :: s' => re_search_json_block s'
    | [] => None
    end
  end.

(** ** ResponseParser: deepseek_ai.py, [parse_plan_from_response] *)

Definition has_marker (plan : json) : bool :=
  match plan with
  | JDict d => eq_str (dict_get d (u "type")) (u "trip_plan")
  | _ => false
  end.

Section parser.
(** [json.loads], from the standard library *)
Variable json_loads : pystr → result json.

Definition parse_plan_body (response : pystr) : result (option json) :=
  match re_search_json_block response with
  | Some json_str =>
    plan ← json_loads json_str;
    type ← py_get plan (u "type");
    if eq_str type (u "trip_plan") then Ok (Some plan) else Ok None
  | None => Ok None
  end.

Definition parse_plan_from_response (response : pystr) : result (option json) :=
  try_except (parse_plan_body response) (λ _, Ok None).
End parser.

(** ** What "the first fenced JSON block" of a text is *)

Definition all_space (ws : pystr) : Prop := Forall (λ c, is_space c = true) ws.

Definition not_space (c : option N) : Prop :=
  match c with
  | Some c => is_space c = false
  | None => True
  end.

(** [response] is [pre], the opening fence, white space, [body], white
    space, the closing fence and [post], where no opening fence starts in
    [pre], [body] neither starts nor ends with white space, and the closing
    fence is the first triple backquote after the opening one. *)
Definition first_block (response pre ws1 body ws2 post : pystr) : Prop :=
  response = pre ++ fence_open ++ ws1 ++ body ++ ws2 ++ fence_close ++ post
  ∧ py_in fence_open pre = false
  ∧ all_space ws1 ∧ all_space ws2
  ∧ not_space (head body) ∧ not_space (last body)
  ∧ py_in fence_close (body ++ ws2 ++ [96; 96]) = false.

(** ** A decoder for the core of JSON

    [json.loads] itself is a parameter of the development.  To run the
    pipeline on concrete texts, this is the decoder for the part of JSON
    without escapes in strings and without fractions or exponents: objects,
    arrays, plain strings, integers, [true], [false], [null].  On a text of
    that part it returns what [json.loads] returns; outside it, it
    rejects. *)

Definition is_json_ws (c : N) : bool :=
  (c =? 32) || (c =? 9) || (c =? 10) || (c =? 13).

Fixpoint skip_ws (s : pystr) : pystr :=
  match s with
  | c :: s' => if is_json_ws c then skip_ws s' else s
  | [] => []
  end.

Fixpoint scan_string (s acc : pystr) : option (pystr * pystr) :=
  match s with
  | [] => None
  | c :: s' =>
    if c =? 34 then Some (acc, s')
    else if (c =? 92) || (c <? 32) then None
    else scan_string s' (acc ++ [c])
  end.

Definition is_digit (c : N) : bool := (48 <=? c) && (c <=? 57).

Fixpoint scan_digits (s : pystr) (acc : N) : N * pystr :=
  match s with
  | c :: s' => if is_digit c then scan_digits s' (acc * 10 + (c - 48)) else (acc, s)
  | [] => (acc, [])
  end.

(** an integer literal; a fraction or exponent after it is outside the part *)
Definition scan_int (s : pystr) : option (Z * pystr) :=
  let '(neg, s1) := match s with
                    | c :: s' => if c =? 45 then (true, s') else (false, s)
                    | [] => (false, s)
                    end in
  match s1 with
  | c :: s2 =>
    if negb (is_digit c) then None
    else
      let '(n, rest) := if c =? 48 then (0, s2) else scan_digits s1 0 in
      match rest with
      | d :: _ =>
        if (d =? 46) || (d =? 101) || (d =? 69) then None
        else Some (if neg then (- Z.of_N n)%Z else Z.of_N n, rest)
      | [] => Some (if neg then (- Z.of_N n)%Z else Z.of_N n, rest)
      end
  | [] => None
  end.

Fixpoint parse_value (fuel : nat) (s : pystr) : option (json * pystr) :=
  match fuel with
  | O => None
  | S f =>
    match s with
    | [] => None
    | c :: s' =>
      if c =? 34 then
        match scan_string s' [] with
        | Some (t, r) => Some (JStr t, r)
        | None => None
        end
      else if c =? 123 then
        match skip_ws s' with
        | d :: r => if d =? 125 then Some (JDict [], r)
                    else parse_members f (d :: r) []
        | [] => None
        end
      else if c =? 91 then
        match skip_ws s' with
        | d :: r => if d =? 93 then Some (JList [], r)
                    else parse_elements f (d :: r) []
        | [] => None
        end
      else if startswith s [116; 114; 117; 101] then Some (JBool true, drop 4 s)
      else if startswith s [102; 97; 108; 115; 101] then Some (JBool false, drop 5 s)
      else if startswith s [110; 117; 108; 108] then Some (JNull, drop 4 s)
      else
        match scan_int s with
        | Some (z, r) => Some (JInt z, r)
        | None => None
        end
    end
  end
with parse_members (fuel : nat) (s : pystr) (acc : pydict) : option (json * pystr) :=
  match fuel with
  | O => None
  | S f =>
    match s with
    | c :: s1 =>
      if negb (c =? 34) then None
      else
        match scan_string s1 [] with
        | Some (key, s2) =>
          match skip_ws s2 with
          | d :: s3 =>
            if negb (d =? 58) then None
            else
              match parse_value f (skip_ws s3) with
              | Some (v, s4) =>
                match skip_ws s4 with
                | e :: s5 =>
                  if e =? 125 then Some (JDict (dict_set acc key v), s5)
                  else if e =? 44 then parse_members f (skip_ws s5) (dict_set acc key v)
                  else None
                | [] => None
                end
              | None => None
              end
          | [] => None
          end
        | None => None
        end
    | [] => None
    end
  end
with parse_elements (fuel : nat) (s : pystr) (acc : list json) : option (json * pystr) :=
  match fuel with
  | O => None
  | S f =>
    match parse_value f s with
    | Some (v, s1) =>
      match skip_ws s1 with
      | e :: s2 =>
        if e =? 93 then Some (JList (acc ++ [v]), s2)
        else if e =? 44 then parse_elements f (skip_ws s2) (acc ++ [v])
        else None
      | [] => None
      end
    | None => None
    end
  end.

Definition json_loads_core (s : pystr) : result json :=
  match parse_value (S (length s)) (skip_ws s) with
  | Some (v, rest) =>
    match skip_ws rest with
    | [] => Ok v
    | _ => Raise JSONDecodeError
    end
  | None => Raise JSONDecodeError
  end.

(** A literal with the apostrophe standing for the double quote. *)
Definition uq (s : string) : pystr :=
  (λ c, if c =? 39 then 34 else c) <$> u s.

Definition sample_plan_text : pystr :=
  uq "{'type': 'trip_plan', 'title': 'West Lake', 'days': 2}".

Definition sample_plan : json :=
  JDict [(u "type", JStr (u "trip_plan"));
         (u "title", JStr (u "West Lake"));
         (u "days", JInt 2)].

Definition sample_other_text : pystr := uq "{'status': 'ok'}".

Definition sample_response : pystr :=
  u "Day 1: West Lake." ++ [10] ++ fence_open ++ [10] ++ sample_plan_text
    ++ [10] ++ fence_close ++ [10] ++ u "Enjoy!".

Definition sample_second_block : pystr :=
  fence_open ++ [32] ++ sample_plan_text ++ [32] ++ fence_close ++ [].

Definition sample_two_blocks : pystr :=
  (u "Status:" ++ [10]) ++ fence_open ++ [10] ++ sample_other_text ++ [10]
    ++ fence_close ++ ([10] ++ u "Plan:" ++ [10]) ++ sample_second_block.

(** ** The Python runtime

    Functions of the standard library the pipeline calls; they are
    parameters of the development. *)
Record python : Type := {
  (** [json.loads] *)
  json_loads : pystr → result json;
  (** [json.dumps(v, ensure_ascii=False)] *)
  json_dumps : json → pystr;
  (** [str(v)] for a float, a list or a dict *)
  py_repr : json → pystr;
  (** [str.lower] *)
  str_lower : pystr → pystr;
  (** [urllib.parse.urlencode] on a dict of texts *)
  urlencode : list (pystr * pystr) → pystr
}.

Definition dq : pystr := [34].

(** [str(v)], as an f-string formats a value *)
Definition py_str (py : python) (v : json) : pystr :=
  match v with
  | JStr s => s
  | JNull => u "None"
  | JBool true => u "True"
  | JBool false => u "False"
  | JInt z => str_of_int z
  | _ => py_repr py v
  end.

(** [for x in v] *)
Definition py_iter (v : json) : result (list json) :=
  match v with
  | JList l => Ok l
  | JStr s => Ok ((λ c, JStr [c]) <$> s)
  | JDict d => Ok ((λ kv, JStr kv.1) <$> d)
  | _ => Raise TypeError
  end.

(** [v[:n]] for [n >= 0] *)
Definition py_slice_to (v : json) (n : nat) : result json :=
  match v with
  | JList l => Ok (JList (take n l))
  | JStr s => Ok (JStr (take n s))
  | _ => Raise TypeError
  end.

(** [len(v)] *)
Definition py_len (v : json) : result nat :=
  match v with
  | JList l => Ok (length l)
  | JStr s => Ok (length s)
  | JDict d => Ok (length d)
  | _ => Raise TypeError
  end.

Definition as_str (v : json) : result pystr :=
  match v with
  | JStr s => Ok s
  | _ => Raise TypeError
  end.

Fixpoint all_str (l : list json) : result (list pystr) :=
  match l with
  | [] => Ok []
  | v :: l' => s ← as_str v; r ← all_str l'; Ok (s :: r)
  end.

(** [sep.join(v)] *)
Definition py_join (sep : pystr) (v : json) : result pystr :=
  parts ← py_iter v; strs ← all_str parts; Ok (join sep strs).

(** [x or default] for an optional text *)
Definition or_default (x : option pystr) (default : pystr) : pystr :=
  match x with
  | Some (c :: s) => c :: s
  | _ => default
  end.

(** ** Requests: models.py *)

Inductive TransportMode : Type := WALKING | DRIVING | TRANSIT | BICYCLING.

Definition mode_value (m : TransportMode) : pystr :=
  match m with
  | WALKING => u "walking"
  | DRIVING => u "driving"
  | TRANSIT => u "transit"
  | BICYCLING => u "bicycling"
  end.

Record PlanRequest : Type := mkRequest {
  destination : pystr;
  days : Z;
  preferences : list pystr;
  description : option pystr;
  budget : option Z;
  budget_level : option pystr;
  travel_with : option pystr;
  start_date : option pystr;
  transport_mode : TransportMode
}.

(** ** The outside world *)

Inductive event : Type :=
| EvChat (message : pystr) (tools_context : option pystr)
| EvTextSearch (keywords : json) (city : pystr)
| EvAroundSearch (keywords : pystr) (location : json) (radius : Z)
| EvGeocode (address : pystr)
| EvWeather (city : pystr)
| EvRoute (mode : TransportMode) (origin destination : json) (city : pystr)
| EvRouteMap (pois : list POI) (mode : pystr)
| EvDownload (url : pystr)
| EvUnsplash (destination : pystr)
| EvStaticMap (location : pystr)
| EvSearchWeb (query : pystr)
| EvHead (url : pystr).

Abbreviation log := (list event).

(** Every oracle sees the calls made so far.  [Raise] stands for any
    failure of the call: unreachable, unauthorized, timed out, an error
    status, a body that does not decode. *)
Record world : Type := {
  (** AsyncOpenAI: [chat.completions.create], first choice's content *)
  completions_create : log → pystr → option pystr → result pystr;
  (** AmapClient *)
  amap_text_search : log → json → pystr → result (list POI);
  amap_around_search : log → pystr → json → Z → result (list POI);
  amap_geocode : log → pystr → result pydict;
  (** [get_weather]: the values under the two keys of the dict it
      returns, [live] and [forecasts] *)
  amap_weather_info : log → pystr → result (json * json);
  amap_route : log → TransportMode → json → json → pystr → result pydict;
  amap_generate_route_map : log → list POI → pystr → result pystr;
  amap_download_static_map : log → pystr → result (pystr * pystr);
  (** GET api.unsplash.com/search/photos: status and decoded body *)
  unsplash_get : log → pystr → result (Z * json);
  (** [search_ddgs(query, "images", 20)] *)
  ddgs_images : log → pystr → result (list pydict);
  (** HEAD on a URL: status and content-type header *)
  http_head : log → pystr → result (Z * option pystr);
  (** [str(uuid.uuid4())[:8]] and [datetime.now().isoformat()] *)
  uuid4_prefix : log → pystr;
  now_isoformat : log → pystr;
  (** the two picks of [random.choice] in the travelogue template *)
  random_choice : log → nat * nat;
  (** settings *)
  UNSPLASH_ACCESS_KEY : pystr;
  AMAP_WEB_KEY : pystr
}.

(** ** Effects: a log of calls and exceptions *)

Definition M (A : Type) : Type := log → result A * log.

Global Instance M_ret : MRet M := λ A a h, (Ok a, h).
Global Instance M_bind : MBind M := λ A B f m h,
  match m h with
  | (Ok a, h') => f a h'
  | (Raise e, h') => (Raise e, h')
  end.

Definition raise {A} (e : exn) : M A := λ h, (Raise e, h).

Definition lift {A} (r : result A) : M A := λ h, (r, h).

(** [try: body except Exception as e: handler] *)
Definition try_catch {A} (body : M A) (handler : exn → M A) : M A := λ h,
  match body h with
  | (Ok a, h') => (Ok a, h')
  | (Raise e, h') => handler e h'
  end.

(** a call to the outside: logged, then answered *)
Definition call {A} (ev : event) (answer : log → result A) : M A := λ h,
  (answer h, h ++ [ev]).

(** [for x in xs: body], threading the loop's variables [acc] *)
Fixpoint for_each {X S} (xs : list X) (acc : S) (body : X → S → M S) : M S :=
  match xs with
  | [] => mret acc
  | x :: xs' => acc' ← body x acc; for_each xs' acc' body
  end.

(** ** IntentExtractor: planner.py, [_extract_travel_intent] *)

(** planner.py, [_extract_travel_intent]: the prompt of the intent stage *)
Definition extract_prompt (request : PlanRequest) : pystr :=
  concat [
    u "请分析以下旅行需求，提取关键信息并返回JSON格式：

**用户输入：**
- 目的地：";
    destination request;
    u "
- 天数：";
    str_of_int (days request);
    u "天
- 偏好标签：";
    (if bool_decide (preferences request = []) then u "无" else join (u ", ") (preferences request));
    u "
- 详细描述：";
    or_default (description request) (u "无");
    u "
- 出行方式：";
    mode_value (transport_mode request);
    u "
- 预算级别：";
    or_default (budget_level request) (u "未指定");
    u "
- 出行人群：";
    or_default (travel_with request) (u "未指定");
    u "
- 出发日期：";
    or_default (start_date request) (u "未指定");
    u "

**请提取以下信息，返回JSON格式：**
```json
{
    ";
    dq;
    u "specific_places";
    dq;
    u ": [";
    dq;
    u "用户明确提到想去的具体地点/景点";
    dq;
    u "],
    ";
    dq;
    u "must_eat";
    dq;
    u ": [";
    dq;
    u "用户明确提到想吃的美食/餐厅";
    dq;
    u "],
    ";
    dq;
    u "travel_style";
    dq;
    u ": ";
    dq;
    u "休闲慢游/紧凑高效/深度体验/打卡拍照";
    dq;
    u ",
    ";
    dq;
    u "special_needs";
    dq;
    u ": [";
    dq;
    u "特殊需求，如带小孩、老人、轮椅、宠物等";
    dq;
    u "],
    ";
    dq;
    u "budget_sensitivity";
    dq;
    u ": ";
    dq;
    u "高/中/低";
    dq;
    u ",
    ";
    dq;
    u "photo_spots_needed";
    dq;
    u ": true/false,
    ";
    dq;
    u "local_experience";
    dq;
    u ": true/false,
    ";
    dq;
    u "avoid_crowds";
    dq;
    u ": true/false,
    ";
    dq;
    u "food_priority";
    dq;
    u ": ";
    dq;
    u "高/中/低";
    dq;
    u ",
    ";
    dq;
    u "suggested_areas";
    dq;
    u ": [";
    dq;
    u "建议重点游览的区域";
    dq;
    u "],
    ";
    dq;
    u "search_keywords";
    dq;
    u ": [";
    dq;
    u "用于搜索景点的关键词列表";
    dq;
    u "]
}
```

只返回JSON，不要其他内容。"
  ].


Definition default_intent (request : PlanRequest) : json :=
  JDict [
    (u "specific_places", JList []);
    (u "must_eat", JList []);
    (u "travel_style", JStr (u "综合体验"));
    (u "special_needs", JList []);
    (u "budget_sensitivity", JStr (u "中"));
    (u "photo_spots_needed", JBool true);
    (u "local_experience", JBool true);
    (u "avoid_crowds", JBool false);
    (u "food_priority", JStr (u "中"));
    (u "suggested_areas", JList [JStr (destination request)]);
    (u "search_keywords",
       JList [JStr (destination request ++ u "必去景点");
              JStr (destination request ++ u "网红打卡")])
  ].

(** The TravelIntent of the design document: every key present, with its
    type. *)
Definition is_str_list (v : option json) : bool :=
  match v with
  | Some (JList l) => forallb (λ x, match x with JStr _ => true | _ => false end) l
  | _ => false
  end.

Definition is_str (v : option json) : bool :=
  match v with
  | Some (JStr _) => true
  | _ => false
  end.

Definition is_bool (v : option json) : bool :=
  match v with
  | Some (JBool _) => true
  | _ => false
  end.

Definition structurally_valid (intent : json) : bool :=
  match intent with
  | JDict d =>
    is_str_list (dict_get d (u "specific_places"))
    && is_str_list (dict_get d (u "must_eat"))
    && is_str (dict_get d (u "travel_style"))
    && is_str_list (dict_get d (u "special_needs"))
    && is_str (dict_get d (u "budget_sensitivity"))
    && is_bool (dict_get d (u "photo_spots_needed"))
    && is_bool (dict_get d (u "local_experience"))
    && is_bool (dict_get d (u "avoid_crowds"))
    && is_str (dict_get d (u "food_priority"))
    && is_str_list (dict_get d (u "suggested_areas"))
    && is_str_list (dict_get d (u "search_keywords"))
  | _ => false
  end.

Section intent.
Variable py : python.
Variable W : world.

(** deepseek_ai.py, [DeepSeekAI.chat]: every failure of the call is
    raised again as one exception *)
Definition chat (message : pystr) (tools_context : option pystr) : M pystr :=
  try_catch
    (call (EvChat message tools_context)
          (λ h, completions_create W h message tools_context))
    (λ _, raise (ProviderError (u "DeepSeek API 调用失败"))).

(** what the intent stage makes of the provider's text *)
Definition decode_intent (response : pystr) : result json :=
  match re_search_json_block response with
  | Some group1 => json_loads py group1
  | None => json_loads py response
  end.

Definition _extract_travel_intent (request : PlanRequest) : M json :=
  try_catch
    (response ← chat (extract_prompt request) None;
     lift (decode_intent response))
    (λ _, mret (default_intent request)).
End intent.

(** A runtime and a world to run examples in: the core decoder, and a
    world where only the chat provider answers. *)
Definition ascii_lower (s : pystr) : pystr :=
  (λ c, if (65 <=? c) && (c <=? 90) then c + 32 else c) <$> s.

Definition core_python : python := {|
  json_loads := json_loads_core;
  json_dumps := λ _, u "null";
  py_repr := λ _, u "?";
  str_lower := ascii_lower;
  urlencode := λ params,
    join (u "&") ((λ kv, kv.1 ++ u "=" ++ kv.2) <$> params)
|}.

Definition unreachable : exn := ProviderError (u "unreachable").

Definition offline_world : world := {|
  completions_create := λ _ _ _, Raise unreachable;
  amap_text_search := λ _ _ _, Raise unreachable;
  amap_around_search := λ _ _ _ _, Raise unreachable;
  amap_geocode := λ _ _, Raise unreachable;
  amap_weather_info := λ _ _, Raise unreachable;
  amap_route := λ _ _ _ _ _, Raise unreachable;
  amap_generate_route_map := λ _ _ _, Raise unreachable;
  amap_download_static_map := λ _ _, Raise unreachable;
  unsplash_get := λ _ _, Raise unreachable;
  ddgs_images := λ _ _, Raise unreachable;
  http_head := λ _ _, Raise unreachable;
  uuid4_prefix := λ _, u "0a1b2c3d";
  now_isoformat := λ _, u "2025-01-01T00:00:00";
  random_choice := λ _, (0, 0)%nat;
  UNSPLASH_ACCESS_KEY := [];
  AMAP_WEB_KEY := []
|}.

Definition with_chat (W : world)
    (answer : log → pystr → option pystr → result pystr) : world := {|
  completions_create := answer;
  amap_text_search := amap_text_search W;
  amap_around_search := amap_around_search W;
  amap_geocode := amap_geocode W;
  amap_weather_info := amap_weather_info W;
  amap_route := amap_route W;
  amap_generate_route_map := amap_generate_route_map W;
  amap_download_static_map := amap_download_static_map W;
  unsplash_get := unsplash_get W;
  ddgs_images := ddgs_images W;
  http_head := http_head W;
  uuid4_prefix := uuid4_prefix W;
  now_isoformat := now_isoformat W;
  random_choice := random_choice W;
  UNSPLASH_ACCESS_KEY := UNSPLASH_ACCESS_KEY W;
  AMAP_WEB_KEY := AMAP_WEB_KEY W
|}.

Definition with_images (W : world)
    (found : list pydict) (head : result (Z * option pystr)) : world := {|
  completions_create := completions_create W;
  amap_text_search := amap_text_search W;
  amap_around_search := amap_around_search W;
  amap_geocode := amap_geocode W;
  amap_weather_info := amap_weather_info W;
  amap_route := amap_route W;
  amap_generate_route_map := amap_generate_route_map W;
  amap_download_static_map := amap_download_static_map W;
  unsplash_get := unsplash_get W;
  ddgs_images := λ _ _, Ok found;
  http_head := λ _ _, head;
  uuid4_prefix := uuid4_prefix W;
  now_isoformat := now_isoformat W;
  random_choice := random_choice W;
  UNSPLASH_ACCESS_KEY := UNSPLASH_ACCESS_KEY W;
  AMAP_WEB_KEY := AMAP_WEB_KEY W
|}.

Definition with_premium (W : world) (answer : result (Z * json)) : world := {|
  completions_create := completions_create W;
  amap_text_search := amap_text_search W;
  amap_around_search := amap_around_search W;
  amap_geocode := amap_geocode W;
  amap_weather_info := amap_weather_info W;
  amap_route := amap_route W;
  amap_generate_route_map := amap_generate_route_map W;
  amap_download_static_map := amap_download_static_map W;
  unsplash_get := λ _ _, answer;
  ddgs_images := ddgs_images W;
  http_head := http_head W;
  uuid4_prefix := uuid4_prefix W;
  now_isoformat := now_isoformat W;
  random_choice := random_choice W;
  UNSPLASH_ACCESS_KEY := u "key";
  AMAP_WEB_KEY := u "key"
|}.

Definition chat_only_world (answer : pystr → option pystr → result pystr) : world :=
  with_chat offline_world (λ _, answer).

Definition hangzhou : PlanRequest := {|
  destination := u "杭州";
  days := 2;
  preferences := [u "美食"];
  description := None;
  budget := None;
  budget_level := None;
  travel_with := None;
  start_date := None;
  transport_mode := TRANSIT
|}.

(** ** A program logic for [M]: the computation returns, and [Q] holds of
    its value and final log *)
Definition wp {A} (m : M A) (Q : A → log → Prop) (h : log) : Prop :=
  ∃ a h', m h = (Ok a, h') ∧ Q a h'.

(** ** ImageResolver: search.py *)

(** [v[k]] on a [dict] and [v[0]] on a sequence *)
Definition py_getitem (v : json) (k : pystr) : result json :=
  match v with
  | JDict d =>
    match dict_get d k with
    | Some x => Ok x
    | None => Raise KeyError
    end
  | _ => Raise TypeError
  end.

Definition py_index0 (v : json) : result json :=
  match v with
  | JList (x :: _) => Ok x
  | JList [] => Raise IndexError
  | JStr (c :: _) => Ok (JStr [c])
  | JStr [] => Raise IndexError
  | JDict _ => Raise KeyError
  | _ => Raise TypeError
  end.

(** [d.get(k, default)] on a value *)
Definition py_get_default (v : json) (k : pystr) (default : json) : result json :=
  o ← py_get v k; Ok (from_option id default o).

(** [a or b] *)
Definition py_or (a b : json) : json := if truthy a then a else b.

Definition get_or_none (d : pydict) (k : pystr) : json :=
  from_option id JNull (dict_get d k).

Definition invalid_domains : list pystr :=
  [ u "mmbiz.qpic.cn"; u "kuaizhan.com"; u "qpic.cn"; u "sinaimg.cn";
    u "dmjnb.com"; u "bdimg.com"; u "baidustatic.com"; u "sogoucdn.com";
    u "360buyimg.com"; u "alicdn.com"; u "ctrip.com"; u "mafengwo.net";
    u "duitang.com"; u "huaban.com"; u "nipic.com"; u "58pic.com"; u "zcool.cn" ].

Definition valid_patterns : list pystr :=
  [ u ".jpg"; u ".jpeg"; u ".png"; u ".webp"; u ".gif";
    u "unsplash.com"; u "pexels.com"; u "pixabay.com";
    u "cloudfront.net"; u "amazonaws.com";
    u "googleusercontent.com"; u "flickr.com"; u "staticflickr.com";
    u "wikimedia.org"; u "wikipedia.org" ].

Definition image_types : list pystr := [ u "image/"; u "octet-stream" ].

Section images.
Variable py : python.
Variable W : world.

(** the first result's regular-size URL, in a body of status 200 *)
Definition unsplash_first_regular (data : json) : result json :=
  results ← py_get_default data (u "results") (JList []);
  if truthy results then
    first ← py_index0 results;
    urls ← py_getitem first (u "urls");
    py_getitem urls (u "regular")
  else Ok JNull.

Definition search_unsplash_image (destination : pystr) : M json :=
  if bool_decide (UNSPLASH_ACCESS_KEY W = []) then mret JNull
  else
    try_catch
      (response ← call (EvUnsplash destination)
                    (λ h, unsplash_get W h destination);
       if (response.1 =? 200)%Z
       then lift (unsplash_first_regular response.2)
       else mret JNull)
      (λ _, mret JNull).

Definition marker_text (m : json) : result pystr :=
  lng ← py_get_default m (u "lng") (JStr []);
  lat ← py_get_default m (u "lat") (JStr []);
  Ok (py_str py lng ++ u "," ++ py_str py lat).

Fixpoint marker_texts (ms : list json) : result (list pystr) :=
  match ms with
  | [] => Ok []
  | m :: ms' => t ← marker_text m; r ← marker_texts ms'; Ok (t :: r)
  end.

Definition get_amap_static_image (location : pystr) (markers : option (list json))
    : result pystr :=
  let params := [ (u "location", location); (u "zoom", u "12");
                  (u "size", u "750*500"); (u "scale", u "2");
                  (u "key", AMAP_WEB_KEY W) ] in
  params' ←
    match markers with
    | Some (m :: ms) =>
      texts ← marker_texts (take 5 (m :: ms));
      Ok (params ++ [(u "markers", u "mid,0x2CB67D,A:" ++ join (u "|") texts)])
    | _ => Ok params
    end;
  Ok (u "https://restapi.amap.com/v3/staticmap" ++ u "?" ++ urlencode py params').

Definition search_web (query : pystr) : M (list pydict) :=
  try_catch (call (EvSearchWeb query) (λ h, ddgs_images W h query))
            (λ _, mret []).

(** the checks one search result goes through: [None] is filtered out,
    [Some url] is a candidate; a value that is not text raises *)
Definition check_candidate (item : pydict) : result (option pystr) :=
  let image_url :=
    py_or (get_or_none item (u "image")) (get_or_none item (u "thumbnail")) in
  if negb (truthy image_url) then Ok None
  else
    match image_url with
    | JStr url =>
      if negb (startswith url (u "https://")) then Ok None
      else if existsb (λ domain, py_in domain url) invalid_domains then Ok None
      else if negb (existsb (λ pattern, py_in pattern (str_lower py url))
                            valid_patterns)
      then Ok None
      else Ok (Some url)
    | _ => Raise AttributeError
    end.

(** the loop over the results; an exception ends it and keeps the
    candidates found so far *)
Fixpoint scan_results (results : list pydict) (valid_images : list pystr)
    : list pystr :=
  match results with
  | [] => valid_images
  | r :: rest =>
    match check_candidate r with
    | Raise _ => valid_images
    | Ok None => scan_results rest valid_images
    | Ok (Some url) =>
      if (5 <=? length (valid_images ++ [url]))%nat
      then valid_images ++ [url]
      else scan_results rest (valid_images ++ [url])
    end
  end.

(** what a HEAD answer must be for the URL to count as an image *)
Definition head_accepts (answer : result (Z * option pystr)) : bool :=
  match answer with
  | Ok (status, content_type) =>
    (status =? 200)%Z
    && existsb (λ t, py_in t (str_lower py (default [] content_type))) image_types
  | Raise _ => false
  end.

Definition _verify_image_accessible (url : pystr) : M bool :=
  try_catch
    (response ← call (EvHead url) (λ h, http_head W h url);
     if negb (response.1 =? 200)%Z then mret false
     else if negb (existsb (λ t, py_in t (str_lower py (default [] response.2)))
                           image_types)
     then mret false
     else mret true)
    (λ _, mret false).

Fixpoint verify_loop (valid_images : list pystr) : M json :=
  match valid_images with
  | [] => mret JNull
  | image_url :: rest =>
    try_catch (_verify_image_accessible image_url) (λ _, mret false)
    ≫= λ accessible : bool,
      if accessible then mret (JStr image_url) else verify_loop rest
  end.

Definition image_query (destination : pystr) : pystr :=
  destination ++ u " travel scenery landscape".

Definition search_web_tier (destination : pystr) : M json :=
  try_catch
    (results ← search_web (image_query destination);
     let valid_images := scan_results results [] in
     if bool_decide (valid_images = []) then mret JNull
     else verify_loop valid_images)
    (λ _, mret JNull).

Definition static_map_tier (location : option pystr) (markers : option (list json))
    : M (option pystr) :=
  match location with
  | Some (c :: loc) =>
    if bool_decide (AMAP_WEB_KEY W = []) then mret None
    else
      try_catch
        (amap_url ← call (EvStaticMap (c :: loc))
                      (λ _, get_amap_static_image (c :: loc) markers);
         mret (Some amap_url))
        (λ _, mret None)
  | _ => mret None
  end.

Definition search_destination_image (destination : pystr)
    (location : option pystr) (markers : option (list json)) : M json :=
  unsplash_url ← try_catch (search_unsplash_image destination)
                           (λ _, mret JNull);
  if truthy unsplash_url then mret unsplash_url
  else
    amap_url ← static_map_tier location markers;
    match amap_url with
    | Some url => mret (JStr url)
    | None => search_web_tier destination
    end.
End images.

(** what the design document asks of a surviving candidate *)
Definition candidate_ok (py : python) (url : pystr) : Prop :=
  (∃ rest, url = u "https://" ++ rest)
  ∧ Forall (λ domain, ¬ contains url domain) invalid_domains
  ∧ Exists (λ pattern, contains (str_lower py url) pattern) valid_patterns.

(** the log after the first [i] candidates were probed *)
Definition probed (h : log) (candidates : list pystr) (i : nat) : log :=
  h ++ (EvHead <$> take i candidates).

Definition is_dict (v : json) : Prop := ∃ d, v = JDict d.

(** markers as [List[Dict]] *)
Definition markers_typed (markers : option (list json)) : Prop :=
  ∀ ms, markers = Some ms → Forall is_dict ms.

(** Worlds to run the image tiers in. *)
Definition jpg_url : pystr := u "https://example.com/a.jpg".

Definition octet_stream_world : world :=
  with_images offline_world [[(u "image", JStr jpg_url)]]
    (Ok (200%Z, Some (u "application/octet-stream"))).

Definition premium_url : pystr := u "https://images.unsplash.com/photo-1".

Definition premium_world : world :=
  with_premium
    (with_images offline_world [[(u "image", JStr jpg_url)]]
       (Ok (200%Z, Some (u "image/jpeg"))))
    (Ok (200%Z,
         JDict [(u "results",
                 JList [JDict [(u "urls",
                                JDict [(u "regular", JStr premium_url)])]])])).

(** ** PlanEnricher: planner.py, [_enrich_plan] *)

Fixpoint map_M {X Y} (f : X → M Y) (xs : list X) : M (list Y) :=
  match xs with
  | [] => mret []
  | x :: xs' => y ← f x; ys ← map_M f xs'; mret (y :: ys)
  end.

Definition truthy_opt (v : option json) : bool :=
  match v with
  | Some x => truthy x
  | None => false
  end.

Section enrich.
Variable py : python.
Variable W : world.
Variable request : PlanRequest.

(** [_calculate_route]: one of the four route services by mode *)
Definition _calculate_route (origin dest : json) : M pydict :=
  call (EvRoute (transport_mode request) origin dest (destination request))
       (λ h, amap_route W h (transport_mode request) origin dest
               (destination request)).

(** the coordinate lookup of a POI without location *)
Definition fill_location (poi : pydict) : M pydict :=
  try_catch
    (name ← lift (py_getitem (JDict poi) (u "name"));
     results ← call (EvTextSearch name (destination request))
                 (λ h, amap_text_search W h name (destination request));
     match results with
     | r :: _ =>
       mret (dict_set
               (dict_set (dict_set poi (u "location") (poi_location r))
                         (u "address") (JStr (poi_address r)))
               (u "id") (poi_id r))
     | [] => mret poi
     end)
    (λ _, mret poi).

(** the image lookup of a POI without image *)
Definition fill_image (poi : pydict) : M pydict :=
  try_catch
    (name ← lift (py_getitem (JDict poi) (u "name"));
     image_url ← search_destination_image py W
                   (destination request ++ u " " ++ py_str py name) None None;
     if truthy image_url
     then mret (dict_set poi (u "image_url") image_url)
     else mret poi)
    (λ _, mret poi).

(** the body of [for poi in pois]; [poi.get] needs a dict *)
Definition enrich_poi (poi : json) : M json :=
  match poi with
  | JDict d =>
    d1 ← (if negb (truthy_opt (dict_get d (u "location")))
          then fill_location d else mret d);
    d2 ← (if negb (truthy_opt (dict_get d1 (u "image_url")))
          then fill_image d1 else mret d1);
    mret (JDict d2)
  | _ => raise AttributeError
  end.

Definition route_entry (a b : json) (route : pydict) : result json :=
  origin ← py_getitem a (u "name");
  dest ← py_getitem b (u "name");
  Ok (JDict (foldl (λ d kv, dict_set d kv.1 kv.2)
               [ (u "origin", origin); (u "destination", dest);
                 (u "mode", JStr (mode_value (transport_mode request))) ]
               route)).

(** the body of [for i in range(len(pois) - 1)] for the pair
    [pois[i]], [pois[i+1]] *)
Definition route_step (a b : json) (routes : list json) : M (list json) :=
  la ← lift (py_get a (u "location"));
  lb ← (if truthy_opt la then lift (py_get b (u "location")) else mret None);
  if truthy_opt la && truthy_opt lb
  then try_catch
         (origin ← lift (py_getitem a (u "location"));
          dest ← lift (py_getitem b (u "location"));
          route ← _calculate_route origin dest;
          entry ← lift (route_entry a b route);
          mret (routes ++ [entry]))
         (λ _, mret routes)
  else mret routes.

Fixpoint route_loop (pois : list json) (routes : list json) : M (list json) :=
  match pois with
  | a :: rest =>
    match rest with
    | b :: _ => routes' ← route_step a b routes; route_loop rest routes'
    | [] => mret routes
    end
  | [] => mret routes
  end.

(** the body of [for day_plan in ...]; the POI dicts are changed in
    place, so the day's own list shows the changes *)
Definition enrich_day (day_plan : json) : M json :=
  match day_plan with
  | JDict d =>
    let pois := from_option id (JList []) (dict_get d (u "pois")) in
    items ← lift (py_iter pois);
    items' ← map_M enrich_poi items;
    let pois' := match pois with JList _ => JList items' | _ => pois end in
    routes ← route_loop (match pois' with JList l => l | _ => [] end) [];
    let d' := match dict_get d (u "pois") with
              | Some _ => dict_set d (u "pois") pois'
              | None => d
              end in
    mret (JDict (dict_set d' (u "routes") (JList routes)))
  | _ => raise AttributeError
  end.

Definition _enrich_plan (plan : json) : M json :=
  match plan with
  | JDict d =>
    λ h,
      (let d1 := dict_set (dict_set d (u "id") (JStr (uuid4_prefix W h)))
                          (u "created_at") (JStr (now_isoformat W h)) in
       let daily := from_option id (JList []) (dict_get d1 (u "daily_plans")) in
       days ← lift (py_iter daily);
       days' ← map_M enrich_day days;
       mret (JDict match dict_get d1 (u "daily_plans") with
                   | Some (JList _) => dict_set d1 (u "daily_plans") (JList days')
                   | _ => d1
                   end)) h
  | _ => raise TypeError
  end.
End enrich.

(** *** Shapes of a decoded plan *)

(** a POI that already has a coordinate and an image *)
Definition complete_poi (poi : json) : Prop :=
  ∃ d, poi = JDict d
       ∧ truthy_opt (dict_get d (u "location")) = true
       ∧ truthy_opt (dict_get d (u "image_url")) = true.

(** a day: an object whose [pois], when there, is a list of [P]s *)
Definition day_of (P : json → Prop) (day : json) : Prop :=
  ∃ d, day = JDict d
       ∧ match dict_get d (u "pois") with
         | None => True
         | Some (JList l) => Forall P l
         | Some _ => False
         end.

(** a plan: an object whose [daily_plans], when there, is a list of days *)
Definition plan_of (P : json → Prop) (plan : json) : Prop :=
  ∃ d, plan = JDict d
       ∧ match dict_get d (u "daily_plans") with
         | None => True
         | Some (JList days) => Forall (day_of P) days
         | Some _ => False
         end.

(** the POI lists of a plan, day by day *)
Definition day_pois (day : json) : option json :=
  match day with
  | JDict d => dict_get d (u "pois")
  | _ => None
  end.

Definition plan_pois (plan : json) : list (option json) :=
  match plan with
  | JDict d =>
    match dict_get d (u "daily_plans") with
    | Some (JList days) => day_pois <$> days
    | _ => []
    end
  | _ => []
  end.

(** the log grew by events of kind [E] only *)
Definition extends (E : event → Prop) (h h' : log) : Prop :=
  ∃ evs, h' = h ++ evs ∧ Forall E evs.

Definition is_route_event (ev : event) : Prop :=
  match ev with
  | EvRoute _ _ _ _ => True
  | _ => False
  end.

Definition is_lookup_event (ev : event) : Prop :=
  match ev with
  | EvTextSearch _ _ | EvUnsplash _ | EvStaticMap _ | EvSearchWeb _ | EvHead _ => True
  | _ => False
  end.

(** the computation returns *)
Definition returns {A} (m : M A) (h : log) : Prop := ∃ a h', m h = (Ok a, h').

(** ** PromptBuilder: planner.py, [_build_prompt_with_intent] *)

(** The context bundle [_gather_context_with_intent] builds.  [weather] and
    [photo_spots] are keys that may be missing. *)
Record Context : Type := mkContext {
  ctx_weather : option pydict;
  ctx_attractions : list POI;
  ctx_food : list POI;
  ctx_hotels : list POI;
  ctx_photo_spots : option (list POI);
  ctx_summary : pystr;
  ctx_intent : json
}.

Definition nl : pystr := [10].

(** planner.py, [_build_prompt_with_intent]: the weather paragraph *)
Definition weather_section_text (weather_info weather_tips : pystr) : pystr :=
  concat [
    u "
**🌤️ 天气情况与出行建议：**
";
    weather_info;
    u "
";
    weather_tips;
    u "

请在攻略开头根据以上天气信息，给出穿衣建议、防晒/防雨提醒、以及是否适合户外活动的建议。

"
  ].

(** planner.py, [_build_prompt_with_intent]: the planning template *)
Definition planning_prompt (request : PlanRequest)
    (weather_section intent_text prefs transport_desc budget_str date_str desc_str
     attractions_info food_info hotel_info photo_info : pystr) : pystr :=
  concat [
    u "你是一位经验丰富、亲切专业的旅行规划师，请为游客规划 ";
    destination request;
    u " ";
    str_of_int (days request);
    u " 天的旅行攻略。
";
    weather_section;
    u "
**用户需求分析：**
";
    intent_text;
    u "

**基本信息：**
- 📍 目的地：";
    destination request;
    u "
- 📅 天数：";
    str_of_int (days request);
    u " 天
- 💝 偏好：";
    prefs;
    u "
- 🚗 出行方式：";
    transport_desc;
    budget_str;
    date_str;
    desc_str;
    u "
";
    attractions_info;
    food_info;
    hotel_info;
    photo_info;
    u "

**写作风格要求：**
- 以专业导游的口吻，亲切但不失专业
- 使用";
    dq;
    u "您";
    dq;
    u "称呼游客，给出贴心建议
- 适当使用emoji增加可读性 🎉✨🔥
- 推荐要具体实用，说明景点特色和游玩要点
- 提醒注意事项和避坑指南
- 使用标记符号：
  · 📍 地点  · 💰 费用  · ⭐ 推荐指数
  · 🔥 必去  · 💡 小贴士  · ⚠️ 注意事项
  · 📸 拍照点  · 🍜 美食  · 🏨 住宿  · 🚇 交通
- 标题用【】包裹，如【Day1 ";
    destination request;
    u "初印象】
- 段落清晰，阅读舒适

**交通信息要求（重要！）：**
每个景点之间必须给出详细的交通指引：
- � 地铁：具体到「X号线」，在「XX站」下车，从「X出口」出
- � 公交：具体到「X路/X路」公交车，在「XX站」上下车
- � 步行：标注大约步行时间，如「步行约10分钟」
- � 打车：标注预估费用和时间，如「打车约15分钟，费用20-30元」
- 示例格式：
  「🚇 交通：乘地铁1号线到龙翔桥站，A出口出站后步行5分钟即到」
  「� 交通：乘7路/K7路公交到断桥站下车」

**规划要求：**
1. **优先满足用户明确提到的地点和需求**
2. 路线合理，同一区域的景点安排在一起，避免来回折腾
3. 每天安排3-4个主要景点，节奏适中，留有休息时间
4. 每个景点标注：门票价格、建议游玩时长、最佳游玩时间
5. 🍜 推荐当地特色美食和餐厅，标注人均价格和招牌菜
6. 📸 标注拍照打卡点和最佳拍摄时间
7. 💰 每天末尾预估当日花费
8. ⚠️ 提醒注意事项（如提前预约、穿着建议、防晒防雨等）
9. 💡 给出实用的本地tips和省钱攻略

**时间安排：**
- 用大致时间段：「上午」「中午」「下午」「傍晚」「晚上」
- 或自然表达：「早起」「午后」「黄昏」「夜间」

**输出格式示例：**
【Day1 ";
    destination request;
    u "初印象】

📍 **上午 | 景点名称** ⭐⭐⭐⭐⭐
🔥 推荐理由：xxx
💰 门票：XX元 | ⏰ 建议游玩：2小时
📸 拍照点：xxx
💡 小贴士：xxx

🚇 **交通**：乘地铁X号线到XX站，X出口步行X分钟

🍜 **中午 | 午餐推荐**：餐厅名称
📍 地址：xxx
💰 人均：XX元 | 🌟 招牌菜：xxx

📍 **下午 | 景点名称** ⭐⭐⭐⭐
...

💰 **今日预估花费**：约XXX元

————————

请生成详细的行程攻略，最后附上JSON格式的结构化数据（用```json```包裹）。"
  ].

(** planner.py, [_build_travelogue_prompt]: the openings and personas
    [random.choice] picks from *)
Definition opening_styles (request : PlanRequest) : list pystr :=
  [ concat [u "刚从"; destination request; u "回来！趁着记忆还热乎，赶紧把这"; str_of_int (days request); u "天的行程整理出来分享给大家～"];
    concat [u "终于把"; destination request; u "之旅的攻略整理好了！这次"; str_of_int (days request); u "天的旅程真的太难忘了，必须记录下来！"];
    concat [u "去了一趟"; destination request; u "，被彻底种草了！"; str_of_int (days request); u "天玩下来，感觉还没玩够，先把这次的经验分享给你们～"];
    concat [u "心心念念的"; destination request; u "终于去成了！"; str_of_int (days request); u "天行程安排得明明白白，现在来交作业啦～"];
    concat [u "上周刚结束的"; destination request; u "之旅，"; str_of_int (days request); u "天暴走但超值！来给姐妹们避坑+种草～"];
    concat [u "这次"; destination request; str_of_int (days request); u "日游真的是我今年最满意的一次旅行！忍不住要分享给大家～"];
    concat [u "作为一个去过"; destination request; u "三次的人，这次"; str_of_int (days request); u "天的深度游终于让我摸透了这座城市！"];
    concat [u "原本只是想去"; destination request; u "躺平几天，结果"; str_of_int (days request); u "天玩得比上班还累（但是很快乐）！"];
    concat [u "和朋友的"; destination request; str_of_int (days request); u "日游圆满结束！这份攻略请收好，亲测有效～"];
    concat [u "一直想去"; destination request; u "，这次终于成行！"; str_of_int (days request); u "天的行程安排分享给同样想去的朋友～"] ].

Definition personas : list pystr :=
  [ u "作为一个资深吃货";
    u "作为一个摄影爱好者";
    u "作为一个喜欢深度游的人";
    u "作为一个预算有限的学生党";
    u "作为一个带娃出行的宝妈";
    u "作为一个喜欢慢节奏的人";
    u "作为一个第一次去的小白";
    u "作为一个本地朋友带着玩的幸运儿" ].

(** planner.py, [_build_travelogue_prompt]: the travelogue template *)
Definition travelogue_prompt (request : PlanRequest)
    (opening persona prefs food_info hotel_info : pystr) : pystr :=
  concat [
    u "你是一个真实的小红书旅行博主，请以第一人称写一篇";
    destination request;
    str_of_int (days request);
    u "天游记风格的攻略。

**重要：这是一篇";
    dq;
    u "已经发生";
    dq;
    u "的旅行分享，不是未来规划！**

**开头请使用这个风格（可以稍作修改）：**
";
    dq;
    opening;
    dq;
    u "

**写作人设：**
";
    persona;
    u "，分享自己真实的旅行体验。

**写作风格要求（小红书风格）：**
- 用第一人称";
    dq;
    u "我";
    dq;
    u "来写，像是在跟闺蜜/好友聊天分享
- 大量使用emoji表情符号 🎉✨🔥💯😍🥰
- 使用小红书常见的标记符号：
  · 📍 标注地点
  · 💰 标注价格/费用
  · ⭐ 标注推荐指数（⭐⭐⭐⭐⭐）
  · 🔥 标注热门/必去
  · 💡 标注小贴士
  · ⚠️ 标注避坑提醒
  · 📸 标注拍照点
  · 🍜 标注美食
- 用「」『』等符号突出重点
- 标题用【】包裹，如【Day1】【必吃美食】
- 适当使用分割线 ———— 或 ·····
- 要有真实感，可以说";
    dq;
    u "我们当时...";
    dq;
    u "、";
    dq;
    u "到了才发现...";
    dq;
    u "、";
    dq;
    u "幸好提前...";
    dq;
    u "
- 分享真实的感受，比如";
    dq;
    u "比想象中更美";
    dq;
    u "、";
    dq;
    u "有点失望";
    dq;
    u "、";
    dq;
    u "意外惊喜";
    dq;
    u "
- 可以吐槽一些小问题，增加真实感
- 推荐的店要说";
    dq;
    u "我吃了xxx，味道...";
    dq;
    u "而不是";
    dq;
    u "推荐xxx";
    dq;
    u "

**时间描述要求：**
- 不要写精确到分钟的时间如";
    dq;
    u "9:00";
    dq;
    u "、";
    dq;
    u "14:30";
    dq;
    u "
- 用大致时间段，如";
    dq;
    u "上午";
    dq;
    u "、";
    dq;
    u "中午";
    dq;
    u "、";
    dq;
    u "下午";
    dq;
    u "、";
    dq;
    u "傍晚";
    dq;
    u "、";
    dq;
    u "晚上";
    dq;
    u "等等
- 或用自然表达如";
    dq;
    u "早起";
    dq;
    u "、";
    dq;
    u "午后";
    dq;
    u "、";
    dq;
    u "黄昏";
    dq;
    u "、";
    dq;
    u "睡前";
    dq;
    u "等等

**旅行信息：**
- 📍 目的地：";
    destination request;
    u "
- 📅 天数：";
    str_of_int (days request);
    u " 天
- 💝 主题偏好：";
    prefs;
    u "
";
    food_info;
    hotel_info;
    u "

**内容结构：**
1. 开头引入（用上面的风格）+ 行程概览
2. 💡 行前准备小tips
3. 每天的详细行程（【Day1】【Day2】...）
4. 🍜 美食推荐（要说自己吃了什么，标注人均💰）
5. ⚠️ 踩坑提醒（真实遇到的问题）
6. ✨ 总结和建议

请生成完整的游记攻略，最后附上JSON格式的结构化数据（用```json```包裹）。"
  ].


Definition transport_desc_of (m : TransportMode) : pystr :=
  match m with
  | WALKING => u "步行为主"
  | DRIVING => u "自驾出行"
  | TRANSIT => u "公共交通"
  | BICYCLING => u "灵活安排"
  end.

Definition budget_map_get (level : pystr) : pystr :=
  if bool_decide (level = u "low") then u "穷游省钱"
  else if bool_decide (level = u "medium") then u "舒适性价比"
  else if bool_decide (level = u "high") then u "轻奢品质"
  else level.

Definition budget_str_of (request : PlanRequest) : pystr :=
  match budget_level request with
  | Some (c :: l) => nl ++ u "- 💰 预算偏好：" ++ budget_map_get (c :: l)
  | _ => []
  end.

Definition date_str_of (request : PlanRequest) : pystr :=
  match start_date request with
  | Some (c :: l) => nl ++ u "- 📅 出发日期：" ++ (c :: l)
  | _ => []
  end.

Definition desc_str_of (request : PlanRequest) : pystr :=
  match description request with
  | Some (c :: l) => nl ++ u "- 📝 详细需求：" ++ (c :: l)
  | _ => []
  end.

Definition prefs_of (request : PlanRequest) : pystr :=
  if bool_decide (preferences request = []) then u "综合体验"
  else join (u "、") (preferences request).

Definition attractions_info_of (context : Context) : pystr :=
  match ctx_attractions context with
  | [] => []
  | l => nl ++ nl ++ u "**已查询到的热门景点（可参考）：**" ++ nl
         ++ join (u ", ") (poi_name <$> take 10 l)
  end.

Definition hotel_info_of (context : Context) : pystr :=
  match ctx_hotels context with
  | [] => []
  | l => nl ++ nl ++ u "**推荐住宿区域/酒店：**" ++ nl
         ++ join (u ", ") (poi_name <$> take 5 l)
  end.

Definition photo_info_of (context : Context) : pystr :=
  match ctx_photo_spots context with
  | Some (p :: l) => nl ++ nl ++ u "**拍照打卡点：**" ++ nl
                     ++ join (u ", ") (poi_name <$> take 5 (p :: l))
  | _ => []
  end.

Section prompt.
Variable py : python.

(** [f"{f['name']}({f.get('rating', '暂无')}分)"]: the key is always
    there, so the default never shows *)
Definition food_label (f : POI) : pystr :=
  poi_name f ++ u "(" ++ py_str py (poi_rating f) ++ u "分)".

Definition food_info_of (context : Context) : pystr :=
  match ctx_food context with
  | [] => []
  | l => nl ++ nl ++ u "**当地热门餐厅（可参考）：**" ++ nl
         ++ join (u ", ") (food_label <$> take 8 l)
  end.

(** one line of the intent summary made with [', '.join] *)
Definition joined_line (intent : json) (key label : pystr) : result (list pystr) :=
  v ← py_get intent key;
  match v with
  | Some x => if truthy x
              then s ← py_join (u ", ") x; Ok [label ++ s]
              else Ok []
  | None => Ok []
  end.

Definition intent_text_of (intent : json) : result pystr :=
  l1 ← joined_line intent (u "specific_places") (u "用户明确想去：");
  l2 ← joined_line intent (u "must_eat") (u "用户想吃：");
  style ← py_get intent (u "travel_style");
  l4 ← joined_line intent (u "special_needs") (u "特殊需求：");
  crowds ← py_get intent (u "avoid_crowds");
  let l3 := match style with
            | Some x => if truthy x then [u "旅行风格：" ++ py_str py x] else []
            | None => []
            end in
  let l5 := if truthy_opt crowds then [u "用户希望避开人多的地方"] else [] in
  let intent_summary := l1 ++ l2 ++ l3 ++ l4 ++ l5 in
  Ok (if bool_decide (intent_summary = []) then u "无特殊要求"
      else join nl intent_summary).

Definition weather_info_of (weather : pydict) : result pystr :=
  match dict_get weather (u "lives") with
  | Some lives =>
    if truthy lives then
      live ← match lives with JList _ => py_index0 lives | _ => Ok lives end;
      w ← py_get_default live (u "weather") (JStr (u "未知"));
      t ← py_get_default live (u "temperature") (JStr (u "未知"));
      hm ← py_get_default live (u "humidity") (JStr (u "未知"));
      wd ← py_get_default live (u "winddirection") (JStr (u "未知"));
      Ok (concat [ u "当前天气："; py_str py w; u "，温度："; py_str py t;
                   u "℃，湿度："; py_str py hm; u "%，风向："; py_str py wd;
                   u "风" ])
    else Ok []
  | None => Ok []
  end.

Definition forecast_line (f : json) : result pystr :=
  date ← py_get_default f (u "date") (JStr []);
  dayweather ← py_get_default f (u "dayweather") (JStr []);
  nighttemp ← py_get_default f (u "nighttemp") (JStr []);
  daytemp ← py_get_default f (u "daytemp") (JStr []);
  Ok (concat [ py_str py date; u " "; py_str py dayweather; u " ";
               py_str py nighttemp; u "~"; py_str py daytemp; u "℃" ]).

Fixpoint forecast_lines (fs : list json) : result (list pystr) :=
  match fs with
  | [] => Ok []
  | f :: fs' => s ← forecast_line f; r ← forecast_lines fs'; Ok (s :: r)
  end.

(** [days] is at least 1 (models.PlanRequest), so [[:days]] keeps a
    prefix *)
Definition weather_tips_of (weather : pydict) (days : Z) : result pystr :=
  match dict_get weather (u "forecasts") with
  | Some (JList (f0 :: _)) =>
    let forecast_list :=
      match f0 with
      | JDict d0 => from_option id (JList []) (dict_get d0 (u "casts"))
      | _ => JList []
      end in
    if truthy forecast_list then
      sliced ← py_slice_to forecast_list (Z.to_nat days);
      items ← py_iter sliced;
      strs ← forecast_lines items;
      Ok (u "未来天气预报：" ++ join (u "；") strs)
    else Ok []
  | _ => Ok []
  end.

Definition weather_section_of (context : Context) (days : Z) : result pystr :=
  match ctx_weather context with
  | Some (kv :: w) =>
    weather_info ← weather_info_of (kv :: w);
    weather_tips ← weather_tips_of (kv :: w) days;
    Ok (if bool_decide (weather_info = []) && bool_decide (weather_tips = [])
        then []
        else weather_section_text weather_info weather_tips)
  | _ => Ok []
  end.

(** [random.choice]: [choice] holds the two picks *)
Definition _build_travelogue_prompt (choice : nat * nat) (request : PlanRequest)
    (prefs food_info hotel_info : pystr) : pystr :=
  let opening := default [] (opening_styles request !! (choice.1 `mod` 10)%nat) in
  let persona := default [] (personas !! (choice.2 `mod` 8)%nat) in
  travelogue_prompt request opening persona prefs food_info hotel_info.

Definition _build_prompt_with_intent (choice : nat * nat) (request : PlanRequest)
    (context : Context) (intent : json) (mode : pystr) : result pystr :=
  intent_text ← intent_text_of intent;
  weather_section ← weather_section_of context (days request);
  if bool_decide (mode = u "travelogue")
  then Ok (_build_travelogue_prompt choice request (prefs_of request)
             (food_info_of context) (hotel_info_of context))
  else Ok (planning_prompt request weather_section intent_text
             (prefs_of request) (transport_desc_of (transport_mode request))
             (budget_str_of request) (date_str_of request) (desc_str_of request)
             (attractions_info_of context) (food_info_of context)
             (hotel_info_of context) (photo_info_of context)).
End prompt.

(** the weather dict as [AmapClient.get_weather] returns it *)
Definition weather_result (lives forecasts : json) : result pydict :=
  live ← (if truthy lives then py_index0 lives else Ok (JDict []));
  casts ← (if truthy forecasts
           then f0 ← py_index0 forecasts; py_get_default f0 (u "casts") (JList [])
           else Ok (JList []));
  Ok [(u "live", live); (u "forecasts", casts)].

(** the first forecast entry is not itself a forecast answer *)
Definition first_cast_plain (w : pydict) : Prop :=
  dict_get w (u "lives") = None
  ∧ match dict_get w (u "forecasts") with
    | Some (JList (JDict d0 :: _)) => dict_get d0 (u "casts") = None
    | _ => True
    end.

Definition weather_plain (context : Context) : Prop :=
  ∀ w, ctx_weather context = Some w → first_cast_plain w.



(** ** Stored plans: database.py

    The tables as lists of rows, oldest first; [None] is SQL [NULL].  An
    [INSERT] or [UPDATE] that breaks a constraint of the schema
    ([PRIMARY KEY], [UNIQUE], [FOREIGN KEY]) raises, as [conn.execute]
    does. *)

Record UserRow : Type := mkUser {
  u_id : pystr;
  u_openid : pystr;
  u_nickname : option pystr;
  u_avatar_url : option pystr;
  u_gender : option Z;
  u_city : option pystr;
  u_province : option pystr;
  u_country : option pystr;
  u_membership_tier : option pystr;
  u_created_at : Z;
  u_updated_at : Z
}.

Record PlanRow : Type := mkPlan {
  p_id : pystr;
  p_user_id : pystr;
  p_destination : pystr;
  p_days : Z;
  p_preferences : option pystr;
  p_description : option pystr;
  p_content : pystr;
  p_plan_data : option pystr;
  p_is_public : bool;
  p_share_code : option pystr;
  p_view_count : Z;
  p_created_at : Z;
  p_updated_at : Z;
  p_cover_url : option pystr;
  p_start_date : option pystr;
  p_end_date : option pystr;
  p_like_count : Z
}.

(** a row of [favorites] or of [likes] *)
Record LinkRow : Type := mkLink {
  l_id : pystr;
  l_user_id : pystr;
  l_plan_id : pystr;
  l_created_at : Z
}.

Record GenerationRow : Type := mkGeneration {
  g_id : pystr;
  g_user_id : pystr;
  g_destination : pystr;
  g_generated_at : Z
}.

Record Database : Type := mkDB {
  db_users : list UserRow;
  db_plans : list PlanRow;
  db_favorites : list LinkRow;
  db_likes : list LinkRow;
  db_generations : list GenerationRow
}.

Definition with_plans (db : Database) (plans : list PlanRow) : Database :=
  mkDB (db_users db) plans (db_favorites db) (db_likes db) (db_generations db).

(** [SELECT * FROM plans WHERE id = ?] ... [fetchone()] *)
Definition find_plan (db : Database) (plan_id : pystr) : option PlanRow :=
  head (filter (λ r, p_id r = plan_id) (db_plans db)).

Definition user_exists (db : Database) (user_id : pystr) : bool :=
  bool_decide (user_id ∈ u_id <$> db_users db).





Section database.
Variable py : python.

Definition get_plan_by_id (db : Database) (plan_id : pystr) : option PlanRow :=
  find_plan db plan_id.




End database.

(** A small database: one user with a private plan. *)
Definition alice : UserRow :=
  mkUser (u "u1") (u "openid-1") None None None None None None
         (Some (u "regular")) 0 0.

Definition private_plan : PlanRow :=
  mkPlan (u "p1") (u "u1") (u "杭州") 2 (Some (u "[]")) None (u "...") None
         false None 0 0 0 None None None 0.

Definition small_db : Database := mkDB [alice] [private_plan] [] [] [].


(** ** ContextGatherer: planner.py, [_gather_context_with_intent] *)

Section gather.
Variable py : python.
Variable W : world.
Variable request : PlanRequest.
Variable intent : json.

Definition get_weather (city : pystr) : M pydict :=
  r ← call (EvWeather city) (λ h, amap_weather_info W h city);
  mret [(u "live", r.1); (u "forecasts", r.2)].

Definition text_search (keywords : json) (city : pystr) : M (list POI) :=
  call (EvTextSearch keywords city) (λ h, amap_text_search W h keywords city).

(** a loop of keyword searches: each one is tried on its own, and up to
    [keep] of its results are appended *)
Definition search_each (items : list json) (query_of : json → json) (keep : nat)
    : M (list POI) :=
  for_each items []
    (λ item found,
       try_catch
         (results ← text_search (query_of item) (destination request);
          mret (found ++ take keep results))
         (λ _, mret found)).

Definition gather_weather : M (option pydict) :=
  try_catch (weather ← get_weather (destination request); mret (Some weather))
            (λ _, mret None).

Definition gather_city_location : M (option json) :=
  try_catch
    (geo_result ← call (EvGeocode (destination request))
                    (λ h, amap_geocode W h (destination request));
     mret match dict_get geo_result (u "location") with
          | Some l => if truthy l then Some l else None
          | None => None
          end)
    (λ _, mret None).

Definition gather_specific : M (list POI) :=
  places ← lift (py_get_default intent (u "specific_places") (JList []));
  items ← lift (py_iter places);
  search_each items
    (λ place, JStr (destination request ++ u " " ++ py_str py place)) 2.

Definition gather_general : M (list POI) :=
  search_keywords ←
    lift (py_get_default intent (u "search_keywords")
            (JList [JStr (destination request ++ u " 景点")]));
  first3 ← lift (py_slice_to search_keywords 3);
  items ← lift (py_iter first3);
  search_each items id 5.

Definition in_high_or_mid (food_priority : json) : bool :=
  match food_priority with
  | JStr s => bool_decide (s = u "高") || bool_decide (s = u "中")
  | _ => false
  end.

Definition gather_food (city_location : option json) : M (list POI) :=
  food_priority ← lift (py_get_default intent (u "food_priority") (JStr (u "中")));
  must_eat ← lift (py_get_default intent (u "must_eat") (JList []));
  items ← lift (py_iter must_eat);
  food_list ←
    search_each items
      (λ food_name, JStr (destination request ++ u " " ++ py_str py food_name)) 2;
  match city_location with
  | Some loc =>
    if in_high_or_mid food_priority
    then try_catch
           (local_food ← call (EvAroundSearch (u "特色菜|本地菜|老字号") loc 5000)
                           (λ h, amap_around_search W h
                                   (u "特色菜|本地菜|老字号") loc 5000);
            mret (food_list ++ take 10 local_food))
           (λ _, mret food_list)
    else mret food_list
  | None => mret food_list
  end.

Definition gather_hotels : M (list POI) :=
  suggested_areas ←
    lift (py_get_default intent (u "suggested_areas")
            (JList [JStr (destination request)]));
  first2 ← lift (py_slice_to suggested_areas 2);
  items ← lift (py_iter first2);
  search_each items (λ area, JStr (py_str py area ++ u " 酒店 住宿")) 5.

Definition gather_photo_spots : M (option (list POI)) :=
  needed ← lift (py_get intent (u "photo_spots_needed"));
  if truthy_opt needed
  then try_catch
         (photo_spots ← text_search
                          (JStr (destination request ++ u " 拍照 打卡 网红"))
                          (destination request);
          mret (Some photo_spots))
         (λ _, mret None)
  else mret None.

Definition summary_of (weather : option pydict) (unique food_list hotels : list POI)
    (photo_spots : option (list POI)) : pystr :=
  join nl
    (match weather with
     | Some w => [u "天气信息：" ++ json_dumps py (JDict w)]
     | None => []
     end
     ++ match unique with
        | [] => []
        | _ => [u "热门景点：" ++ join (u ", ") (poi_name <$> take 8 unique)]
        end
     ++ match food_list with
        | [] => []
        | _ => [u "美食推荐："
                ++ join (u ", ")
                     (food_label py
                        <$> filter (λ p, poi_name p ≠ []) (take 5 food_list))]
        end
     ++ match hotels with
        | [] => []
        | _ => [u "推荐住宿：" ++ join (u ", ") (poi_name <$> take 3 hotels)]
        end
     ++ match photo_spots with
        | Some (p :: l) =>
          [u "拍照打卡点：" ++ join (u ", ") (poi_name <$> take 3 (p :: l))]
        | _ => []
        end).

Definition _gather_context_with_intent : M Context :=
  weather ← gather_weather;
  city_location ← gather_city_location;
  specific_attractions ← gather_specific;
  general_attractions ← gather_general;
  let unique_attractions :=
    unique_attractions_of specific_attractions general_attractions in
  food_list ← gather_food city_location;
  hotels ← gather_hotels;
  photo_spots ← gather_photo_spots;
  mret {|
    ctx_weather := weather;
    ctx_attractions := take 15 unique_attractions;
    ctx_food := take 15 food_list;
    ctx_hotels := take 10 hotels;
    ctx_photo_spots := take 5 <$> photo_spots;
    ctx_summary :=
      summary_of weather unique_attractions food_list hotels photo_spots;
    ctx_intent := intent
  |}.
End gather.

(** ** The pipeline: planner.py, [create_plan] *)

Record Bundle : Type := mkBundle {
  reply : pystr;
  plan : option json;
  route_map_url : pystr;
  route_map_base64 : pystr;
  cover_url : json;
  context_weather : option pydict;
  travel_intent : json
}.

(** the markers of the cover image: up to three located POIs a day *)
Definition day_markers (day : json) : list json :=
  match day with
  | JDict d =>
    match from_option id (JList []) (dict_get d (u "pois")) with
    | JList pois =>
      omap (λ poi, match poi with
                   | JDict p =>
                     match dict_get p (u "location") with
                     | Some l => if truthy l then Some l else None
                     | None => None
                     end
                   | _ => None
                   end) (take 3 pois)
    | _ => []
    end
  | _ => []
  end.

Section pipeline.
Variable py : python.
Variable W : world.

(** the centre and the markers handed to the image resolver; they are
    read under the key [days] *)
Definition cover_arguments (plan : option json) : result (option pystr * list json) :=
  match plan with
  | Some (JDict d) =>
    match dict_get d (u "days") with
    | Some (JList (JDict (kv :: fd) :: rest)) =>
      match dict_get (kv :: fd) (u "pois") with
      | Some (JList (JDict (kv' :: fp) :: _)) =>
        match dict_get (kv' :: fp) (u "location") with
        | Some loc =>
          if truthy loc then
            lng ← py_get_default loc (u "lng") (JStr []);
            lat ← py_get_default loc (u "lat") (JStr []);
            Ok (Some (py_str py lng ++ u "," ++ py_str py lat),
                mjoin (day_markers <$> (JDict (kv :: fd) :: rest)))
          else Ok (None, [])
        | None => Ok (None, [])
        end
      | _ => Ok (None, [])
      end
    | _ => Ok (None, [])
    end
  | _ => Ok (None, [])
  end.

Definition cover_stage (request : PlanRequest) (plan : option json) : M json :=
  try_catch
    (args ← lift (cover_arguments plan);
     search_destination_image py W (destination request) args.1 (Some args.2))
    (λ _, mret JNull).

Definition route_map_stage (request : PlanRequest) (context : Context)
    : M (pystr * pystr) :=
  match ctx_attractions context with
  | [] => mret ([], [])
  | attractions =>
    try_catch
      (map_url ← call (EvRouteMap (take 5 attractions)
                         (mode_value (transport_mode request)))
                   (λ h, amap_generate_route_map W h (take 5 attractions)
                           (mode_value (transport_mode request)));
       match map_url with
       | [] => mret ([], [])
       | _ =>
         r ← call (EvDownload map_url)
               (λ h, amap_download_static_map W h map_url);
         mret (r.2, r.1)
       end)
      (λ _, mret ([], []))
  end.

Definition enrich_stage (request : PlanRequest) (plan : option json)
    : M (option json) :=
  match plan with
  | Some p => p' ← _enrich_plan py W request p; mret (Some p')
  | None => mret None
  end.

Definition create_plan (request : PlanRequest) (mode : pystr) : M Bundle :=
  travel_intent ← _extract_travel_intent py W request;
  context ← _gather_context_with_intent py W request travel_intent;
  prompt ← (λ h, lift (_build_prompt_with_intent py (random_choice W h) request
                         context travel_intent mode) h);
  ai_response ← chat W prompt (Some (ctx_summary context));
  parsed ← lift (parse_plan_from_response (json_loads py) ai_response);
  plan ← enrich_stage request parsed;
  route_map ← route_map_stage request context;
  cover ← cover_stage request plan;
  mret {|
    reply := ai_response;
    plan := plan;
    route_map_url := route_map.1;
    route_map_base64 := route_map.2;
    cover_url := cover;
    context_weather := ctx_weather context;
    travel_intent := travel_intent
  |}.
End pipeline.






(** Worlds for the pipeline: the chat provider fails at the intent stage
    (no tools context) and answers at the generation stage. *)
Definition narrative : pystr := u "Day 1: West Lake.".


(** the chat provider answers an intent whose keyword list is [null] *)
Definition null_keywords_world : world :=
  with_chat offline_world
    (λ _ _ tools_context,
       match tools_context with
       | None => Ok (uq "{'search_keywords': null}")
       | Some _ => Ok narrative
       end).

(** A plan whose only POI already has a coordinate and an image. *)
Definition complete_plan : json :=
  JDict [ (u "type", JStr (u "trip_plan"));
          (u "daily_plans",
           JList [ JDict [ (u "day", JInt 1);
                           (u "pois",
                            JList [ JDict [ (u "name", JStr (u "西湖"));
                                            (u "location", JStr (u "120.1,30.2"));
                                            (u "image_url", JStr jpg_url) ] ]) ] ]) ].

(** ** database.py: sharing, deletion, favourites, likes, quotas

    The remaining statements of [Database], over the same tables.  An
    [INTEGER] column holds a 32-bit value; arithmetic that leaves the range
    raises, as the engine does, and the statement changes no row. *)

Definition OutOfRange : exn := ProviderError (u "Out of Range Error").

Definition int32 (z : Z) : result Z :=
  if ((-2147483648 <=? z) && (z <=? 2147483647))%Z then Ok z
  else Raise OutOfRange.

Global Instance PlanRow_eq_dec : EqDecision PlanRow.
Proof. solve_decision. Defined.

Global Instance LinkRow_eq_dec : EqDecision LinkRow.
Proof. solve_decision. Defined.

Definition set_view_count (r : PlanRow) (v : Z) : PlanRow :=
  mkPlan (p_id r) (p_user_id r) (p_destination r) (p_days r) (p_preferences r)
    (p_description r) (p_content r) (p_plan_data r) (p_is_public r)
    (p_share_code r) v (p_created_at r) (p_updated_at r) (p_cover_url r)
    (p_start_date r) (p_end_date r) (p_like_count r).

Definition set_like_count (r : PlanRow) (v : Z) : PlanRow :=
  mkPlan (p_id r) (p_user_id r) (p_destination r) (p_days r) (p_preferences r)
    (p_description r) (p_content r) (p_plan_data r) (p_is_public r)
    (p_share_code r) (p_view_count r) (p_created_at r) (p_updated_at r)
    (p_cover_url r) (p_start_date r) (p_end_date r) v.

Definition with_favorites (db : Database) (favorites : list LinkRow) : Database :=
  mkDB (db_users db) (db_plans db) favorites (db_likes db) (db_generations db).

Definition with_likes (db : Database) (likes : list LinkRow) : Database :=
  mkDB (db_users db) (db_plans db) (db_favorites db) likes (db_generations db).

Definition with_generations (db : Database) (gens : list GenerationRow)
    : Database :=
  mkDB (db_users db) (db_plans db) (db_favorites db) (db_likes db) gens.

(** [UPDATE plans SET ... WHERE ...]: all rows or none *)
Fixpoint update_where (hit : PlanRow → bool) (f : PlanRow → result PlanRow)
    (rows : list PlanRow) : result (list PlanRow) :=
  match rows with
  | [] => Ok []
  | r :: rest =>
    r' ← (if hit r then f r else Ok r);
    rest' ← update_where hit f rest;
    Ok (r' :: rest')
  end.

(** [get_plan_by_share_code] *)
Definition get_plan_by_share_code (db : Database) (share_code : pystr)
    : result (Database * option PlanRow) :=
  match head (filter (λ r, p_share_code r = Some share_code
                           ∧ p_is_public r = true) (db_plans db)) with
  | Some row =>
    plans ← update_where (λ r, bool_decide (p_share_code r = Some share_code))
              (λ r, v ← int32 (p_view_count r + 1); Ok (set_view_count r v))
              (db_plans db);
    Ok (with_plans db plans, Some row)
  | None => Ok (db, None)
  end.

(** a plan that was shared and then made private again *)
Definition unshared_db : Database :=
  with_plans small_db
    [ mkPlan (u "p1") (u "u1") (u "杭州") 2 (Some (u "[]")) None (u "...") None
        false (Some (u "c0de")) 0 0 0 None None None 0 ].

(** [delete_plan] *)
Definition delete_plan (db : Database) (plan_id user_id : pystr)
    : Database * bool :=
  match get_plan_by_id db plan_id with
  | None => (db, false)
  | Some existing =>
    if bool_decide (p_user_id existing ≠ user_id) then (db, false)
    else
      let db1 := with_favorites db
                   (filter (λ f, l_plan_id f ≠ plan_id) (db_favorites db)) in
      let db2 := with_likes db1
                   (filter (λ f, l_plan_id f ≠ plan_id) (db_likes db1)) in
      let db3 := with_plans db2
                   (filter (λ r, ¬ (p_id r = plan_id ∧ p_user_id r = user_id))
                           (db_plans db2)) in
      (db3, bool_decide (get_plan_by_id db3 plan_id = None))
  end.

(** a row of [favorites] or [likes] for the pair *)
Definition links (user_id plan_id : pystr) (f : LinkRow) : bool :=
  bool_decide (l_user_id f = user_id ∧ l_plan_id f = plan_id).

(** [INSERT INTO favorites] / [likes]: [PRIMARY KEY], both [FOREIGN KEY]s
    and [UNIQUE(user_id, plan_id)] *)
Definition insert_link (db : Database) (rows : list LinkRow) (row : LinkRow)
    : result (list LinkRow) :=
  if bool_decide (l_id row ∈ l_id <$> rows) then Raise ConstraintError
  else if negb (user_exists db (l_user_id row)) then Raise ConstraintError
  else if negb (bool_decide (l_plan_id row ∈ p_id <$> db_plans db))
  then Raise ConstraintError
  else if existsb (links (l_user_id row) (l_plan_id row)) rows
  then Raise ConstraintError
  else Ok (rows ++ [row]).

Definition add_favorite (db : Database) (uuid : pystr) (now : Z)
    (user_id plan_id : pystr) : Database * bool :=
  match insert_link db (db_favorites db) (mkLink uuid user_id plan_id now) with
  | Ok favorites => (with_favorites db favorites, true)
  | Raise _ => (db, false)
  end.

Definition remove_favorite (db : Database) (user_id plan_id : pystr)
    : Database * bool :=
  (with_favorites db
     (filter (λ f, links user_id plan_id f = false) (db_favorites db)),
   existsb (links user_id plan_id) (db_favorites db)).

Definition is_favorited (db : Database) (user_id plan_id : pystr) : bool :=
  existsb (links user_id plan_id) (db_favorites db).

Definition get_user_favorites_count (db : Database) (user_id : pystr) : nat :=
  length (filter (λ f, l_user_id f = user_id) (db_favorites db)).

Definition get_plan_favorite_count (db : Database) (plan_id : pystr) : nat :=
  length (filter (λ f, l_plan_id f = plan_id) (db_favorites db)).

(** the rows [get_user_favorites] selects, before [ORDER BY] and [LIMIT]:
    the join of the user's favourites with the public plans *)
Definition favorite_plans (db : Database) (user_id : pystr) : list PlanRow :=
  f ← filter (λ f, l_user_id f = user_id) (db_favorites db);
  filter (λ p, p_id p = l_plan_id f ∧ p_is_public p = true) (db_plans db).

Definition add_like (db : Database) (uuid : pystr) (now : Z)
    (user_id plan_id : pystr) : Database * bool :=
  match insert_link db (db_likes db) (mkLink uuid user_id plan_id now) with
  | Raise _ => (db, false)
  | Ok likes =>
    let db1 := with_likes db likes in
    match update_where (λ r, bool_decide (p_id r = plan_id))
            (λ r, v ← int32 (p_like_count r + 1); Ok (set_like_count r v))
            (db_plans db1) with
    | Ok plans => (with_plans db1 plans, true)
    | Raise _ => (db1, false)
    end
  end.

(** the [DELETE] is done before the [UPDATE] is tried *)
Definition remove_like (db : Database) (user_id plan_id : pystr)
    : result bool * Database :=
  let db1 := with_likes db
               (filter (λ f, links user_id plan_id f = false) (db_likes db)) in
  if existsb (links user_id plan_id) (db_likes db) then
    match update_where (λ r, bool_decide (p_id r = plan_id))
            (λ r, v ← int32 (p_like_count r - 1);
                  Ok (set_like_count r (Z.max v 0)))
            (db_plans db1) with
    | Ok plans => (Ok true, with_plans db1 plans)
    | Raise e => (Raise e, db1)
    end
  else (Ok false, db1).

Definition is_liked (db : Database) (user_id plan_id : pystr) : bool :=
  existsb (links user_id plan_id) (db_likes db).

Definition get_plan_like_count (db : Database) (plan_id : pystr) : Z :=
  match find_plan db plan_id with
  | Some r => p_like_count r
  | None => 0
  end.

(** the number of [likes] rows of a plan *)
Definition likes_of (db : Database) (plan_id : pystr) : nat :=
  length (filter (λ f, l_plan_id f = plan_id) (db_likes db)).

(** the like counters agree with the [likes] table: plan ids and
    (user, plan) pairs are unique and every like is of a stored plan, as
    the schema demands, and every plan's counter is the number of its
    likes *)
Definition likes_consistent (db : Database) : Prop :=
  NoDup (p_id <$> db_plans db)
  ∧ NoDup ((λ f, (l_user_id f, l_plan_id f)) <$> db_likes db)
  ∧ (∀ f, f ∈ db_likes db → l_plan_id f ∈ p_id <$> db_plans db)
  ∧ ∀ r, r ∈ db_plans db → p_like_count r = Z.of_nat (likes_of db (p_id r)).

(** a plan with one like *)
Definition liked_db : Database :=
  mkDB [alice]
    [ mkPlan (u "p1") (u "u1") (u "杭州") 2 (Some (u "[]")) None (u "...") None
        true (Some (u "c0de")) 0 0 0 None None None 1 ]
    [] [mkLink (u "l1") (u "u1") (u "p1") 5] [].

(** *** Generation records and quotas *)

Definition get_user_by_id (db : Database) (user_id : pystr) : option UserRow :=
  head (filter (λ r, u_id r = user_id) (db_users db)).

(** [generated_at] is left to its default, the time of the insert *)
Definition record_generation (db : Database) (uuid : pystr) (now : Z)
    (user_id destination : pystr) : result Database :=
  if bool_decide (uuid ∈ g_id <$> db_generations db) then Raise ConstraintError
  else if negb (user_exists db user_id) then Raise ConstraintError
  else Ok (with_generations db
             (db_generations db ++ [mkGeneration uuid user_id destination now])).

(** [DATE(t)] of a timestamp in seconds *)
Definition date_of (t : Z) : Z := (t / 86400)%Z.

Definition get_today_generation_count (db : Database) (today : Z)
    (user_id : pystr) : nat :=
  length (filter (λ g, g_user_id g = user_id ∧ date_of (g_generated_at g) = today)
                 (db_generations db)).

(** the name and the daily limit of a tier; any other value, [NULL]
    included, counts as [regular] *)
Definition get_membership_limits (membership_tier : option pystr) : pystr * Z :=
  let limits := [ (u "regular", (u "普通用户", 3%Z));
                  (u "member", (u "普通会员", 7%Z));
                  (u "super", (u "超级会员", 15%Z)) ] in
  let regular := (u "普通用户", 3%Z) in
  match membership_tier with
  | Some tier =>
    match list_find (λ kv, kv.1 = tier) limits with
    | Some (_, kv) => kv.2
    | None => regular
    end
  | None => regular
  end.

Inductive LimitCheck : Type :=
| UnknownUser
| Checked (can_generate : bool) (membership_tier : option pystr)
          (tier_name : pystr) (daily_limit : Z) (today_count : nat)
          (remaining : Z).

Definition check_generation_limit (db : Database) (today : Z) (user_id : pystr)
    : LimitCheck :=
  match get_user_by_id db user_id with
  | None => UnknownUser
  | Some user =>
    let tier := u_membership_tier user in
    let limits := get_membership_limits tier in
    let today_count := get_today_generation_count db today user_id in
    let can_generate := (Z.of_nat today_count <? limits.2)%Z in
    Checked can_generate tier limits.1 limits.2 today_count
      (if can_generate then limits.2 - Z.of_nat today_count else 0)%Z
  end.

(** *** [_parse_plan_row]

    A row of [SELECT * FROM plans] in the order of the table's columns:
    the thirteen of [CREATE TABLE], then [cover_url], [start_date],
    [end_date] and [like_count] as the [ALTER TABLE] statements add them. *)
Definition opt_text (x : option pystr) : json :=
  match x with
  | Some s => JStr s
  | None => JNull
  end.

Definition row_values (r : PlanRow) : list json :=
  [ JStr (p_id r); JStr (p_user_id r); JStr (p_destination r); JInt (p_days r);
    opt_text (p_preferences r); opt_text (p_description r); JStr (p_content r);
    opt_text (p_plan_data r); JBool (p_is_public r); opt_text (p_share_code r);
    JInt (p_view_count r); JInt (p_created_at r); JInt (p_updated_at r);
    opt_text (p_cover_url r); opt_text (p_start_date r);
    opt_text (p_end_date r); JInt (p_like_count r) ].

Definition plan_columns : list pystr :=
  [ u "id"; u "user_id"; u "destination"; u "days"; u "preferences";
    u "description"; u "content"; u "plan_data"; u "is_public"; u "share_code";
    u "view_count"; u "created_at"; u "updated_at"; u "cover_url" ].

(** [dict(zip(columns, row))] *)
Fixpoint py_zip (columns : list pystr) (row : list json) : pydict :=
  match columns, row with
  | c :: cs, v :: vs => (c, v) :: py_zip cs vs
  | _, _ => []
  end.

Section parse_row.
Variable py : python.

(** a JSON column: decoded when it is not empty, [fallback] when it fails
    to decode *)
Definition decode_column (plan : pydict) (k : pystr) (fallback : json)
    : result pydict :=
  match dict_get plan k with
  | None => Raise KeyError
  | Some v =>
    if truthy v then
      match v with
      | JStr s =>
        match json_loads py s with
        | Ok x => Ok (dict_set plan k x)
        | Raise _ => Ok (dict_set plan k fallback)
        end
      | _ => Ok (dict_set plan k fallback)
      end
    else Ok plan
  end.

Definition _parse_plan_row (row : list json) : result pydict :=
  let row_list := row ++ replicate (length plan_columns - length row) JNull in
  let plan := py_zip plan_columns row_list in
  plan ← decode_column plan (u "preferences") (JList []);
  decode_column plan (u "plan_data") JNull.
End parse_row.

(** ** routers/user.py and routers/plan.py: who may generate *)

Inductive http (A : Type) : Type :=
| Respond (a : A)
| HTTPException (status_code : Z).
Arguments Respond {A} a.
Arguments HTTPException {A} status_code.

(** [get_current_user_id]: the token is [Bearer <user id>] *)
Definition get_current_user_id (db : Database) (authorization : option pystr)
    : http pystr :=
  match authorization with
  | Some (c :: a) =>
    if startswith (c :: a) (u "Bearer ") then
      let user_id := drop 7 (c :: a) in
      match get_user_by_id db user_id with
      | Some _ => Respond user_id
      | None => HTTPException 401
      end
    else HTTPException 401
  | _ => HTTPException 401
  end.

Module plan_router.
Section plan_router.
Variable py : python.
Variable W : world.

(** the signed-in user of the generation endpoint: a bad token is an
    anonymous caller *)
Definition signed_in (db : Database) (authorization : option pystr)
    : option pystr :=
  match authorization with
  | Some (c :: a) =>
    match get_current_user_id db (Some (c :: a)) with
    | Respond (c' :: user_id) => Some (c' :: user_id)
    | _ => None
    end
  | _ => None
  end.

(** [POST /plan]: the state is the database and the log of provider calls;
    [today] is the date at the check, [uuid] and [now] what the insert
    of the generation record draws *)
Definition create_plan (db : Database) (authorization : option pystr)
    (today now : Z) (uuid : pystr) (request : PlanRequest) (h : log)
    : http Bundle * Database * log :=
  let user_id := signed_in db authorization in
  let blocked :=
    match user_id with
    | Some uid =>
      match check_generation_limit db today uid with
      | Checked can_generate _ _ _ _ _ => if can_generate then None else Some 429%Z
      | UnknownUser => Some 500%Z
      end
    | None => None
    end in
  match blocked with
  | Some status => (HTTPException status, db, h)
  | None =>
    match create_plan py W request (u "planning") h with
    | (Ok bundle, h') =>
      match user_id with
      | Some uid =>
        match record_generation db uuid now uid (destination request) with
        | Ok db' => (Respond bundle, db', h')
        | Raise _ => (HTTPException 500, db, h')
        end
      | None => (Respond bundle, db, h')
      end
    | (Raise _, h') => (HTTPException 500, db, h')
    end
  end.
End plan_router.
End plan_router.

(** ** planner.py: what enrichment leaves alone *)

Definition poi_name_of (poi : json) : option json :=
  match poi with
  | JDict d => dict_get d (u "name")
  | _ => None
  end.

(** the POI names of a day, in order *)
Definition day_names (day : json) : list (option json) :=
  match day_pois day with
  | Some (JList l) => poi_name_of <$> l
  | _ => []
  end.

(** the POI names of a plan, day by day *)
Definition plan_names (plan : json) : list (list (option json)) :=
  match plan with
  | JDict d =>
    match dict_get d (u "daily_plans") with
    | Some (JList days) => day_names <$> days
    | _ => []
    end
  | _ => []
  end.

(** a plan the cover stage finds a centre in: its first located POI has
    the coordinate as text, the way [_enrich_plan] writes it *)
Definition located_plan : json :=
  JDict [ (u "type", JStr (u "trip_plan"));
          (u "days",
           JList [ JDict [ (u "day", JInt 1);
                           (u "pois",
                            JList [ JDict [ (u "name", JStr (u "西湖"));
                                            (u "location",
                                             JStr (u "120.1,30.2")) ] ]) ] ]) ].

(** a plan as the chat provider sends it: the POI has a name only *)
Definition bare_plan : json :=
  JDict [ (u "type", JStr (u "trip_plan"));
          (u "daily_plans",
           JList [ JDict [ (u "day", JInt 1);
                           (u "pois",
                            JList [ JDict [ (u "name", JStr (u "西湖")) ];
                                    JDict [ (u "name", JStr (u "灵隐寺")) ] ]) ] ]) ].

(** ** search.py: [_is_valid_image_url] *)

Section image_url.
Variable py : python.

Definition _is_valid_image_url (url : pystr) : bool :=
  if bool_decide (url = []) then false
  else if negb (startswith url (u "https://")) then false
  else if existsb (λ domain, py_in domain url)
            [ u "mmbiz.qpic.cn"; u "kuaizhan.com"; u "qpic.cn"; u "sinaimg.cn";
              u "dmjnb.com"; u "bdimg.com"; u "baidustatic.com";
              u "sogoucdn.com"; u "360buyimg.com"; u "alicdn.com";
              u "ctrip.com"; u "mafengwo.net"; u "duitang.com"; u "huaban.com";
              u "nipic.com"; u "58pic.com"; u "zcool.cn" ]
  then false
  else existsb (λ pattern, py_in pattern (str_lower py url))
         [ u ".jpg"; u ".jpeg"; u ".png"; u ".webp"; u ".gif";
           u "unsplash.com"; u "pexels.com"; u "pixabay.com";
           u "cloudfront.net"; u "amazonaws.com";
           u "googleusercontent.com";
           u "flickr.com"; u "staticflickr.com";
           u "wikimedia.org"; u "wikipedia.org" ].
End image_url.

(** the calls of one kind in a stretch of the log *)
Definition is_head_event (ev : event) : bool :=
  match ev with
  | EvHead _ => true
  | _ => false
  end.

(** ** deepseek_ai.py and routers/chat.py: streaming

    What the chat provider streams: chunks, each with its list of choices
    (the text of a choice's delta may be missing), until the stream ends
    or breaks with an error.  A stream that cannot be opened is one that
    breaks at once. *)
Inductive delta_stream : Type :=
| StreamEnd
| StreamError (message : pystr)
| StreamChunk (choices : list (option pystr)) (rest : delta_stream).

(** what an asynchronous generator does: the values it yields, then how
    it stops *)
Record generator : Type := mkGen {
  yielded : list pystr;
  raised : option pystr
}.

Definition gen_cons (x : pystr) (g : generator) : generator :=
  mkGen (x :: yielded g) (raised g).

(** the [try] block of [chat_stream]: [chunk.choices[0]] needs a choice *)
Fixpoint stream_body (s : delta_stream) : generator :=
  match s with
  | StreamEnd => mkGen [] None
  | StreamError message => mkGen [] (Some message)
  | StreamChunk choices rest =>
    match choices with
    | [] => mkGen [] (Some (u "list index out of range"))
    | content :: _ =>
      match content with
      | Some (c :: text) => gen_cons (c :: text) (stream_body rest)
      | _ => stream_body rest
      end
    end
  end.

Definition error_fragment (e : pystr) : pystr :=
  nl ++ nl ++ u "[错误: " ++ e ++ u "]".

(** [chat_stream]: [except Exception as e: yield ...] *)
Definition chat_stream (s : delta_stream) : generator :=
  let body := stream_body s in
  match raised body with
  | Some e => mkGen (yielded body ++ [error_fragment e]) None
  | None => body
  end.

Section chat_router.
Variable py : python.

Definition sse_frame (key value : pystr) : pystr :=
  u "data: " ++ json_dumps py (JDict [(key, JStr value)]) ++ nl ++ nl.

Definition sse_done : pystr := u "data: [DONE]" ++ nl ++ nl.

(** routers/chat.py, [chat_stream]: the generator of the response *)
Definition generate (g : generator) : list pystr :=
  (sse_frame (u "content") <$> yielded g)
  ++ match raised g with
     | None => [sse_done]
     | Some e => [sse_frame (u "error") e]
     end.
End chat_router.

(** the text of all deltas of a stream that does not break *)
Fixpoint stream_text (s : delta_stream) : option pystr :=
  match s with
  | StreamEnd => Some []
  | StreamError _ => None
  | StreamChunk choices rest =>
    match choices with
    | [] => None
    | content :: _ => t ← stream_text rest; Some (default [] content ++ t)
    end
  end.

(** ** amap_mcp.py: the weather dict

    [_get_weather_open_meteo] after the HTTP call: what it makes of the
    decoded body. *)

(** [v.get(k) or default] *)
Definition get_or (v : json) (k : pystr) (default : json) : result json :=
  o ← py_get v k; Ok (py_or (from_option id JNull o) default).

(** [v[i]] on a sequence, for an index in range *)
Definition py_index (v : json) (i : nat) : result json :=
  match v with
  | JList l => match l !! i with Some x => Ok x | None => Raise IndexError end
  | JStr s => match s !! i with Some c => Ok (JStr [c]) | None => Raise IndexError end
  | JDict _ => Raise KeyError
  | _ => Raise TypeError
  end.

Definition forecast_entry (times tmax tmin precip wcode : json) (i : nat)
    : result json :=
  t ← py_index times i;
  hi ← py_index tmax i;
  lo ← py_index tmin i;
  p ← py_index precip i;
  w ← py_index wcode i;
  Ok (JDict [ (u "date", t); (u "daytemp", hi); (u "nighttemp", lo);
              (u "precipitation_sum", p); (u "weather_code", w) ]).

Fixpoint forecast_entries (times tmax tmin precip wcode : json)
    (indices : list nat) : result (list json) :=
  match indices with
  | [] => Ok []
  | i :: rest =>
    e ← forecast_entry times tmax tmin precip wcode i;
    r ← forecast_entries times tmax tmin precip wcode rest;
    Ok (e :: r)
  end.

Definition open_meteo_result (data : json) : result pydict :=
  current ← get_or data (u "current") (JDict []);
  daily ← get_or data (u "daily") (JDict []);
  times ← get_or daily (u "time") (JList []);
  tmax ← get_or daily (u "temperature_2m_max") (JList []);
  tmin ← get_or daily (u "temperature_2m_min") (JList []);
  precip ← get_or daily (u "precipitation_sum") (JList []);
  wcode ← get_or daily (u "weather_code") (JList []);
  n1 ← py_len times;
  n2 ← py_len tmax;
  n3 ← py_len tmin;
  n4 ← py_len precip;
  n5 ← py_len wcode;
  forecasts ← forecast_entries times tmax tmin precip wcode
                 (seq 0 (n1 `min` (n2 `min` (n3 `min` (n4 `min` n5)))));
  reporttime ← py_get_default current (u "time") (JStr []);
  temperature ← py_get current (u "temperature_2m");
  apparent ← py_get current (u "apparent_temperature");
  humidity ← py_get current (u "relative_humidity_2m");
  wind ← py_get current (u "wind_speed_10m");
  code ← py_get current (u "weather_code");
  Ok [ (u "live",
        JDict [ (u "reporttime", reporttime);
                (u "temperature", from_option id JNull temperature);
                (u "apparent_temperature", from_option id JNull apparent);
                (u "humidity", from_option id JNull humidity);
                (u "wind_speed", from_option id JNull wind);
                (u "weather_code", from_option id JNull code);
                (u "provider", JStr (u "open-meteo")) ]);
       (u "forecasts", JList forecasts) ].

(** a forecast of the map provider: an object that is not itself a
    forecast answer (it has no [casts]) *)
Definition is_cast (f : json) : Prop :=
  match f with
  | JDict d => dict_get d (u "casts") = None
  | _ => True
  end.

(** a weather dict with a live report and one forecast day *)
Definition sunny_weather : pydict :=
  [ (u "live", JDict [(u "weather", JStr (u "晴"))]);
    (u "forecasts", JList [JDict [(u "date", JStr (u "2025-05-01"))]]) ].

Definition sunny_context : Context :=
  mkContext (Some sunny_weather) [] [] [] None [] (default_intent hangzhou).

(** ** amap_mcp.py: parsing, sampling, map and navigation URLs *)

Definition is_str_value (v : option json) : bool :=
  match v with
  | Some (JStr _) => true
  | _ => false
  end.

(** the body of the loop of [_parse_pois]; [poi.get] needs a dict *)
Definition parse_poi (poi : json) : result json :=
  match poi with
  | JDict d =>
    let biz_ext := match dict_get d (u "biz_ext") with
                   | Some (JDict b) => b
                   | _ => []
                   end in
    Ok (JDict
          [ (u "id", from_option id (JStr []) (dict_get d (u "id")));
            (u "name", from_option id (JStr []) (dict_get d (u "name")));
            (u "address", if is_str_value (dict_get d (u "address"))
                          then from_option id (JStr []) (dict_get d (u "address"))
                          else JStr []);
            (u "location", from_option id (JStr []) (dict_get d (u "location")));
            (u "type", from_option id (JStr []) (dict_get d (u "type")));
            (u "tel", if is_str_value (dict_get d (u "tel"))
                      then from_option id (JStr []) (dict_get d (u "tel"))
                      else JStr []);
            (u "rating", from_option id JNull (dict_get biz_ext (u "rating")));
            (u "cost", from_option id JNull (dict_get biz_ext (u "cost"))) ])
  | _ => Raise AttributeError
  end.

Fixpoint parse_poi_list (raw_pois : list json) : result (list json) :=
  match raw_pois with
  | [] => Ok []
  | poi :: rest => p ← parse_poi poi; ps ← parse_poi_list rest; Ok (p :: ps)
  end.

Definition _parse_pois (answer : json) : result (list json) :=
  raw_pois ← py_get_default answer (u "pois") (JList []);
  match raw_pois with
  | JList l => parse_poi_list l
  | _ => Ok []
  end.

Definition poi_keys : list pystr :=
  [ u "id"; u "name"; u "address"; u "location"; u "type"; u "tel";
    u "rating"; u "cost" ].

(** [xs[::step]] for a positive [step]: every [step]-th element, the
    first one included *)
Fixpoint every_from {X} (step skip : nat) (xs : list X) : list X :=
  match xs with
  | [] => []
  | x :: xs' =>
    match skip with
    | O => x :: every_from step (step - 1) xs'
    | S skip' => every_from step skip' xs'
    end
  end.

Definition py_slice_step {X} (step : nat) (xs : list X) : list X :=
  every_from step 0 xs.

(** [if len(xs) > cap: xs = xs[::len(xs) // cap]] *)
Definition sample_to {X} (cap : nat) (xs : list X) : list X :=
  if (cap <? length xs)%nat then py_slice_step (length xs / cap) xs else xs.

(** [s.split(sep)] for a separator of one character *)
Fixpoint split_on (sep : N) (s : pystr) : list pystr :=
  match s with
  | [] => [[]]
  | c :: s' =>
    if decide (c = sep) then [] :: split_on sep s'
    else match split_on sep s' with
         | w :: ws => (c :: w) :: ws
         | [] => [[c]]
         end
  end.

Section navigation.
(** [urllib.parse.quote] *)
Variable quote : pystr → pystr.

(** [get_navigation_url]; [None] is the [ValueError] of unpacking
    [destination.split(",")] into two names *)
Definition get_navigation_url (destination dest_name : pystr) : option pystr :=
  match split_on 44 destination with
  | [lng; lat] =>
    let name := match dest_name with
                | [] => u "目的地"
                | _ => quote dest_name
                end in
    Some (u "https://uri.amap.com/navigation?to=" ++ lng ++ u "," ++ lat
          ++ u "," ++ name ++ u "&mode=car&coordinate=gaode")
  | _ => None
  end.
End navigation.

Section route_map.
Variable py : python.
Variable W : world.

Definition static_map_base : pystr := u "https://restapi.amap.com/v3/staticmap".

(** one marker of [generate_static_map_url]; the default label is the
    [i]-th capital letter *)
Definition marker_str (i : nat) (m : json) : result pystr :=
  loc ← py_get_default m (u "location") (JStr []);
  label ← py_get_default m (u "label") (JStr [65 + N.of_nat i]);
  color ← py_get_default m (u "color") (JStr (u "0x6366f1"));
  Ok (u "mid," ++ py_str py color ++ u "," ++ py_str py label ++ u ":"
      ++ py_str py loc).

Fixpoint marker_strs (i : nat) (markers : list json) : result (list pystr) :=
  match markers with
  | [] => Ok []
  | m :: rest => s ← marker_str i m; r ← marker_strs (S i) rest; Ok (s :: r)
  end.

Definition generate_static_map_url (markers paths : list json) (size : pystr)
    (zoom : Z) : result pystr :=
  let params := [u "key=" ++ AMAP_WEB_KEY W; u "size=" ++ size] in
  params ←
    match markers with
    | [] => Ok params
    | _ => strs ← marker_strs 0 markers;
           Ok (params ++ [u "markers=" ++ join (u "|") strs])
    end;
  params ←
    (if (1 <? length paths)%nat
     then coords ← all_str paths;
          Ok (params ++ [u "paths=6,0x3366FF,1,,:" ++ join (u ";") coords])
     else Ok params);
  let params := if (zoom =? 0)%Z then params
                else params ++ [u "zoom=" ++ str_of_int zoom] in
  Ok (static_map_base ++ u "?" ++ join (u "&") params).

(** the marker of the [i]-th of [n] POIs *)
Definition route_marker (n i : nat) (loc : json) : json :=
  JDict [ (u "location", loc);
          (u "label", JStr (if (i <? 26)%nat then [65 + N.of_nat i]
                            else str_of_int (Z.of_nat i + 1)));
          (u "color", JStr (if (i =? 0)%nat then u "0x6366f1"
                            else if (i =? n - 1)%nat then u "0xef4444"
                            else u "0x22c55e")) ].

(** the POIs with a coordinate, with their positions *)
Fixpoint located_from (i : nat) (pois : list POI) : list (nat * json) :=
  match pois with
  | [] => []
  | p :: rest =>
    if truthy (poi_location p) then (i, poi_location p) :: located_from (S i) rest
    else located_from (S i) rest
  end.

(** the coordinates of the steps of a route *)
Fixpoint polylines (steps : list json) (found : list json) : result (list json) :=
  match steps with
  | [] => Ok found
  | step :: rest =>
    polyline ← py_get_default step (u "polyline") (JStr []);
    if truthy polyline then
      match polyline with
      | JStr s => polylines rest (found ++ (JStr <$> split_on 59 s))
      | _ => Raise AttributeError
      end
    else polylines rest found
  end.

Definition segment_coords (route : pydict) : result (list json) :=
  steps ← py_iter (from_option id (JList []) (dict_get route (u "steps")));
  coords ← polylines steps [];
  Ok (sample_to 20 coords).

Definition route_mode (transport_mode : pystr) : TransportMode :=
  if bool_decide (transport_mode = u "driving") then DRIVING else WALKING.

(** the body of [for i in range(len(all_coords) - 1)] *)
Definition route_segment (transport_mode : pystr) (origin dest : json)
    (path_coords : list json) : M (list json) :=
  try_catch
    (route ← call (EvRoute (route_mode transport_mode) origin dest [])
               (λ h, amap_route W h (route_mode transport_mode) origin dest []);
     segment ← lift (segment_coords route);
     mret (path_coords ++ segment))
    (λ _, mret (path_coords ++ [origin; dest])).

Fixpoint route_segments (transport_mode : pystr) (all_coords : list json)
    (path_coords : list json) : M (list json) :=
  match all_coords with
  | origin :: rest =>
    match rest with
    | dest :: _ =>
      path_coords' ← route_segment transport_mode origin dest path_coords;
      route_segments transport_mode rest path_coords'
    | [] => mret path_coords
    end
  | [] => mret path_coords
  end.

Definition generate_route_map (pois : list POI) (transport_mode : pystr)
    : M pystr :=
  if (length pois <? 2)%nat then mret []
  else
    let located := located_from 0 pois in
    let all_coords := located.*2 in
    let markers := (λ il, route_marker (length pois) il.1 il.2) <$> located in
    path_coords ← route_segments transport_mode all_coords [];
    let path_coords := match path_coords with [] => all_coords | _ => path_coords end in
    lift (generate_static_map_url markers (sample_to 100 path_coords)
            (u "750*400") 0).
End route_map.

Definition is_text (v : json) : Prop := ∃ s, v = JStr s.

(** two places with coordinates *)
Definition west_lake : POI :=
  mkPOI (JStr (u "B1")) (u "西湖") [] (JStr (u "120.1,30.2")) (JStr []) []
        JNull JNull.

Definition lingyin : POI :=
  mkPOI (JStr (u "B2")) (u "灵隐寺") [] (JStr (u "120.0,30.3")) (JStr []) []
        JNull JNull.

(** ** routers/plans.py: the like button *)

Module plans_router.
(** [POST /plans/{plan_id}/like]: the answer holds [is_liked] and
    [like_count]; an exception that nothing catches is status 500 *)
Definition toggle_like (db : Database) (authorization : option pystr)
    (uuid : pystr) (now : Z) (plan_id : pystr) : http (bool * Z) * Database :=
  match get_current_user_id db authorization with
  | HTTPException status => (HTTPException status, db)
  | Respond user_id =>
    match get_plan_by_id db plan_id with
    | None => (HTTPException 404, db)
    | Some plan =>
      if negb (p_is_public plan) && bool_decide (p_user_id plan ≠ user_id)
      then (HTTPException 403, db)
      else if is_liked db user_id plan_id then
        match remove_like db user_id plan_id with
        | (Ok _, db') => (Respond (false, get_plan_like_count db' plan_id), db')
        | (Raise _, db') => (HTTPException 500, db')
        end
      else
        let out := add_like db uuid now user_id plan_id in
        (Respond (true, get_plan_like_count out.1 plan_id), out.1)
    end
  end.
End plans_router.
(** * Properties *)

(** ** Merging the attraction lists *)

Section merge.
Implicit Types (l all : list POI) (p q : POI) (n : pystr) (seen : gset pystr).

Lemma filter_name_comm n1 n2 l :
  filter (λ q, poi_name q ≠ n1) (filter (λ q, poi_name q ≠ n2) l)
  = filter (λ q, poi_name q ≠ n2) (filter (λ q, poi_name q ≠ n1) l).
Proof.
  induction l as [|p l IH]; [done|].
  rewrite !filter_cons.
  repeat (case_decide; rewrite ?filter_cons); congruence.
Qed.









End merge.



(** ** Strings *)

Lemma startswith_app (s p : pystr) : startswith (p ++ s) p = true.
Proof. induction p as [|c p IH]; simpl; [by destruct s|]. by rewrite decide_True. Qed.

Lemma startswith_prefix (s p : pystr) :
  startswith s p = true ↔ ∃ t, s = p ++ t.
Proof.
  revert s. induction p as [|c p IH]; intros s.
  { split; [intros _; by exists s|by destruct s]. }
  destruct s as [|d s]; simpl; [split; [done|by intros [t ?]]|].
  case_decide as Hcd; [subst d|].
  - rewrite IH. split; intros [t Ht]; exists t; [by rewrite Ht|by injection Ht].
  - split; [done|]. intros [t Ht]. injection Ht as -> _. done.
Qed.

Lemma py_in_contains (needle hay : pystr) :
  py_in needle hay = true ↔ contains hay needle.
Proof.
  induction hay as [|c hay IH]; cbn [py_in].
  - rewrite orb_false_r, startswith_prefix. split.
    + intros [t Ht]. exists [], t. done.
    + intros (pre & post & H). symmetry in H.
      apply app_eq_nil in H as [-> H]. by exists post.
  - rewrite orb_true_iff, IH, startswith_prefix. split.
    + intros [[t Ht]|(pre & post & Ht)].
      * exists [], t. done.
      * exists (c :: pre), post. by rewrite Ht.
    + intros ([|d pre] & post & Ht); simpl in Ht.
      * left. by exists post.
      * right. injection Ht as -> Ht. by exists pre, post.
Qed.

Lemma py_in_false_drop (needle hay : pystr) (j : nat) :
  py_in needle hay = false → startswith (drop j hay) needle = false.
Proof.
  revert j. induction hay as [|c hay IH]; intros j; cbn [py_in].
  - rewrite orb_false_r. by rewrite drop_nil.
  - intros H. apply orb_false_iff in H as [H1 H2].
    destruct j; [done|]. by apply IH.
Qed.





(** ** The regular expression *)

Arguments is_space : simpl never.
Arguments u : simpl never.

Section regex_facts.
Context {A : Type}.
Implicit Types (k : pystr → option A) (s p ws : pystr).

Lemma re_lit_startswith p s k :
  re_lit p s k = if startswith s p then k (drop (length p) s) else None.
Proof.
  revert s. induction p as [|c p IH]; intros s; [by destruct s|].
  destruct s as [|d s]; simpl; [done|]. case_decide; [apply IH|done].
Qed.

Lemma re_lit_app p s k : re_lit p (p ++ s) k = k s.
Proof.
  rewrite re_lit_startswith, startswith_app.
  by rewrite drop_app_length.
Qed.

(** The greedy run takes all the white space when the rest then matches. *)
Lemma re_spaces_longest ws s k r :
  all_space ws → not_space (head s) →
  k s = Some r → re_spaces (ws ++ s) k = Some r.
Proof.
  intros Hws Hs Hk. induction Hws as [|c ws Hc Hws IH].
  - destruct s as [|c s]; simpl; [done|]. simpl in Hs. by rewrite Hs.
  - simpl. by rewrite Hc, IH.
Qed.

(** It fails when the rest fails after every white-space prefix. *)
Lemma re_spaces_None s k :
  (∀ j, all_space (take j s) → k (drop j s) = None) →
  re_spaces s k = None.
Proof.
  induction s as [|c s IH]; intros Hall; simpl.
  - apply (Hall 0%nat). constructor.
  - destruct (is_space c) eqn:Hc.
    + rewrite IH.
      * apply (Hall 0%nat). constructor.
      * intros j Hj. apply (Hall (S j)). simpl. by constructor.
    + apply (Hall 0%nat). constructor.
Qed.
End regex_facts.

(** The lazy group stops at the first capture after which the rest of the
    pattern matches. *)
Lemma re_lazy_group_first {A} (body rest captured : pystr)
    (k : pystr → pystr → option A) (r : A) :
  k (captured ++ body) rest = Some r →
  (∀ b1 c b2, body = b1 ++ c :: b2 → k (captured ++ b1) (c :: b2 ++ rest) = None) →
  re_lazy_group (body ++ rest) captured k = Some r.
Proof.
  revert captured. induction body as [|c body IH]; intros captured Hk Hnone.
  - rewrite app_nil_r in Hk. simpl. destruct rest; simpl; by rewrite Hk.
  - simpl. specialize (Hnone [] c body eq_refl) as Hhere.
    rewrite app_nil_r in Hhere. simpl in Hhere. rewrite Hhere.
    apply IH.
    + by rewrite <- app_assoc.
    + intros b1 d b2 ->. rewrite <- app_assoc. apply (Hnone (c :: b1) d b2). done.
Qed.

Lemma startswith_app_long (l t p : pystr) :
  (length p ≤ length l)%nat → startswith (l ++ t) p = startswith l p.
Proof.
  revert l. induction p as [|c p IH]; intros l Hlen; [by destruct l, t|].
  destruct l as [|d l]; simpl in *; [lia|].
  case_decide; [apply IH; lia|done].
Qed.

(** An opening fence cannot begin inside [pre] and run over into a fence
    that follows it. *)
Lemma fence_open_no_straddle (pre x : pystr) :
  pre ≠ [] → py_in fence_open pre = false →
  startswith (pre ++ fence_open ++ x) fence_open = false.
Proof.
  intros Hne Hin. pose proof (py_in_false_drop _ _ 0 Hin) as H0.
  rewrite drop_0 in H0.
  destruct (decide (7 ≤ length pre)%nat) as [Hlong|Hshort].
  { by rewrite startswith_app_long. }
  clear Hin.
  destruct pre as [|c1 [|c2 [|c3 [|c4 [|c5 [|c6 [|c7 pre]]]]]]];
    simpl in Hshort; try lia; try done;
    unfold fence_open in *; simpl in *;
    repeat (case_decide; simplify_eq/=; try done).
Qed.

Lemma re_search_skip (pre x : pystr) :
  py_in fence_open pre = false →
  re_search_json_block (pre ++ fence_open ++ x)
  = re_search_json_block (fence_open ++ x).
Proof.
  induction pre as [|c pre IH]; [done|]. intros Hin.
  assert (py_in fence_open pre = false) as Hin'.
  { cbn [py_in] in Hin. by apply orb_false_iff in Hin as [_ ?]. }
  change (re_search_json_block ((c :: pre) ++ fence_open ++ x))
    with (match json_block_at ((c :: pre) ++ fence_open ++ x) with
          | Some g => Some g
          | None => re_search_json_block (pre ++ fence_open ++ x)
          end).
  unfold json_block_at at 1.
  rewrite re_lit_startswith, fence_open_no_straddle by done.
  by apply IH.
Qed.

Lemma re_search_no_fence (s : pystr) :
  py_in fence_open s = false → re_search_json_block s = None.
Proof.
  induction s as [|c s IH]; intros Hin.
  - done.
  - cbn [py_in] in Hin. apply orb_false_iff in Hin as [Hhere Hin].
    cbn [re_search_json_block]. unfold json_block_at.
    rewrite re_lit_startswith, Hhere. by apply IH.
Qed.

(** No closing fence starts before the real one. *)
Lemma fence_close_first (x post : pystr) (i : nat) :
  py_in fence_close (x ++ [96; 96]) = false → (i < length x)%nat →
  startswith (drop i (x ++ fence_close ++ post)) fence_close = false.
Proof.
  intros Hin Hi. pose proof (py_in_false_drop _ _ i Hin) as Hd.
  change (fence_close ++ post) with ([96; 96] ++ 96 :: post).
  rewrite app_assoc, drop_app_le by (rewrite length_app; lia).
  rewrite startswith_app_long; [done|].
  rewrite length_drop, length_app. simpl. lia.
Qed.

(** The block the pattern finds in a text with a first fenced block. *)
Lemma json_block_at_first_block (ws1 body ws2 post : pystr) :
  all_space ws1 → all_space ws2 →
  not_space (head body) → not_space (last body) →
  py_in fence_close (body ++ ws2 ++ [96; 96]) = false →
  json_block_at (fence_open ++ ws1 ++ body ++ ws2 ++ fence_close ++ post)
  = Some body.
Proof.
  intros Hws1 Hws2 Hhead Hlast Hclose.
  unfold json_block_at. rewrite re_lit_app.
  assert (∀ g : pystr, re_spaces (ws2 ++ fence_close ++ post)
                 (λ s4, re_lit fence_close s4 (λ _, Some g)) = Some g) as Htail.
  { intros g. apply re_spaces_longest; [done|done|].
    by rewrite re_lit_app. }
  destruct (decide (body = [])) as [->|Hne].
  { simpl. rewrite app_assoc.
    apply re_spaces_longest; [by apply Forall_app|done|].
    simpl. done. }
  apply re_spaces_longest; [done|by destruct body|].
  apply re_lazy_group_first; [apply Htail|].
  intros b1 c b2 Hsplit. apply re_spaces_None. intros j Hj.
  rewrite re_lit_startswith.
  destruct (decide (j < length (c :: b2))%nat) as [Hlt|Hge].
  - replace (c :: b2 ++ ws2 ++ fence_close ++ post)
      with (drop (length b1) ((body ++ ws2) ++ fence_close ++ post)).
    2:{ rewrite Hsplit, <- !app_assoc. by rewrite drop_app_length. }
    rewrite drop_drop, fence_close_first; [done|by rewrite <- app_assoc|].
    rewrite Hsplit, !length_app. simpl in *. lia.
  - exfalso.
    change (c :: b2 ++ ws2 ++ fence_close ++ post)
      with ((c :: b2) ++ ws2 ++ fence_close ++ post) in Hj.
    rewrite take_app_ge in Hj by lia.
    unfold all_space in Hj. rewrite Forall_app in Hj. destruct Hj as [Hj _].
    destruct (exists_last (l := c :: b2)) as (b' & z & Hz); [done|].
    rewrite Hz, Forall_app, Forall_singleton in Hj. destruct Hj as [_ Hj].
    rewrite Hsplit, Hz, app_assoc, last_snoc in Hlast. simpl in Hlast.
    congruence.
Qed.

Lemma re_search_first_block (response pre ws1 body ws2 post : pystr) :
  first_block response pre ws1 body ws2 post →
  re_search_json_block response = Some body.
Proof.
  intros (-> & Hpre & Hws1 & Hws2 & Hhead & Hlast & Hclose).
  rewrite re_search_skip by done.
  pose proof (json_block_at_first_block ws1 body ws2 post
                Hws1 Hws2 Hhead Hlast Hclose) as Hat.
  destruct (fence_open ++ ws1 ++ body ++ ws2 ++ fence_close ++ post);
    cbn [re_search_json_block]; by rewrite Hat.
Qed.

Example json_loads_core_sample : json_loads_core sample_plan_text = Ok sample_plan.
Proof. vm_compute. reflexivity. Qed.

(** ** ResponseParser *)

Section parser_facts.
Variable json_loads : pystr → result json.

Lemma parse_plan_body_marker (plan : json) :
  (type ← py_get plan (u "type");
   if eq_str type (u "trip_plan") then Ok (Some plan) else Ok None)
  = if has_marker plan
    then Ok (Some plan)
    else match plan with JDict _ => Ok None | _ => Raise AttributeError end.
Proof. destruct plan; reflexivity. Qed.

Lemma parse_first_block (response pre ws1 body ws2 post : pystr) :
  first_block response pre ws1 body ws2 post →
  parse_plan_from_response json_loads response
  = Ok match json_loads body with
       | Ok plan => if has_marker plan then Some plan else None
       | Raise _ => None
       end.
Proof.
  intros Hfb. unfold parse_plan_from_response, parse_plan_body.
  rewrite (re_search_first_block _ _ _ _ _ _ Hfb).
  destruct (json_loads body) as [plan|e]; [|done].
  change (try_except
            (type ← py_get plan (u "type");
             if eq_str type (u "trip_plan") then Ok (Some plan) else Ok None)
            (λ _, Ok None)
          = Ok (if has_marker plan then Some plan else None)).
  rewrite parse_plan_body_marker.
  destruct (has_marker plan); [done|]. by destruct plan.
Qed.

Lemma parse_plan_from_response_total (response : pystr) :
  ∃ r, parse_plan_from_response json_loads response = Ok r.
Proof.
  unfold parse_plan_from_response.
  destruct (parse_plan_body json_loads response) as [r|e]; simpl; eauto.
Qed.

(** C2: [parse_plan_from_response] never raises.  On a text whose
    (first) fenced JSON block decodes to an object with
    [type == "trip_plan"], it returns exactly that decoded object.  On a
    text with no opening fence, on a block that fails to decode, and on a
    block whose decoded value lacks the marker, it returns [None]. *)
Theorem parse_plan_from_response_correct (response : pystr) :
  (∃ r, parse_plan_from_response json_loads response = Ok r)
  ∧ (∀ pre ws1 body ws2 post plan,
       first_block response pre ws1 body ws2 post →
       json_loads body = Ok plan → has_marker plan = true →
       parse_plan_from_response json_loads response = Ok (Some plan))
  ∧ (py_in fence_open response = false →
       parse_plan_from_response json_loads response = Ok None)
  ∧ (∀ pre ws1 body ws2 post e,
       first_block response pre ws1 body ws2 post →
       json_loads body = Raise e →
       parse_plan_from_response json_loads response = Ok None)
  ∧ (∀ pre ws1 body ws2 post v,
       first_block response pre ws1 body ws2 post →
       json_loads body = Ok v → has_marker v = false →
       parse_plan_from_response json_loads response = Ok None).
Proof.
  split; [apply parse_plan_from_response_total|].
  split.
  { intros pre ws1 body ws2 post plan Hfb Hdec Hmark.
    by rewrite (parse_first_block _ _ _ _ _ _ Hfb), Hdec, Hmark. }
  split.
  { intros Hno. unfold parse_plan_from_response, parse_plan_body.
    by rewrite re_search_no_fence. }
  split.
  - intros pre ws1 body ws2 post e Hfb Hdec.
    by rewrite (parse_first_block _ _ _ _ _ _ Hfb), Hdec.
  - intros pre ws1 body ws2 post v Hfb Hdec Hmark.
    by rewrite (parse_first_block _ _ _ _ _ _ Hfb), Hdec, Hmark.
Qed.

(** C10: only the first fenced JSON block is inspected.  When the first
    block of a text does not decode to a marked object, the result is
    [None] although a later block, taken alone, is returned as a plan. *)
Theorem parse_inspects_first_block_only
    (pre ws1 body ws2 mid ws3 body2 ws4 tail : pystr) (plan2 : json) :
  let second := fence_open ++ ws3 ++ body2 ++ ws4 ++ fence_close ++ tail in
  let response :=
    pre ++ fence_open ++ ws1 ++ body ++ ws2 ++ fence_close ++ mid ++ second in
  first_block response pre ws1 body ws2 (mid ++ second) →
  first_block second [] ws3 body2 ws4 tail →
  (∀ plan, json_loads body = Ok plan → has_marker plan = false) →
  json_loads body2 = Ok plan2 → has_marker plan2 = true →
  parse_plan_from_response json_loads response = Ok None
  ∧ parse_plan_from_response json_loads second = Ok (Some plan2).
Proof.
  intros second response Hfirst Hsecond Hlacks Hdec2 Hmark2. split.
  - rewrite (parse_first_block _ _ _ _ _ _ Hfirst).
    destruct (json_loads body) as [plan|e] eqn:Hdec; [|done].
    by rewrite (Hlacks plan eq_refl).
  - by rewrite (parse_first_block _ _ _ _ _ _ Hsecond), Hdec2, Hmark2.
Qed.
End parser_facts.

(** A concrete decomposition is checked by evaluation. *)
Ltac check_first_block :=
  unfold first_block, all_space;
  split; [vm_compute; reflexivity|];
  split; [vm_compute; reflexivity|];
  split; [repeat (constructor; [vm_compute; reflexivity|]); constructor|];
  split; [repeat (constructor; [vm_compute; reflexivity|]); constructor|];
  split; [vm_compute; reflexivity|];
  split; vm_compute; reflexivity.

Lemma sample_response_first_block :
  first_block sample_response (u "Day 1: West Lake." ++ [10]) [10]
    sample_plan_text [10] ([10] ++ u "Enjoy!").
Proof.
  check_first_block.
Qed.

(** C2 at a concrete reply: narrative, one fenced block with the marker. *)
Lemma parse_plan_from_response_witness :
  parse_plan_from_response json_loads_core sample_response = Ok (Some sample_plan).
Proof.
  apply (proj1 (proj2 (parse_plan_from_response_correct json_loads_core
                         sample_response))
           _ _ _ _ _ sample_plan sample_response_first_block);
    vm_compute; reflexivity.
Defined.

(** C10 at a concrete reply: a status object first, the itinerary second. *)
Lemma parse_inspects_first_block_only_witness :
  parse_plan_from_response json_loads_core sample_two_blocks = Ok None
  ∧ parse_plan_from_response json_loads_core sample_second_block
    = Ok (Some sample_plan).
Proof.
  assert (first_block sample_two_blocks (u "Status:" ++ [10]) [10]
            sample_other_text [10]
            (([10] ++ u "Plan:" ++ [10]) ++ sample_second_block)) as Hfirst
    by check_first_block.
  assert (first_block sample_second_block [] [32] sample_plan_text [32] [])
    as Hsecond by check_first_block.
  assert (∀ plan, json_loads_core sample_other_text = Ok plan →
                  has_marker plan = false) as Hlacks.
  { intros plan Hplan. vm_compute in Hplan. injection Hplan as <-.
    vm_compute. reflexivity. }
  assert (json_loads_core sample_plan_text = Ok sample_plan) as Hdec
    by (vm_compute; reflexivity).
  assert (has_marker sample_plan = true) as Hmark by (vm_compute; reflexivity).
  exact (parse_inspects_first_block_only json_loads_core
           (u "Status:" ++ [10]) [10] sample_other_text [10]
           ([10] ++ u "Plan:" ++ [10]) [32] sample_plan_text [32] []
           sample_plan Hfirst Hsecond Hlacks Hdec Hmark).
Defined.

(** ** The program logic *)

Section wp_rules.
Context {A B : Type}.
Implicit Types (m : M A) (k : A → M B) (h : log).

Lemma wp_ret (a : A) (Q : A → log → Prop) h : Q a h → wp (mret a) Q h.
Proof. intros HQ. by exists a, h. Qed.

Lemma wp_bind m k (Q : B → log → Prop) h :
  wp m (λ a h', wp (k a) Q h') h → wp (m ≫= k) Q h.
Proof.
  intros (a & h' & Hm & b & h'' & Hk & HQ). exists b, h''.
  split; [|done]. unfold mbind, M_bind. by rewrite Hm.
Qed.

Lemma wp_mono m (Q Q' : A → log → Prop) h :
  (∀ a h', Q a h' → Q' a h') → wp m Q h → wp m Q' h.
Proof. intros HQ (a & h' & Hm & Ha). exists a, h'. eauto. Qed.


(** a handler that returns makes the whole [try] return *)
Lemma wp_try m (handler : exn → M A) (Q : A → log → Prop) h :
  match m h with
  | (Ok a, h') => Q a h'
  | (Raise e, h') => wp (handler e) Q h'
  end →
  wp (try_catch m handler) Q h.
Proof.
  unfold wp, try_catch. destruct (m h) as [[a|e] h']; [|done].
  intros HQ. by exists a, h'.
Qed.

Lemma wp_call (ev : event) (answer : log → result A) (Q : A → log → Prop) h a :
  answer h = Ok a → Q a (h ++ [ev]) → wp (call ev answer) Q h.
Proof. intros Ha HQ. exists a, (h ++ [ev]). unfold call. by rewrite Ha. Qed.
End wp_rules.

(** ** IntentExtractor *)

Section intent_facts.
Variable py : python.
Variable W : world.

Lemma chat_run (message : pystr) (ctx : option pystr) (h : log) :
  chat W message ctx h
  = (match completions_create W h message ctx with
     | Ok text => Ok text
     | Raise _ => Raise (ProviderError (u "DeepSeek API 调用失败"))
     end, h ++ [EvChat message ctx]).
Proof.
  unfold chat, try_catch, call.
  by destruct (completions_create W h message ctx).
Qed.

Lemma extract_travel_intent_run (request : PlanRequest) (h : log) :
  _extract_travel_intent py W request h
  = (Ok match completions_create W h (extract_prompt request) None with
        | Ok response =>
          match decode_intent py response with
          | Ok intent => intent
          | Raise _ => default_intent request
          end
        | Raise _ => default_intent request
        end,
     h ++ [EvChat (extract_prompt request) None]).
Proof.
  unfold _extract_travel_intent, try_catch, mbind, M_bind.
  rewrite chat_run.
  destruct (completions_create W h (extract_prompt request) None)
    as [response|e]; [|done].
  unfold lift. by destruct (decode_intent py response).
Qed.

Lemma default_intent_valid (request : PlanRequest) :
  structurally_valid (default_intent request) = true.
Proof. vm_compute. reflexivity. Qed.

(** C3 (as amended): [_extract_travel_intent] never raises and makes one
    chat call.  It returns the fixed default intent, which is
    structurally valid, with [suggested_areas = [destination]] and
    [travel_style = "综合体验"], when the chat call fails, when the first
    fenced block fails to decode, and when there is no opening fence and
    the whole reply fails to decode.  Otherwise it returns the decoded
    value as it is, unvalidated: that of the first fenced block, or, with
    no opening fence, that of the whole reply. *)
Theorem extract_travel_intent_total (request : PlanRequest) (h : log) :
  let outcome := completions_create W h (extract_prompt request) None in
  ∃ intent,
    _extract_travel_intent py W request h
    = (Ok intent, h ++ [EvChat (extract_prompt request) None])
    ∧ (∀ e, outcome = Raise e → intent = default_intent request)
    ∧ (∀ response pre ws1 body ws2 post,
         outcome = Ok response →
         first_block response pre ws1 body ws2 post →
         intent = match json_loads py body with
                  | Ok v => v
                  | Raise _ => default_intent request
                  end)
    ∧ (∀ response,
         outcome = Ok response → py_in fence_open response = false →
         intent = match json_loads py response with
                  | Ok v => v
                  | Raise _ => default_intent request
                  end)
    ∧ structurally_valid (default_intent request) = true
    ∧ dict_get (match default_intent request with JDict d => d | _ => [] end)
        (u "suggested_areas") = Some (JList [JStr (destination request)])
    ∧ dict_get (match default_intent request with JDict d => d | _ => [] end)
        (u "travel_style") = Some (JStr (u "综合体验")).
Proof.
  intros outcome. eexists. split; [apply extract_travel_intent_run|].
  fold outcome. split.
  { by intros e ->. }
  split.
  { intros response pre ws1 body ws2 post -> Hfb. unfold decode_intent.
    by rewrite (re_search_first_block _ _ _ _ _ _ Hfb). }
  split.
  { intros response -> Hno. unfold decode_intent.
    by rewrite re_search_no_fence. }
  split; [apply default_intent_valid|].
  split; vm_compute; reflexivity.
Qed.
End intent_facts.

(** C3 as stated fails: a reply that is a bare JSON object, with no fenced
    block, is returned as the intent; it has none of the required keys and
    is not the default intent. *)
Lemma extract_travel_intent_unvalidated :
  _extract_travel_intent core_python (chat_only_world (λ _ _, Ok (u "{}")))
    hangzhou []
  = (Ok (JDict []), [EvChat (extract_prompt hangzhou) None])
  ∧ py_in fence_open (u "{}") = false
  ∧ structurally_valid (JDict []) = false
  ∧ JDict [] ≠ default_intent hangzhou.
Proof.
  split; [vm_compute; reflexivity|].
  split; [vm_compute; reflexivity|].
  split; [reflexivity|]. intros Heq. discriminate Heq.
Qed.

(** ** ImageResolver *)

Lemma existsb_py_in_Exists (hay : pystr) (needles : list pystr) :
  existsb (λ n, py_in n hay) needles = true ↔ Exists (contains hay) needles.
Proof.
  rewrite existsb_exists, Exists_exists. split.
  - intros (n & Hn & Hin). exists n. split; [by apply list_elem_of_In|].
    by apply py_in_contains.
  - intros (n & Hn & Hin). exists n. split; [by apply list_elem_of_In|].
    by apply py_in_contains.
Qed.

Lemma existsb_py_in_Forall (hay : pystr) (needles : list pystr) :
  existsb (λ n, py_in n hay) needles = false ↔
  Forall (λ n, ¬ contains hay n) needles.
Proof.
  rewrite <- not_true_iff_false, existsb_py_in_Exists.
  by rewrite <- Forall_Exists_neg.
Qed.

Section image_facts.
Variable py : python.
Variable W : world.
Implicit Types (h : log) (url : pystr).

Lemma search_unsplash_image_run destination h :
  search_unsplash_image W destination h
  = if bool_decide (UNSPLASH_ACCESS_KEY W = []) then (Ok JNull, h)
    else (Ok match unsplash_get W h destination with
             | Ok (status, data) =>
               if (status =? 200)%Z
               then match unsplash_first_regular data with
                    | Ok v => v
                    | Raise _ => JNull
                    end
               else JNull
             | Raise _ => JNull
             end,
          h ++ [EvUnsplash destination]).
Proof.
  unfold search_unsplash_image. case_bool_decide; [done|].
  unfold try_catch, mbind, M_bind, call, lift.
  destruct (unsplash_get W h destination) as [[status data]|e]; [|done].
  simpl. destruct (status =? 200)%Z; [|done].
  by destruct (unsplash_first_regular data).
Qed.

Lemma verify_image_accessible_run url h :
  _verify_image_accessible py W url h
  = (Ok (head_accepts py (http_head W h url)), h ++ [EvHead url]).
Proof.
  unfold _verify_image_accessible, try_catch, mbind, M_bind, call, head_accepts.
  destruct (http_head W h url) as [[status ct]|e]; [|done].
  cbn [fst snd]. destruct (status =? 200)%Z; cbn [negb andb]; [|done].
  by destruct (existsb _ image_types).
Qed.

Lemma check_candidate_ok (item : pydict) url :
  check_candidate py item = Ok (Some url) → candidate_ok py url.
Proof.
  unfold check_candidate.
  destruct (truthy _); cbn [negb]; [|done].
  destruct (py_or _ _) as [| | | |s| |]; try done.
  destruct (startswith s (u "https://")) eqn:Hs; cbn [negb]; [|done].
  destruct (existsb (λ domain, py_in domain s) invalid_domains) eqn:Hb; [done|].
  destruct (existsb _ valid_patterns) eqn:Hv; cbn [negb]; [|done].
  intros [= <-]. split; [by apply startswith_prefix|].
  split; [by apply existsb_py_in_Forall|by apply existsb_py_in_Exists].
Qed.

Lemma scan_results_ok (results : list pydict) (acc : list pystr) :
  Forall (candidate_ok py) acc → (length acc < 5)%nat →
  Forall (candidate_ok py) (scan_results py results acc)
  ∧ (length (scan_results py results acc) ≤ 5)%nat.
Proof.
  revert acc. induction results as [|item rest IH]; intros acc Hacc Hlen;
    cbn [scan_results].
  { split; [done|lia]. }
  destruct (check_candidate py item) as [[url|]|e] eqn:Hc.
  - assert (Forall (candidate_ok py) (acc ++ [url])) as Hacc'.
    { apply Forall_app. split; [done|].
      apply Forall_singleton. by eapply check_candidate_ok. }
    destruct (5 <=? length (acc ++ [url]))%nat eqn:Hfive.
    + split; [done|]. rewrite length_app. simpl. lia.
    + apply IH; [done|]. by apply Nat.leb_gt.
  - by apply IH.
  - split; [done|lia].
Qed.

Lemma probed_cons h (c : pystr) (l : list pystr) (i : nat) :
  h ++ (EvHead <$> take (S i) (c :: l))
  = (h ++ [EvHead c]) ++ (EvHead <$> take i l).
Proof. cbn [take fmap list_fmap]. by rewrite <- app_assoc. Qed.

(** the probes: in order, up to the first that is accepted *)
Lemma verify_loop_run (candidates : list pystr) h :
  ∃ r n,
    verify_loop py W candidates h = (Ok r, probed h candidates n)
    ∧ ((r = JNull ∧ n = length candidates
        ∧ ∀ i url, candidates !! i = Some url →
            head_accepts py (http_head W (probed h candidates i) url) = false)
       ∨ (∃ i url,
            r = JStr url ∧ n = S i ∧ candidates !! i = Some url
            ∧ head_accepts py (http_head W (probed h candidates i) url) = true
            ∧ ∀ j url', (j < i)%nat → candidates !! j = Some url' →
                head_accepts py (http_head W (probed h candidates j) url')
                = false)).
Proof.
  unfold probed. revert h.
  induction candidates as [|c candidates IH]; intros h.
  { exists JNull, 0%nat. cbn [take fmap list_fmap]. rewrite app_nil_r.
    split; [done|].
    left. split; [done|]. split; [done|]. intros i url Hi.
    by rewrite lookup_nil in Hi. }
  cbn [verify_loop]. unfold mbind, M_bind, try_catch.
  rewrite verify_image_accessible_run.
  destruct (head_accepts py (http_head W h c)) eqn:Hacc.
  - exists (JStr c), 1%nat. split; [done|]. right. exists 0%nat, c.
    cbn [take fmap list_fmap]. rewrite app_nil_r.
    split; [done|]. split; [done|]. split; [done|]. split; [done|].
    intros j url' Hj. lia.
  - destruct (IH (h ++ [EvHead c])) as (r & n & Hrun & Hcases).
    exists r, (S n). split.
    { by rewrite Hrun, probed_cons. }
    destruct Hcases as [(-> & -> & Hnone)|(i & url & -> & -> & Hi & Hyes & Hno)].
    + left. split; [done|]. split; [done|].
      intros [|i] url Hi.
      * injection Hi as <-. cbn [take fmap list_fmap]. by rewrite app_nil_r.
      * rewrite probed_cons. by apply Hnone.
    + right. exists (S i), url. split; [done|]. split; [done|].
      split; [done|]. split.
      * by rewrite probed_cons.
      * intros [|j] url' Hj Hl.
        -- injection Hl as <-. cbn [take fmap list_fmap]. by rewrite app_nil_r.
        -- rewrite probed_cons. apply Hno; [lia|done].
Qed.
End image_facts.

Section image_claims.
Variable py : python.
Variable W : world.
Implicit Types (h : log) (url : pystr).

Lemma search_web_run query h :
  search_web W query h
  = (Ok match ddgs_images W h query with Ok r => r | Raise _ => [] end,
     h ++ [EvSearchWeb query]).
Proof.
  unfold search_web, try_catch, call.
  by destruct (ddgs_images W h query).
Qed.

Lemma search_web_tier_run destination h :
  let h0 := h ++ [EvSearchWeb (image_query destination)] in
  let candidates :=
    scan_results py match ddgs_images W h (image_query destination) with
                    | Ok r => r
                    | Raise _ => []
                    end [] in
  search_web_tier py W destination h = verify_loop py W candidates h0.
Proof.
  intros h0 candidates. unfold search_web_tier, try_catch, mbind, M_bind.
  rewrite search_web_run. fold candidates. fold h0.
  case_bool_decide as Hnil.
  - rewrite Hnil. done.
  - destruct (verify_loop_run py W candidates h0) as (r & n & -> & _). done.
Qed.

Lemma head_accepts_iff (answer : result (Z * option pystr)) :
  head_accepts py answer = true ↔
  ∃ content_type,
    answer = Ok (200%Z, content_type)
    ∧ Exists (contains (str_lower py (default [] content_type))) image_types.
Proof.
  unfold head_accepts. destruct answer as [[status ct]|e].
  - rewrite andb_true_iff, existsb_py_in_Exists, Z.eqb_eq. split.
    + intros [-> Hex]. by exists ct.
    + intros (ct' & [= -> ->] & Hex). done.
  - split; [done|]. by intros (ct & Heq & _).
Qed.

(** C6 (as amended): in the web-search tier every candidate that
    survives the filter starts with [https://], contains no blacklisted
    domain, and contains (lower-cased) an allowlisted extension or host;
    at most 5 survive.  They are probed in order; a probe accepts exactly
    on status 200 with a content-type that contains [image/] or
    [octet-stream]; the first accepted URL is returned and probing stops;
    when none is accepted the result is [None]. *)
Theorem web_tier_filters_and_probes (destination : pystr) h :
  let h0 := h ++ [EvSearchWeb (image_query destination)] in
  let candidates :=
    scan_results py match ddgs_images W h (image_query destination) with
                    | Ok r => r
                    | Raise _ => []
                    end [] in
  Forall (candidate_ok py) candidates
  ∧ (length candidates ≤ 5)%nat
  ∧ (∃ r n,
       search_web_tier py W destination h = (Ok r, probed h0 candidates n)
       ∧ ((r = JNull ∧ n = length candidates
           ∧ ∀ i url, candidates !! i = Some url →
               head_accepts py (http_head W (probed h0 candidates i) url) = false)
          ∨ (∃ i url,
               r = JStr url ∧ n = S i ∧ candidates !! i = Some url
               ∧ head_accepts py (http_head W (probed h0 candidates i) url) = true
               ∧ ∀ j url', (j < i)%nat → candidates !! j = Some url' →
                   head_accepts py (http_head W (probed h0 candidates j) url')
                   = false)))
  ∧ (∀ answer,
       head_accepts py answer = true ↔
       ∃ content_type,
         answer = Ok (200%Z, content_type)
         ∧ Exists (contains (str_lower py (default [] content_type)))
                  image_types).
Proof.
  intros h0 candidates.
  destruct (scan_results_ok py
              match ddgs_images W h (image_query destination) with
              | Ok r => r
              | Raise _ => []
              end [])
    as [Hok Hlen]; [constructor|simpl; lia|].
  split; [exact Hok|]. split; [exact Hlen|]. split.
  - rewrite search_web_tier_run. apply verify_loop_run.
  - apply head_accepts_iff.
Qed.

Lemma marker_texts_typed (ms : list json) :
  Forall is_dict ms → ∃ texts, marker_texts py ms = Ok texts.
Proof.
  induction 1 as [|m ms [d ->] _ [texts IH]]; simpl; [by eexists|].
  unfold marker_text. simpl. rewrite IH. simpl. by eexists.
Qed.

Lemma get_amap_static_image_typed (loc : pystr) (markers : option (list json)) :
  markers_typed markers →
  ∃ amap_url, get_amap_static_image py W loc markers = Ok amap_url.
Proof.
  intros Hty. unfold get_amap_static_image.
  destruct markers as [[|m ms]|]; simpl; try by eexists.
  destruct (marker_texts_typed (take 5 (m :: ms))) as [texts Ht].
  { apply Forall_take. by apply Hty. }
  simpl in Ht. rewrite Ht. simpl. by eexists.
Qed.

Lemma search_web_tier_returns destination h :
  ∃ r h', search_web_tier py W destination h = (Ok r, h').
Proof.
  rewrite search_web_tier_run.
  destruct (verify_loop_run py W
              (scan_results py match ddgs_images W h (image_query destination) with
                               | Ok r => r
                               | Raise _ => []
                               end [])
              (h ++ [EvSearchWeb (image_query destination)]))
    as (r & n & Hrun & _).
  eauto.
Qed.

Lemma static_map_tier_returns location markers h :
  ∃ r h', static_map_tier py W location markers h = (Ok r, h').
Proof.
  unfold static_map_tier. destruct location as [[|c loc]|]; try by eexists _, _.
  case_bool_decide; [by eexists _, _|].
  unfold try_catch, mbind, M_bind, call.
  destruct (get_amap_static_image py W (c :: loc) markers); by eexists _, _.
Qed.

(** C5: the tiers run in the order premium API, static map, web search,
    and the first success ends the resolution.  (1) It never raises.
    (2) When the premium tier yields a URL, that URL is the result and
    the only call made is the premium one: neither the static map nor the
    web search is invoked.  (3) When the premium tier yields nothing
    (unconfigured, failed call, error status, no results) and a centre
    coordinate and a map key are there, the static-map URL is the result,
    for markers of the declared type [List[Dict]].  (4) When the static
    map is not available or fails, the web-search tier decides.  (5) The
    premium tier itself: nothing without a key and without any call,
    nothing when the call fails, the first result's URL on status 200. *)
Theorem search_destination_image_tiers
    (destination : pystr) (location : option pystr)
    (markers : option (list json)) h :
  let run := search_destination_image py W destination location markers h in
  let premium := search_unsplash_image W destination h in
  (∃ r h', run = (Ok r, h'))
  ∧ (∀ (found : json) h1, premium = (Ok found, h1) → truthy found = true →
       run = (Ok found, h1) ∧ h1 = h ++ [EvUnsplash destination])
  ∧ (∀ v h1 loc, premium = (Ok v, h1) → truthy v = false →
       location = Some loc → loc ≠ [] → AMAP_WEB_KEY W ≠ [] →
       markers_typed markers →
       ∃ amap_url,
         get_amap_static_image py W loc markers = Ok amap_url
         ∧ run = (Ok (JStr amap_url), h1 ++ [EvStaticMap loc]))
  ∧ (∀ v h1, premium = (Ok v, h1) → truthy v = false →
       (location = None ∨ location = Some [] ∨ AMAP_WEB_KEY W = []) →
       run = search_web_tier py W destination h1)
  ∧ (∀ v h1 loc e, premium = (Ok v, h1) → truthy v = false →
       location = Some loc → loc ≠ [] → AMAP_WEB_KEY W ≠ [] →
       get_amap_static_image py W loc markers = Raise e →
       run = search_web_tier py W destination (h1 ++ [EvStaticMap loc]))
  ∧ (UNSPLASH_ACCESS_KEY W = [] → premium = (Ok JNull, h))
  ∧ (∀ e, UNSPLASH_ACCESS_KEY W ≠ [] →
       unsplash_get W h destination = Raise e →
       premium = (Ok JNull, h ++ [EvUnsplash destination]))
  ∧ (∀ data (found : json), UNSPLASH_ACCESS_KEY W ≠ [] →
       unsplash_get W h destination = Ok (200%Z, data) →
       unsplash_first_regular data = Ok found →
       premium = (Ok found, h ++ [EvUnsplash destination])).
Proof.
  intros run premium.
  assert (∃ v h1, premium = (Ok v, h1)
                  ∧ (h1 = h ∨ h1 = h ++ [EvUnsplash destination]))
    as (v & h1 & Hprem & Hh1).
  { unfold premium. rewrite search_unsplash_image_run.
    case_bool_decide; eexists _, _; eauto. }
  assert (run = if truthy v then (Ok v, h1)
                else match static_map_tier py W location markers h1 with
                     | (Ok (Some url), h2) => (Ok (JStr url), h2)
                     | (Ok None, h2) => search_web_tier py W destination h2
                     | (Raise e, h2) => (Raise e, h2)
                     end) as Hrun.
  { unfold run, search_destination_image, try_catch, mbind, M_bind.
    fold premium. rewrite Hprem. destruct (truthy v); [done|].
    destruct (static_map_tier py W location markers h1) as [[[url|]|e] h2]; done. }
  split.
  { rewrite Hrun. destruct (truthy v); [by eexists _, _|].
    destruct (static_map_tier_returns location markers h1) as (r & h2 & ->).
    destruct r as [url|]; [by eexists _, _|]. apply search_web_tier_returns. }
  split.
  { intros found h1' Heq Htr. rewrite Hprem in Heq. injection Heq as <- <-.
    rewrite Hrun, Htr. split; [done|].
    destruct Hh1 as [->| ->]; [|done]. exfalso.
    unfold premium in Hprem. rewrite search_unsplash_image_run in Hprem.
    case_bool_decide.
    - injection Hprem as <-. done.
    - injection Hprem as _ Hh. apply (f_equal length) in Hh.
      rewrite length_app in Hh. simpl in Hh. lia. }
  split.
  { intros v' h1' loc Heq Htr -> Hloc Hkey Hty.
    rewrite Hprem in Heq. injection Heq as <- <-.
    destruct (get_amap_static_image_typed loc markers Hty) as [amap_url Hurl].
    exists amap_url. split; [done|]. rewrite Hrun, Htr.
    unfold static_map_tier. destruct loc as [|c loc]; [done|].
    rewrite bool_decide_eq_false_2 by done.
    unfold try_catch, mbind, M_bind, call. by rewrite Hurl. }
  split.
  { intros v' h1' Heq Htr Hno. rewrite Hprem in Heq. injection Heq as <- <-.
    rewrite Hrun, Htr.
    unfold static_map_tier.
    destruct Hno as [->|[->|Hkey]]; [done|done|].
    destruct location as [[|c loc]|]; [done| |done].
    by rewrite bool_decide_eq_true_2. }
  split.
  { intros v' h1' loc e Heq Htr -> Hloc Hkey Hraise.
    rewrite Hprem in Heq. injection Heq as <- <-.
    rewrite Hrun, Htr. unfold static_map_tier.
    destruct loc as [|c loc]; [done|].
    rewrite bool_decide_eq_false_2 by done.
    unfold try_catch, mbind, M_bind, call. by rewrite Hraise. }
  unfold premium. rewrite search_unsplash_image_run.
  split; [|split].
  - intros Hkey. by rewrite bool_decide_eq_true_2.
  - intros e Hkey ->. by rewrite bool_decide_eq_false_2.
  - intros data found Hkey -> ->. by rewrite bool_decide_eq_false_2.
Qed.
End image_claims.

(** C6 as stated fails on the content type: a probe answered with status
    200 and [application/octet-stream], which is no image type, verifies
    the candidate. *)
Lemma web_tier_accepts_octet_stream :
  search_web_tier core_python octet_stream_world (u "杭州") []
  = (Ok (JStr jpg_url),
     [EvSearchWeb (image_query (u "杭州")); EvHead jpg_url])
  ∧ http_head octet_stream_world
      [EvSearchWeb (image_query (u "杭州"))] jpg_url
    = Ok (200%Z, Some (u "application/octet-stream"))
  ∧ py_in (u "image") (u "application/octet-stream") = false.
Proof. repeat split; vm_compute; reflexivity. Qed.

(** C5 at a concrete world: the premium API answers, so nothing else is
    called although a coordinate and a map key are there. *)
Lemma search_destination_image_tiers_witness :
  search_destination_image core_python premium_world (u "杭州")
    (Some (u "120.1,30.2")) None []
  = (Ok (JStr premium_url), [] ++ [EvUnsplash (u "杭州")]).
Proof.
  pose proof (proj1 (proj2 (search_destination_image_tiers core_python
                              premium_world (u "杭州") (Some (u "120.1,30.2"))
                              None []))
                (JStr premium_url) [EvUnsplash (u "杭州")]) as Hpremium.
  destruct Hpremium as [Hrun Hlog]; [vm_compute; reflexivity|reflexivity|].
  exact Hrun.
Defined.

(** ** Dictionaries and logs *)

Lemma dict_get_set_eq (d : pydict) (k : pystr) (v : json) :
  dict_get (dict_set d k v) k = Some v.
Proof.
  induction d as [|[k' v'] d IH]; simpl.
  - by rewrite decide_True.
  - case_decide; simpl; [by rewrite decide_True|by rewrite decide_False].
Qed.

Lemma dict_get_set_ne (d : pydict) (k k' : pystr) (v : json) :
  k ≠ k' → dict_get (dict_set d k v) k' = dict_get d k'.
Proof.
  intros Hne. induction d as [|[k0 v0] d IH]; simpl.
  - by rewrite decide_False.
  - case_decide as Hk; simpl.
    + subst k0. by rewrite !decide_False.
    + case_decide; [done|apply IH].
Qed.

Lemma extends_refl (E : event → Prop) (h : log) : extends E h h.
Proof. exists []. by rewrite app_nil_r. Qed.

Lemma extends_trans (E : event → Prop) (h1 h2 h3 : log) :
  extends E h1 h2 → extends E h2 h3 → extends E h1 h3.
Proof.
  intros (e1 & -> & H1) (e2 & -> & H2). exists (e1 ++ e2).
  split; [by rewrite app_assoc|by apply Forall_app].
Qed.

Lemma extends_one (E : event → Prop) (h : log) (ev : event) :
  E ev → extends E h (h ++ [ev]).
Proof. intros HE. exists [ev]. split; [done|by constructor]. Qed.

(** ** PlanEnricher *)

Section enrich_facts.
Variable py : python.
Variable W : world.
Variable request : PlanRequest.
Implicit Types (h : log) (poi day plan : json).

Lemma enrich_poi_complete poi h :
  complete_poi poi → enrich_poi py W request poi h = (Ok poi, h).
Proof.
  intros (d & -> & Hloc & Himg). unfold enrich_poi, mbind, M_bind.
  rewrite Hloc. simpl. by rewrite Himg.
Qed.

Lemma map_M_enrich_complete (l : list json) h :
  Forall complete_poi l →
  map_M (enrich_poi py W request) l h = (Ok l, h).
Proof.
  induction 1 as [|poi l Hpoi _ IH]; [done|].
  cbn [map_M]. unfold mbind, M_bind.
  by rewrite enrich_poi_complete, IH.
Qed.

(** one pair of the route loop, on objects: it returns, and at most
    asks for a route *)
Lemma route_step_dicts (da db : pydict) (routes : list json) h :
  ∃ routes' h', route_step W request (JDict da) (JDict db) routes h
                = (Ok routes', h')
                ∧ extends is_route_event h h'.
Proof.
  unfold route_step, mbind, M_bind, lift, py_get.
  destruct (truthy_opt (dict_get da (u "location"))) eqn:Hla.
  2:{ eexists _, _. split; [reflexivity|apply extends_refl]. }
  destruct (truthy_opt (dict_get db (u "location"))) eqn:Hlb.
  2:{ cbn [andb]. eexists _, _. split; [reflexivity|apply extends_refl]. }
  cbn [andb].
  unfold try_catch, _calculate_route, call, py_getitem, mret, M_ret.
  destruct (dict_get da (u "location")) as [va|]; [|done].
  destruct (dict_get db (u "location")) as [vb|]; [|done].
  destruct (amap_route W h (transport_mode request) va vb
              (destination request)) as [route|e].
  - destruct (route_entry request (JDict da) (JDict db) route) as [entry|e'];
      (eexists _, _; split; [reflexivity|by apply extends_one]).
  - eexists _, _. split; [reflexivity|by apply extends_one].
Qed.

Lemma route_loop_dicts (l routes : list json) h :
  Forall is_dict l →
  ∃ routes' h', route_loop W request l routes h = (Ok routes', h')
                ∧ extends is_route_event h h'.
Proof.
  intros Hl. revert routes h.
  induction Hl as [|a l [da ->] Hl IH]; intros routes h.
  { eexists _, _. split; [reflexivity|apply extends_refl]. }
  destruct Hl as [|b l' [db ->] Hl'].
  { eexists _, _. split; [reflexivity|apply extends_refl]. }
  cbn [route_loop]. unfold mbind, M_bind.
  destruct (route_step_dicts da db routes h) as (routes1 & h1 & -> & Hext).
  destruct (IH routes1 h1) as (routes' & h' & Hrun & Hext').
  exists routes', h'. split; [exact Hrun|by eapply extends_trans].
Qed.
Lemma complete_poi_is_dict poi : complete_poi poi → is_dict poi.
Proof. intros (d & -> & _). by exists d. Qed.

Lemma enrich_day_run_list (d : pydict) (l : list json) h :
  dict_get d (u "pois") = Some (JList l) →
  enrich_day py W request (JDict d) h
  = match map_M (enrich_poi py W request) l h with
    | (Ok l', h1) =>
      match route_loop W request l' [] h1 with
      | (Ok routes, h2) =>
        (Ok (JDict (dict_set (dict_set d (u "pois") (JList l'))
                             (u "routes") (JList routes))), h2)
      | (Raise e, h2) => (Raise e, h2)
      end
    | (Raise e, h1) => (Raise e, h1)
    end.
Proof.
  intros Hp. unfold enrich_day. rewrite Hp.
  unfold mbind, M_bind, lift. cbn [from_option id py_iter].
  destruct (map_M (enrich_poi py W request) l h) as [[l'|e] h1]; [|done].
  by destruct (route_loop W request l' [] h1) as [[routes|e] h2].
Qed.

Lemma enrich_day_run_none (d : pydict) h :
  dict_get d (u "pois") = None →
  enrich_day py W request (JDict d) h
  = (Ok (JDict (dict_set d (u "routes") (JList []))), h).
Proof. intros Hp. unfold enrich_day. by rewrite Hp. Qed.

(** a day whose POIs are all complete: nothing is looked up, the POI
    list stays as it is *)
Lemma enrich_day_complete day h :
  day_of complete_poi day →
  ∃ day' h', enrich_day py W request day h = (Ok day', h')
             ∧ extends is_route_event h h'
             ∧ day_pois day' = day_pois day.
Proof.
  intros (d & -> & Hd).
  destruct (dict_get d (u "pois")) as [[| | | | |l|]|] eqn:Hp; try done.
  - rewrite (enrich_day_run_list d l h Hp), map_M_enrich_complete by done.
    destruct (route_loop_dicts l [] h) as (routes & h' & -> & Hext).
    { eapply Forall_impl; [exact Hd|]. apply complete_poi_is_dict. }
    eexists _, _. split; [reflexivity|]. split; [done|].
    cbn [day_pois]. rewrite Hp.
    rewrite dict_get_set_ne by (vm_compute; congruence).
    apply dict_get_set_eq.
  - rewrite (enrich_day_run_none d h Hp).
    eexists _, _. split; [reflexivity|]. split; [apply extends_refl|].
    cbn [day_pois]. rewrite Hp.
    rewrite dict_get_set_ne by (vm_compute; congruence). done.
Qed.

Lemma map_M_enrich_days_complete (days : list json) h :
  Forall (day_of complete_poi) days →
  ∃ days' h', map_M (enrich_day py W request) days h = (Ok days', h')
              ∧ extends is_route_event h h'
              ∧ day_pois <$> days' = day_pois <$> days.
Proof.
  intros Hdays. revert h.
  induction Hdays as [|day days Hday _ IH]; intros h.
  { eexists _, _. split; [reflexivity|]. split; [apply extends_refl|done]. }
  destruct (enrich_day_complete day h Hday) as (day' & h1 & Hrun & Hext & Hp).
  destruct (IH h1) as (days' & h2 & Hrun' & Hext' & Hps).
  exists (day' :: days'), h2. split.
  { cbn [map_M]. unfold mbind, M_bind. by rewrite Hrun, Hrun'. }
  split; [by eapply extends_trans|].
  rewrite !fmap_cons. by rewrite Hp, Hps.
Qed.

Lemma enrich_plan_run_list (d : pydict) (days : list json) h :
  dict_get d (u "daily_plans") = Some (JList days) →
  _enrich_plan py W request (JDict d) h
  = match map_M (enrich_day py W request) days h with
    | (Ok days', h1) =>
      (Ok (JDict (dict_set
                    (dict_set (dict_set d (u "id") (JStr (uuid4_prefix W h)))
                              (u "created_at") (JStr (now_isoformat W h)))
                    (u "daily_plans") (JList days'))), h1)
    | (Raise e, h1) => (Raise e, h1)
    end.
Proof.
  intros Hd. unfold _enrich_plan.
  rewrite !dict_get_set_ne by (vm_compute; congruence). rewrite Hd.
  unfold mbind, M_bind, lift. cbn [from_option id py_iter].
  by destruct (map_M (enrich_day py W request) days h) as [[days'|e] h1].
Qed.

Lemma enrich_plan_run_none (d : pydict) h :
  dict_get d (u "daily_plans") = None →
  _enrich_plan py W request (JDict d) h
  = (Ok (JDict (dict_set (dict_set d (u "id") (JStr (uuid4_prefix W h)))
                         (u "created_at") (JStr (now_isoformat W h)))), h).
Proof.
  intros Hd. unfold _enrich_plan.
  rewrite !dict_get_set_ne by (vm_compute; congruence). by rewrite Hd.
Qed.

Lemma no_lookup_of_route (evs : list event) :
  Forall is_route_event evs → Forall (λ ev, ¬ is_lookup_event ev) evs.
Proof.
  intros Hevs. eapply Forall_impl; [exact Hevs|].
  intros ev Hroute Hlookup. destruct ev; contradiction.
Qed.

(** C7: enrichment leaves complete POIs alone.  On a plan whose days are
    objects with lists of POIs that each have a non-empty [location] and
    a non-empty [image_url], [_enrich_plan] returns; the POI lists of the
    result are those of the plan, entry by entry (so location, address,
    id and image URL are unchanged); and the only calls made are route
    requests: no coordinate search and no image lookup. *)
Theorem enrich_plan_keeps_complete_pois plan h :
  plan_of complete_poi plan →
  ∃ plan' evs,
    _enrich_plan py W request plan h = (Ok plan', h ++ evs)
    ∧ plan_pois plan' = plan_pois plan
    ∧ Forall is_route_event evs
    ∧ Forall (λ ev, ¬ is_lookup_event ev) evs.
Proof.
  intros (d & -> & Hd).
  destruct (dict_get d (u "daily_plans")) as [[| | | | |days|]|] eqn:Hdp;
    try done.
  - destruct (map_M_enrich_days_complete days h Hd)
      as (days' & h' & Hrun & (evs & -> & Hevs) & Hps).
    exists (JDict (dict_set
              (dict_set (dict_set d (u "id") (JStr (uuid4_prefix W h)))
                        (u "created_at") (JStr (now_isoformat W h)))
              (u "daily_plans") (JList days'))), evs.
    split; [by rewrite (enrich_plan_run_list d days h Hdp), Hrun|].
    split; [|split; [done|by apply no_lookup_of_route]].
    cbn [plan_pois]. by rewrite dict_get_set_eq, Hdp.
  - exists (JDict (dict_set (dict_set d (u "id") (JStr (uuid4_prefix W h)))
                            (u "created_at") (JStr (now_isoformat W h)))), [].
    split; [by rewrite (enrich_plan_run_none d h Hdp), app_nil_r|].
    split; [|split; constructor].
    cbn [plan_pois].
    rewrite !dict_get_set_ne by (vm_compute; congruence). by rewrite Hdp.
Qed.
End enrich_facts.

(** ** PromptBuilder *)








Section prompt_facts.
Variable py : python.
Implicit Types (request : PlanRequest) (context : Context) (prompt : pystr).








End prompt_facts.

Section prompt_claims.
Variable py : python.
Implicit Types (request : PlanRequest) (context : Context) (prompt : pystr).

Lemma all_str_ok (l : list json) :
  forallb (λ x, match x with JStr _ => true | _ => false end) l = true →
  ∃ strs, all_str l = Ok strs.
Proof.
  induction l as [|x l IH]; [by eexists|].
  cbn [forallb]. intros [Hx Hl]%andb_true_iff.
  destruct x; try done. destruct (IH Hl) as [strs Hs].
  cbn [all_str as_str]. unfold mbind, result_bind. rewrite Hs. by eexists.
Qed.



(** The keys the builder reads, [lives] and a nested [casts], are not
    the keys [get_weather] writes, [live] and [forecasts]: on such a dict
    both weather texts are empty. *)
Lemma weather_texts_plain (w : pydict) (n : Z) :
  first_cast_plain w →
  weather_info_of py w = Ok [] ∧ weather_tips_of py w n = Ok [].
Proof.
  intros [Hlives Hcasts]. unfold weather_info_of, weather_tips_of.
  rewrite Hlives. split; [done|].
  destruct (dict_get w (u "forecasts")) as [[| | | | |[|f0 fs]|]|]; try done.
  destruct f0 as [| | | | | |d0]; try done. by rewrite Hcasts.
Qed.

Lemma weather_section_plain context (n : Z) :
  weather_plain context → weather_section_of py context n = Ok [].
Proof.
  intros Hplain. unfold weather_section_of.
  destruct (ctx_weather context) as [[|kv w]|] eqn:Hw; try done.
  destruct (weather_texts_plain (kv :: w) n (Hplain _ Hw)) as [Hi Ht].
  unfold mbind, result_bind. by rewrite Hi, Ht.
Qed.


End prompt_claims.


(** ** Stored plans *)

Section database_facts.
Variable py : python.
Implicit Types (db : Database) (r row : PlanRow).





End database_facts.


(** ** ContextGatherer and the pipeline *)

Section wp_more.
Context {A B : Type}.

Lemma wp_try_any (m : M A) (handler : exn → M A) (Q : A → log → Prop) h :
  (∀ a h', m h = (Ok a, h') → Q a h') →
  (∀ e h', m h = (Raise e, h') → wp (handler e) Q h') →
  wp (try_catch m handler) Q h.
Proof.
  intros Hok Hraise. apply wp_try.
  destruct (m h) as [[a|e] h'] eqn:Hm; eauto.
Qed.

Lemma wp_true_try (m : M A) (a0 : exn → A) h :
  wp (try_catch m (λ e, mret (a0 e))) (λ _ _, True) h.
Proof. apply wp_try_any; [done|]. intros e h' _. by apply wp_ret. Qed.


Lemma wp_returns (m : M A) (Q : A → log → Prop) h : wp m Q h → returns m h.
Proof. intros (a & h' & Hm & _). by exists a, h'. Qed.
End wp_more.

Lemma wp_for_each {X S} (xs : list X) (acc : S) (body : X → S → M S)
    (I : S → Prop) h :
  I acc → (∀ x acc h, I acc → wp (body x acc) (λ acc' _, I acc') h) →
  wp (for_each xs acc body) (λ acc' _, I acc') h.
Proof.
  intros Hacc Hbody. revert acc h Hacc.
  induction xs as [|x xs IH]; intros acc h Hacc.
  - by apply wp_ret.
  - cbn [for_each]. apply wp_bind.
    eapply wp_mono; [|by apply Hbody]. intros acc' h' Hacc'. by apply IH.
Qed.

Section gather_facts.
Variable py : python.
Variable W : world.
Variable request : PlanRequest.
Implicit Types (h : log) (intent : json).

Lemma search_each_returns (items : list json) (query_of : json → json)
    (keep : nat) (Q : list POI → log → Prop) h :
  (∀ found h', Q found h') →
  wp (search_each W request items query_of keep) Q h.
Proof.
  intros HQ. unfold search_each.
  eapply wp_mono; [intros found h' _; apply HQ|].
  apply (wp_for_each _ _ _ (λ _, True)); [done|].
  intros x acc h0 _. apply wp_try_any; [done|].
  intros e h' _. by apply wp_ret.
Qed.









End gather_facts.


Section pipeline_facts.
Variable py : python.
Variable W : world.
Variable request : PlanRequest.
Implicit Types (h : log) (p : json).






End pipeline_facts.


Lemma complete_plan_shape : plan_of complete_poi complete_plan.
Proof.
  eexists. split; [reflexivity|].
  assert (dict_get
            [ (u "type", JStr (u "trip_plan"));
              (u "daily_plans",
               JList [ JDict [ (u "day", JInt 1);
                               (u "pois",
                                JList [ JDict [ (u "name", JStr (u "西湖"));
                                                (u "location", JStr (u "120.1,30.2"));
                                                (u "image_url", JStr jpg_url) ] ]) ] ]) ]
            (u "daily_plans")
          = Some (JList [ JDict [ (u "day", JInt 1);
                                  (u "pois",
                                   JList [ JDict [ (u "name", JStr (u "西湖"));
                                                   (u "location", JStr (u "120.1,30.2"));
                                                   (u "image_url", JStr jpg_url) ] ]) ] ]))
    as -> by (vm_compute; reflexivity).
  constructor; [|constructor].
  eexists. split; [reflexivity|].
  assert (dict_get
            [ (u "day", JInt 1);
              (u "pois",
               JList [ JDict [ (u "name", JStr (u "西湖"));
                               (u "location", JStr (u "120.1,30.2"));
                               (u "image_url", JStr jpg_url) ] ]) ]
            (u "pois")
          = Some (JList [ JDict [ (u "name", JStr (u "西湖"));
                                  (u "location", JStr (u "120.1,30.2"));
                                  (u "image_url", JStr jpg_url) ] ]))
    as -> by (vm_compute; reflexivity).
  constructor; [|constructor].
  eexists. split; [reflexivity|]. split; vm_compute; reflexivity.
Qed.

(** C7 at a concrete plan: nothing is looked up and the POI list is
    unchanged. *)
Lemma enrich_plan_keeps_complete_pois_witness :
  ∃ plan' evs,
    _enrich_plan core_python offline_world hangzhou complete_plan []
    = (Ok plan', [] ++ evs)
    ∧ plan_pois plan' = plan_pois complete_plan
    ∧ Forall is_route_event evs
    ∧ Forall (λ ev, ¬ is_lookup_event ev) evs.
Proof.
  exact (enrich_plan_keeps_complete_pois core_python offline_world hangzhou
           complete_plan [] complete_plan_shape).
Defined.

(** * Further properties of the code *)

(** ** database.py: deletion *)

Lemma find_plan_unique (db : Database) plan_id (r x : PlanRow) :
  NoDup (p_id <$> db_plans db) →
  find_plan db plan_id = Some r →
  x ∈ db_plans db → p_id x = plan_id → x = r.
Proof.
  unfold find_plan. induction (db_plans db) as [|y l IH]; [done|].
  rewrite fmap_cons, NoDup_cons, filter_cons. intros [Hy Hl].
  case_decide as Hid.
  - intros [= ->] [->|Hin]%elem_of_cons Hx; [done|].
    destruct Hy. rewrite Hid, <- Hx. by apply list_elem_of_fmap_2.
  - intros Hfind [->|Hin]%elem_of_cons Hx; [done|]. by apply IH.
Qed.

Lemma find_plan_elem (db : Database) plan_id (r : PlanRow) :
  find_plan db plan_id = Some r → r ∈ db_plans db ∧ p_id r = plan_id.
Proof.
  unfold find_plan. intros Hh.
  assert (r ∈ filter (λ r, p_id r = plan_id) (db_plans db)) as Hin.
  { destruct (filter _ _); [done|]. injection Hh as ->. apply elem_of_cons. by left. }
  by apply list_elem_of_filter in Hin as [? ?].
Qed.

Lemma find_plan_none (db : Database) plan_id :
  find_plan db plan_id = None ↔ ∀ r, r ∈ db_plans db → p_id r ≠ plan_id.
Proof.
  unfold find_plan. split.
  - intros Hh r Hin Hid.
    assert (r ∈ filter (λ r, p_id r = plan_id) (db_plans db)) as Hf
      by by apply list_elem_of_filter.
    destruct (filter _ _); [by apply elem_of_nil in Hf|done].
  - intros Hall.
    destruct (filter _ _) as [|r l] eqn:Hf; [done|].
    assert (r ∈ filter (λ r, p_id r = plan_id) (db_plans db)) as Hin
      by (rewrite Hf; apply elem_of_cons; by left).
    apply list_elem_of_filter in Hin as [Hid Hin]. by destruct (Hall r Hin).
Qed.

Lemma find_plan_none_1 (db : Database) plan_id (r : PlanRow) :
  find_plan db plan_id = None → r ∈ db_plans db → p_id r ≠ plan_id.
Proof. intros Hnone. by apply find_plan_none. Qed.

Lemma filter_ext_in {A} (P Q : A → Prop) `{∀ x, Decision (P x)}
    `{∀ x, Decision (Q x)} (l : list A) :
  (∀ x, x ∈ l → P x ↔ Q x) → filter P l = filter Q l.
Proof.
  induction l as [|x l IH]; [done|]. intros Hequiv.
  rewrite !filter_cons.
  assert (filter P l = filter Q l) as ->.
  { apply IH. intros y Hy. apply Hequiv, elem_of_cons. by right. }
  assert (P x ↔ Q x) as Hx by (apply Hequiv, elem_of_cons; by left).
  repeat case_decide; tauto || done.
Qed.

(** X1: [delete_plan] deletes a plan for its owner only.  With plan ids
    unique (the primary key), it answers [True] exactly when the plan
    exists and belongs to the caller; then the plan is gone together with
    every favourite and like that points to it, and all other rows are as
    before.  When it answers [False] the database is unchanged. *)
Theorem delete_plan_owner_only (db : Database) plan_id user_id :
  NoDup (p_id <$> db_plans db) →
  let out := delete_plan db plan_id user_id in
  (out.2 = true ↔ ∃ r, find_plan db plan_id = Some r ∧ p_user_id r = user_id)
  ∧ (out.2 = false → out.1 = db)
  ∧ (out.2 = true →
       find_plan out.1 plan_id = None
       ∧ db_plans out.1 = filter (λ r, p_id r ≠ plan_id) (db_plans db)
       ∧ db_favorites out.1 = filter (λ f, l_plan_id f ≠ plan_id) (db_favorites db)
       ∧ db_likes out.1 = filter (λ f, l_plan_id f ≠ plan_id) (db_likes db)
       ∧ db_users out.1 = db_users db
       ∧ db_generations out.1 = db_generations db).
Proof.
  intros Hnodup out. unfold out, delete_plan, get_plan_by_id.
  destruct (find_plan db plan_id) as [existing|] eqn:Hfind.
  2:{ cbn. split; [split; [done|by intros (r & ? & _)]|]. by split. }
  case_bool_decide as Howner.
  { cbn. split; [split; [done|]|by split].
    intros (r & [= <-] & Hr). by destruct Howner. }
  assert (p_user_id existing = user_id) as Hu by (by destruct (decide (p_user_id existing = user_id))).
  assert (filter (λ r, ¬ (p_id r = plan_id ∧ p_user_id r = user_id)) (db_plans db)
          = filter (λ r, p_id r ≠ plan_id) (db_plans db)) as Hplans.
  { apply filter_ext_in. intros x Hx. split.
    - intros Hnot Hid. apply Hnot. split; [done|].
      by rewrite (find_plan_unique db plan_id existing x Hnodup Hfind Hx Hid).
    - intros Hid [? _]. done. }
  assert (find_plan
            (with_plans
               (with_likes
                  (with_favorites db
                     (filter (λ f, l_plan_id f ≠ plan_id) (db_favorites db)))
                  (filter (λ f, l_plan_id f ≠ plan_id)
                     (db_likes
                        (with_favorites db
                           (filter (λ f, l_plan_id f ≠ plan_id) (db_favorites db))))))
               (filter (λ r, ¬ (p_id r = plan_id ∧ p_user_id r = user_id))
                  (db_plans
                     (with_likes
                        (with_favorites db
                           (filter (λ f, l_plan_id f ≠ plan_id) (db_favorites db)))
                        (filter (λ f, l_plan_id f ≠ plan_id)
                           (db_likes
                              (with_favorites db
                                 (filter (λ f, l_plan_id f ≠ plan_id)
                                    (db_favorites db)))))))))
            plan_id = None) as Hgone.
  { apply find_plan_none. cbn. rewrite Hplans. intros r Hr.
    by apply list_elem_of_filter in Hr as [? _]. }
  cbn [fst snd]. rewrite Hgone. rewrite bool_decide_eq_true_2 by done.
  split; [split; [by eauto|done]|]. split; [done|]. intros _.
  split; [done|]. cbn. by rewrite Hplans.
Qed.

(** X1 on the small database: its owner deletes the only plan; another
    user does not. *)
Lemma delete_plan_owner_only_witness :
  (delete_plan small_db (u "p1") (u "u1")).2 = true
  ∧ (delete_plan small_db (u "p1") (u "u2")).2 = false.
Proof.
  assert (NoDup (p_id <$> db_plans small_db)) as Hnodup.
  { cbn. apply NoDup_singleton. }
  split.
  - apply (proj1 (delete_plan_owner_only small_db (u "p1") (u "u1") Hnodup)).
    exists private_plan. split; vm_compute; reflexivity.
  - vm_compute. reflexivity.
Defined.

(** ** database.py: shared plans *)

Lemma update_where_map hit f (g : PlanRow → PlanRow) rows :
  (∀ r, r ∈ rows → hit r = true → f r = Ok (g r)) →
  update_where hit f rows = Ok ((λ r, if hit r then g r else r) <$> rows).
Proof.
  induction rows as [|r rows IH]; [done|]. intros Hf. cbn [update_where].
  rewrite IH by (intros x Hx; apply Hf, elem_of_cons; by right).
  destruct (hit r) eqn:Hr.
  - rewrite (Hf r) by (done || apply elem_of_cons; by left).
    cbn. by rewrite Hr.
  - cbn. by rewrite Hr.
Qed.

Lemma share_code_unique (rows : list PlanRow) r x code :
  NoDup (omap p_share_code rows) →
  r ∈ rows → x ∈ rows →
  p_share_code r = Some code → p_share_code x = Some code → x = r.
Proof.
  induction rows as [|y l IH]; [by intros _ ?%elem_of_nil|].
  cbn. intros Hnodup [->|Hr]%elem_of_cons [->|Hx]%elem_of_cons Hcr Hcx.
  - done.
  - rewrite Hcr in Hnodup. apply NoDup_cons in Hnodup as [Hnot _].
    destruct Hnot. apply list_elem_of_omap. by exists x.
  - rewrite Hcx in Hnodup. apply NoDup_cons in Hnodup as [Hnot _].
    destruct Hnot. apply list_elem_of_omap. by exists r.
  - apply IH; try done.
    destruct (p_share_code y); [by apply NoDup_cons in Hnodup as [_ ?]|done].
Qed.

(** X2: a plan is reached by its share code only while it is public.
    With share codes unique (the column's constraint): a code whose plan is
    private, or that no plan carries, gives nothing and changes nothing;
    the code of a public plan gives that plan as it was before the visit,
    and the visit adds one to the stored view count of that row and
    touches no other row. *)
Theorem get_plan_by_share_code_public_only (db : Database) (code : pystr) :
  NoDup (omap p_share_code (db_plans db)) →
  ((∀ r, r ∈ db_plans db → p_share_code r = Some code → p_is_public r = false) →
     get_plan_by_share_code db code = Ok (db, None))
  ∧ (∀ r, r ∈ db_plans db → p_share_code r = Some code → p_is_public r = true →
       (p_view_count r < 2147483647)%Z → (-2147483648 <= p_view_count r)%Z →
       get_plan_by_share_code db code
       = Ok (with_plans db
               ((λ x, if bool_decide (x = r)
                      then set_view_count r (p_view_count r + 1) else x)
                  <$> db_plans db),
             Some r)).
Proof.
  intros Hnodup. unfold get_plan_by_share_code. split.
  - intros Hprivate.
    destruct (filter _ (db_plans db)) as [|r l] eqn:Hf; [done|].
    assert (r ∈ filter (λ r, p_share_code r = Some code ∧ p_is_public r = true)
                  (db_plans db)) as Hin by (rewrite Hf; apply elem_of_cons; by left).
    apply list_elem_of_filter in Hin as [[Hc Hp] Hin].
    by rewrite (Hprivate r Hin Hc) in Hp.
  - intros r Hin Hc Hp Hhi Hlo.
    assert (head (filter (λ r, p_share_code r = Some code ∧ p_is_public r = true)
                    (db_plans db)) = Some r) as ->.
    { destruct (filter _ (db_plans db)) as [|y l] eqn:Hf.
      - assert (r ∈ filter (λ r, p_share_code r = Some code ∧ p_is_public r = true)
                      (db_plans db)) as Hr by (by apply list_elem_of_filter).
        rewrite Hf in Hr. by apply elem_of_nil in Hr.
      - assert (y ∈ filter (λ r, p_share_code r = Some code ∧ p_is_public r = true)
                      (db_plans db)) as Hy by (rewrite Hf; apply elem_of_cons; by left).
        apply list_elem_of_filter in Hy as [[Hcy _] Hy]. cbn. f_equal.
        by eapply share_code_unique. }
    rewrite (update_where_map _ _ (λ x, set_view_count x (p_view_count x + 1))).
    2:{ intros x Hx Hhit. apply bool_decide_eq_true in Hhit.
        rewrite (share_code_unique _ r x code Hnodup Hin Hx Hc Hhit).
        unfold int32.
        assert ((-2147483648 <=? p_view_count r + 1)%Z
                && (p_view_count r + 1 <=? 2147483647)%Z = true) as ->; [|done].
        apply andb_true_iff. split; apply Z.leb_le; lia. }
    cbn. do 3 f_equal. apply list_fmap_ext. intros i x Hx.
    apply list_elem_of_lookup_2 in Hx.
    case_bool_decide as Hcode; case_bool_decide as Heq; try done.
    + by subst x.
    + destruct Heq. by eapply share_code_unique.
    + subst x. by destruct Hcode.
Qed.

(** X2 on a database whose only plan was shared and then made private. *)
Lemma get_plan_by_share_code_public_only_witness :
  get_plan_by_share_code unshared_db (u "c0de") = Ok (unshared_db, None).
Proof.
  assert (NoDup (omap p_share_code (db_plans unshared_db))) as Hnodup.
  { cbn. apply NoDup_singleton. }
  apply (proj1 (get_plan_by_share_code_public_only unshared_db (u "c0de") Hnodup)).
  intros r [->|[]%elem_of_nil]%elem_of_cons _. reflexivity.
Defined.

(** ** database.py: likes *)

Lemma links_true user_id plan_id (f : LinkRow) :
  links user_id plan_id f = true ↔ l_user_id f = user_id ∧ l_plan_id f = plan_id.
Proof. unfold links. by rewrite bool_decide_eq_true. Qed.

Lemma existsb_links_false user_id plan_id (rows : list LinkRow) :
  existsb (links user_id plan_id) rows = false →
  filter (λ f, links user_id plan_id f = false) rows = rows.
Proof.
  induction rows as [|f rows IH]; [done|]. cbn [existsb].
  intros [Hf Hrest]%orb_false_iff. rewrite filter_cons_True by done.
  by rewrite IH.
Qed.

Lemma existsb_links_elem user_id plan_id (rows : list LinkRow) :
  existsb (links user_id plan_id) rows = true
  ↔ (user_id, plan_id) ∈ (λ f, (l_user_id f, l_plan_id f)) <$> rows.
Proof.
  induction rows as [|f rows IH]; cbn [existsb].
  - split; [done|by intros ?%elem_of_nil].
  - rewrite fmap_cons, elem_of_cons, orb_true_iff, IH, links_true.
    split; (intros [H|H]; [left|by right]).
    + by destruct H as [-> ->].
    + by injection H as -> ->.
Qed.

Lemma set_like_count_same (r : PlanRow) : set_like_count r (p_like_count r) = r.
Proof. by destruct r. Qed.

Lemma set_like_count_twice (r : PlanRow) v w :
  set_like_count (set_like_count r v) w = set_like_count r w.
Proof. done. Qed.

Lemma int32_ok z :
  (-2147483648 <= z <= 2147483647)%Z → int32 z = Ok z.
Proof.
  intros [Hlo Hhi]. unfold int32.
  assert ((-2147483648 <=? z)%Z && (z <=? 2147483647)%Z = true) as ->; [|done].
  apply andb_true_iff. split; by apply Z.leb_le.
Qed.

Lemma int32_inv z v : int32 z = Ok v → v = z ∧ (-2147483648 <= z <= 2147483647)%Z.
Proof.
  unfold int32.
  destruct ((-2147483648 <=? z)%Z && (z <=? 2147483647)%Z) eqn:Hr; [|done].
  apply andb_true_iff in Hr as [?%Z.leb_le ?%Z.leb_le]. intros [= <-]. lia.
Qed.

Lemma insert_link_inv (db : Database) rows row rows' :
  insert_link db rows row = Ok rows' →
  rows' = rows ++ [row]
  ∧ l_plan_id row ∈ p_id <$> db_plans db
  ∧ existsb (links (l_user_id row) (l_plan_id row)) rows = false.
Proof.
  unfold insert_link. case_bool_decide; [done|].
  destruct (user_exists db (l_user_id row)); [|done]. cbn [negb].
  case_bool_decide; [|done]. cbn [negb].
  destruct (existsb _ rows); [done|]. by intros [= <-].
Qed.

Lemma insert_link_linked (db : Database) rows row :
  existsb (links (l_user_id row) (l_plan_id row)) rows = true →
  insert_link db rows row = Raise ConstraintError.
Proof.
  unfold insert_link. intros ->. case_bool_decide; [done|].
  destruct (user_exists db (l_user_id row)); [|done]. cbn [negb].
  by case_bool_decide.
Qed.

Lemma likes_of_with_plans db plans plan_id :
  likes_of (with_plans db plans) plan_id = likes_of db plan_id.
Proof. done. Qed.

Lemma fmap_id_update (rows : list PlanRow) (g : PlanRow → PlanRow) hit :
  (∀ r, p_id (g r) = p_id r) →
  p_id <$> ((λ r, if hit r : bool then g r else r) <$> rows) = p_id <$> rows.
Proof.
  intros Hg. rewrite <- list_fmap_compose. apply list_fmap_ext.
  intros i r _. cbn. by destruct (hit r).
Qed.

Lemma filter_snoc_links rows (row : LinkRow) (pid : pystr) :
  length (filter (λ f, l_plan_id f = pid) (rows ++ [row]))
  = (length (filter (λ f, l_plan_id f = pid) rows)
     + if bool_decide (l_plan_id row = pid) then 1 else 0)%nat.
Proof.
  rewrite filter_app, length_app. f_equal.
  rewrite filter_cons, filter_nil. case_bool_decide; by case_decide.
Qed.

Lemma add_like_facts (db : Database) uuid now user_id plan_id :
  likes_consistent db →
  (get_plan_like_count db plan_id < 2147483647)%Z →
  let out := add_like db uuid now user_id plan_id in
  likes_consistent out.1
  ∧ (out.2 = true →
       is_liked out.1 user_id plan_id = true
       ∧ get_plan_like_count out.1 plan_id = (get_plan_like_count db plan_id + 1)%Z
       ∧ ∀ uuid' now', add_like out.1 uuid' now' user_id plan_id = (out.1, false))
  ∧ (out.2 = false → out.1 = db).
Proof.
  intros (Hids & Hpairs & Hfk & Hcount) Hmax out. unfold out, add_like.
  destruct (insert_link db (db_likes db) (mkLink uuid user_id plan_id now))
    as [likes|e] eqn:Hins.
  2:{ cbn. split; [done|]. by split. }
  apply insert_link_inv in Hins as (-> & Hplan & Hfresh). cbn in Hplan, Hfresh.
  cbn [db_plans with_likes].
  rewrite (update_where_map _ _ (λ r, set_like_count r (p_like_count r + 1))).
  2:{ intros r Hr Hhit. apply bool_decide_eq_true in Hhit.
      rewrite int32_ok; [done|].
      pose proof (Hcount r Hr) as Hc. unfold get_plan_like_count in Hmax.
      destruct (find_plan db plan_id) as [r0|] eqn:Hfind.
      - assert (r = r0) as -> by by eapply find_plan_unique. lia.
      - by destruct (find_plan_none_1 db plan_id r Hfind Hr). }
  cbn [fst snd].
  set (db' := with_plans _ _).
  assert (db_likes db' = db_likes db ++ [mkLink uuid user_id plan_id now])
    as Hlikes by done.
  assert (p_id <$> db_plans db' = p_id <$> db_plans db) as Hids'.
  { unfold db'. cbn. by apply fmap_id_update. }
  assert (is_liked db' user_id plan_id = true) as Hliked.
  { unfold is_liked. rewrite Hlikes, existsb_app. cbn.
    apply orb_true_iff. right. rewrite orb_false_r. by apply links_true. }
  split; [|split; [|done]].
  - split; [by rewrite Hids'|]. split; [|split].
    + rewrite Hlikes, fmap_app. apply NoDup_app. split; [done|]. split.
      * intros pair Hpair [->|[]%elem_of_nil]%elem_of_cons.
        apply existsb_links_elem in Hpair. cbn in Hpair. congruence.
      * apply NoDup_singleton.
    + rewrite Hids', Hlikes. intros f [Hf|[->|[]%elem_of_nil]%elem_of_cons]%elem_of_app;
        [by apply Hfk|done].
    + intros r' Hr'. unfold db' in Hr'. cbn in Hr'.
      apply list_elem_of_fmap in Hr' as (r & -> & Hr).
      unfold likes_of. rewrite Hlikes.
      rewrite filter_snoc_links. cbn [l_plan_id].
      pose proof (Hcount r Hr) as Hc. unfold likes_of in Hc.
      case_bool_decide as Hhit.
      * cbn. rewrite bool_decide_eq_true_2 by done. lia.
      * cbn. rewrite bool_decide_eq_false_2 by done. lia.
  - intros _. split; [done|]. split.
    + unfold get_plan_like_count.
      apply list_elem_of_fmap in Hplan as (r & Hid & Hr).
      assert (find_plan db plan_id = Some r) as Hfind.
      { destruct (find_plan db plan_id) as [r0|] eqn:Hfind.
        - f_equal. symmetry. by eapply find_plan_unique.
        - by destruct (find_plan_none_1 db plan_id r Hfind Hr). }
      rewrite Hfind.
      assert (find_plan db' plan_id = Some (set_like_count r (p_like_count r + 1)))
        as ->; [|done].
      destruct (find_plan db' plan_id) as [r1|] eqn:Hfind'.
      * f_equal. symmetry.
        eapply (find_plan_unique db'); [by rewrite Hids'|done| |done].
        unfold db'. cbn. apply list_elem_of_fmap. exists r.
        by rewrite bool_decide_eq_true_2.
      * destruct (find_plan_none_1 db' plan_id
                    (set_like_count r (p_like_count r + 1)) Hfind'); [|done].
        unfold db'. cbn. apply list_elem_of_fmap. exists r.
        by rewrite bool_decide_eq_true_2.
    + intros uuid' now'. unfold add_like.
      rewrite insert_link_linked; [done|]. exact Hliked.
Qed.

(** X3: likes and like counters stay in step.  In a database whose like
    counters equal the number of likes of each plan, [add_like] keeps them
    so (the counter being below the column's maximum); when it answers
    [True] the pair is liked and the plan's counter is one higher; when it
    answers [False] nothing changed; and a second like of the same plan
    by the same user is refused. *)
Theorem add_like_keeps_counts (db : Database) uuid now user_id plan_id :
  likes_consistent db →
  (get_plan_like_count db plan_id < 2147483647)%Z →
  let out := add_like db uuid now user_id plan_id in
  likes_consistent out.1
  ∧ (out.2 = true →
       is_liked out.1 user_id plan_id = true
       ∧ get_plan_like_count out.1 plan_id = (get_plan_like_count db plan_id + 1)%Z
       ∧ ∀ uuid' now', add_like out.1 uuid' now' user_id plan_id = (out.1, false))
  ∧ (out.2 = false → out.1 = db).
Proof.
  intros Hdb Hmax. by apply add_like_facts.
Qed.

(** X3 on a plan that has one like: a second user likes it. *)
Lemma add_like_keeps_counts_witness :
  likes_consistent (add_like
                      (mkDB [alice; mkUser (u "u2") (u "openid-2") None None None
                                      None None None None 0 0]
                            (db_plans liked_db) [] (db_likes liked_db) [])
                      (u "l2") 7 (u "u2") (u "p1")).1.
Proof.
  refine (proj1 (add_like_keeps_counts _ (u "l2") 7 (u "u2") (u "p1") _ _)).
  - split; [cbn; apply NoDup_singleton|]. split; [cbn; apply NoDup_singleton|].
    split.
    + intros f [->|[]%elem_of_nil]%elem_of_cons. cbn. apply elem_of_cons. by left.
    + intros r [->|[]%elem_of_nil]%elem_of_cons. vm_compute. reflexivity.
  - vm_compute. reflexivity.
Defined.

Lemma update_where_inv hit f (g : PlanRow → PlanRow) rows rows' :
  (∀ r r', f r = Ok r' → r' = g r) →
  update_where hit f rows = Ok rows' →
  rows' = (λ r, if hit r then g r else r) <$> rows.
Proof.
  intros Hf. revert rows'. induction rows as [|r rows IH]; intros rows'.
  { by intros [= <-]. }
  cbn [update_where]. destruct (hit r) eqn:Hr.
  - destruct (f r) as [r1|e] eqn:Hfr; [|done]. cbn.
    destruct (update_where hit f rows) as [rest|e]; [|done]. cbn.
    intros [= <-]. by rewrite Hr, (Hf r r1 Hfr), (IH rest eq_refl).
  - cbn. destruct (update_where hit f rows) as [rest|e]; [|done]. cbn.
    intros [= <-]. by rewrite Hr, (IH rest eq_refl).
Qed.

Lemma unlink_count (rows : list LinkRow) user_id plan_id pid :
  NoDup ((λ f, (l_user_id f, l_plan_id f)) <$> rows) →
  length (filter (λ f, l_plan_id f = pid) rows)
  = (length (filter (λ f, l_plan_id f = pid)
               (filter (λ f, links user_id plan_id f = false) rows))
     + if existsb (links user_id plan_id) rows && bool_decide (pid = plan_id)
       then 1 else 0)%nat.
Proof.
  induction rows as [|f rows IH]; [done|].
  rewrite fmap_cons, NoDup_cons. intros [Hf Hnodup]. specialize (IH Hnodup).
  cbn [existsb]. destruct (links user_id plan_id f) eqn:Hl.
  - apply links_true in Hl as [Hu Hp].
    assert (existsb (links user_id plan_id) rows = false) as Hnone.
    { destruct (existsb _ rows) eqn:He; [|done].
      apply existsb_links_elem in He. destruct Hf. by rewrite Hu, Hp. }
    rewrite Hnone in IH. cbn in IH.
    rewrite (filter_cons_False (λ f, links user_id plan_id f = false))
      by (rewrite (proj2 (links_true user_id plan_id f)); done).
    cbn [orb andb]. destruct (decide (pid = plan_id)) as [Hpid|Hpid].
    + rewrite (filter_cons_True (λ f, l_plan_id f = pid)) by congruence.
      rewrite bool_decide_eq_true_2 in * by done. cbn [length]. lia.
    + rewrite (filter_cons_False (λ f, l_plan_id f = pid)) by congruence.
      rewrite bool_decide_eq_false_2 in * by done. lia.
  - rewrite (filter_cons_True (λ f, links user_id plan_id f = false)) by done.
    cbn [orb]. destruct (decide (l_plan_id f = pid)) as [Hd|Hd].
    + rewrite !(filter_cons_True (λ f, l_plan_id f = pid)) by done.
      cbn [length]. lia.
    + rewrite !(filter_cons_False (λ f, l_plan_id f = pid)) by done. lia.
Qed.

Lemma remove_like_facts (db : Database) user_id plan_id :
  likes_consistent db →
  (get_plan_like_count db plan_id <= 2147483647)%Z →
  ∃ db',
    remove_like db user_id plan_id = (Ok (is_liked db user_id plan_id), db')
    ∧ likes_consistent db'
    ∧ is_liked db' user_id plan_id = false
    ∧ get_plan_like_count db' plan_id
      = (get_plan_like_count db plan_id
         - if is_liked db user_id plan_id then 1 else 0)%Z.
Proof.
  intros (Hids & Hpairs & Hfk & Hcount) Hmax. unfold remove_like, is_liked.
  set (likes' := filter (λ f, links user_id plan_id f = false) (db_likes db)).
  assert (existsb (links user_id plan_id) likes' = false) as Hunliked.
  { destruct (existsb _ likes') eqn:He; [|done].
    apply existsb_exists in He as (f & Hf & Hl).
    apply list_elem_of_In, list_elem_of_filter in Hf as [Hf _]. congruence. }
  assert (NoDup ((λ f, (l_user_id f, l_plan_id f)) <$> likes')) as Hpairs'.
  { unfold likes'.
    eapply sublist_NoDup; [exact Hpairs|apply fmap_sublist, sublist_filter]. }
  destruct (existsb (links user_id plan_id) (db_likes db)) eqn:Hliked.
  - cbn [db_plans with_likes].
    assert (plan_id ∈ l_plan_id <$> db_likes db) as Hsome.
    { apply existsb_exists in Hliked as (f & Hf & [_ <-]%links_true).
      by apply list_elem_of_fmap_2, list_elem_of_In. }
    rewrite (update_where_map _ _ (λ r, set_like_count r (p_like_count r - 1))).
    2:{ intros r Hr Hhit. apply bool_decide_eq_true in Hhit.
        pose proof (Hcount r Hr) as Hc. pose proof (unlink_count (db_likes db)
          user_id plan_id (p_id r) Hpairs) as Hn.
        rewrite Hliked, Hhit, bool_decide_eq_true_2 in Hn by done.
        unfold likes_of in Hc. unfold get_plan_like_count in Hmax.
        assert (find_plan db plan_id = Some r) as Hfind.
        { destruct (find_plan db plan_id) as [r0|] eqn:Hfind.
          - f_equal. symmetry. by eapply find_plan_unique.
          - by destruct (find_plan_none_1 db plan_id r Hfind Hr). }
        rewrite Hfind in Hmax. rewrite Hhit in Hc. cbn [andb] in Hn.
        rewrite int32_ok by lia. cbn. f_equal. f_equal. lia. }
    cbn. eexists. split; [reflexivity|].
    assert (p_id <$> ((λ r, if bool_decide (p_id r = plan_id)
                            then set_like_count r (p_like_count r - 1) else r)
                        <$> db_plans db) = p_id <$> db_plans db) as Hids'
      by by apply fmap_id_update.
    split; [|split; [exact Hunliked|]].
    + unfold likes_consistent. cbn [db_likes db_plans with_plans with_likes].
      rewrite Hids'. split; [done|]. split; [exact Hpairs'|]. split.
      { intros f [_ Hf]%list_elem_of_filter. by apply Hfk. }
      intros r' Hr'. cbn in Hr'. apply list_elem_of_fmap in Hr' as (r & -> & Hr).
      pose proof (Hcount r Hr) as Hc. pose proof (unlink_count (db_likes db)
        user_id plan_id (p_id r) Hpairs) as Hn.
      rewrite Hliked in Hn. unfold likes_of in *. cbn [db_likes with_plans with_likes].
      fold likes'. fold likes' in Hn. cbn [andb] in Hn.
      case_bool_decide as Hhit.
      * cbn. lia.
      * cbn. lia.
    + unfold get_plan_like_count.
      destruct (find_plan db plan_id) as [r|] eqn:Hfind.
      * destruct (find_plan_elem db plan_id r Hfind) as [Hr Hid].
        set (db' := with_plans _ _).
        assert (find_plan db' plan_id
                = Some (set_like_count r (p_like_count r - 1))) as ->; [|done].
        assert (set_like_count r (p_like_count r - 1) ∈ db_plans db') as Hin.
        { unfold db'. cbn. apply list_elem_of_fmap. exists r.
          by rewrite bool_decide_eq_true_2. }
        destruct (find_plan db' plan_id) as [r1|] eqn:Hfind'.
        -- f_equal. symmetry.
           eapply (find_plan_unique db'); [by unfold db'; cbn; rewrite Hids'|done|done|done].
        -- by destruct (find_plan_none_1 db' plan_id _ Hfind' Hin).
      * exfalso. apply existsb_exists in Hliked as (f & Hf & [_ Hp]%links_true).
        apply list_elem_of_In in Hf.
        pose proof (Hfk f Hf) as Hplan. rewrite Hp in Hplan.
        apply list_elem_of_fmap in Hplan as (r & Hid & Hr).
        by destruct (find_plan_none_1 db plan_id r Hfind Hr).
  - eexists. split; [reflexivity|]. cbn.
    assert (likes' = db_likes db) as Heq by by apply existsb_links_false.
    split; [|split; [exact Hunliked|]].
    + split; [done|]. split; [exact Hpairs'|]. split.
      { cbn. fold likes'. by rewrite Heq. }
      intros r Hr. unfold likes_of. cbn. fold likes'. rewrite Heq. by apply Hcount.
    + unfold get_plan_like_count, find_plan. cbn. lia.
Qed.

(** X4: [remove_like] keeps the like counters in step as well.  In a
    consistent database (counters within the column's range) it never
    raises; it answers whether the pair was liked; afterwards the pair is
    not liked, and the plan's counter is one lower exactly when it was. *)
Theorem remove_like_keeps_counts (db : Database) user_id plan_id :
  likes_consistent db →
  (get_plan_like_count db plan_id <= 2147483647)%Z →
  ∃ db',
    remove_like db user_id plan_id = (Ok (is_liked db user_id plan_id), db')
    ∧ likes_consistent db'
    ∧ is_liked db' user_id plan_id = false
    ∧ get_plan_like_count db' plan_id
      = (get_plan_like_count db plan_id
         - if is_liked db user_id plan_id then 1 else 0)%Z.
Proof.
  intros Hdb Hmax. by apply remove_like_facts.
Qed.

Lemma liked_db_consistent : likes_consistent liked_db.
Proof.
  split; [cbn; apply NoDup_singleton|]. split; [cbn; apply NoDup_singleton|].
  split.
  - intros f [->|[]%elem_of_nil]%elem_of_cons. cbn. apply elem_of_cons. by left.
  - intros r [->|[]%elem_of_nil]%elem_of_cons. vm_compute. reflexivity.
Qed.

(** X4 on a plan that has one like: its author takes the like back. *)
Lemma remove_like_keeps_counts_witness :
  ∃ db', remove_like liked_db (u "u1") (u "p1") = (Ok true, db')
         ∧ get_plan_like_count db' (u "p1") = 0%Z.
Proof.
  assert (get_plan_like_count liked_db (u "p1") <= 2147483647)%Z as Hmax
    by (vm_compute; discriminate).
  destruct (remove_like_keeps_counts liked_db (u "u1") (u "p1")
              liked_db_consistent Hmax) as (db' & Hrun & _ & _ & Hcount).
  exists db'. split; [exact Hrun|]. rewrite Hcount. vm_compute. reflexivity.
Defined.

Lemma add_then_remove_like (db db1 : Database) uuid now user_id plan_id :
  likes_consistent db →
  add_like db uuid now user_id plan_id = (db1, true) →
  remove_like db1 user_id plan_id = (Ok true, db).
Proof.
  intros (Hids & Hpairs & Hfk & Hcount). unfold add_like.
  destruct (insert_link db (db_likes db) (mkLink uuid user_id plan_id now))
    as [likes|e] eqn:Hins; [|done].
  apply insert_link_inv in Hins as (-> & Hplan & Hfresh). cbn in Hplan, Hfresh.
  cbn [db_plans with_likes].
  destruct (update_where _ _ (db_plans db)) as [plans|e] eqn:Hup; [|done].
  intros [= <-].
  assert (∀ r, r ∈ db_plans db → p_id r = plan_id →
               (-2147483648 <= p_like_count r + 1 <= 2147483647)%Z) as Hrange.
  { clear -Hup. revert plans Hup.
    induction (db_plans db) as [|x l IH]; intros plans Hup r;
      [by intros ?%elem_of_nil|].
    cbn [update_where] in Hup. case_bool_decide as Hhit.
    - destruct (int32 (p_like_count x + 1)) as [v|e] eqn:Hv; [|done]. cbn in Hup.
      destruct (update_where _ _ l) as [rest|e]; [|done].
      intros [->|Hr]%elem_of_cons Hid.
      + by apply int32_inv in Hv as [_ ?].
      + by eapply IH.
    - cbn in Hup. destruct (update_where _ _ l) as [rest|e]; [|done].
      intros [->|Hr]%elem_of_cons Hid; [done|by eapply IH]. }
  apply (update_where_inv _ _ (λ r, set_like_count r (p_like_count r + 1))) in Hup.
  2:{ intros r r'. destruct (int32 (p_like_count r + 1)) as [v|e] eqn:Hv; [|done].
      apply int32_inv in Hv as [-> _]. by intros [= <-]. }
  subst plans. unfold remove_like.
  cbn [db_likes db_plans with_plans with_likes].
  assert (existsb (links user_id plan_id)
            (db_likes db ++ [mkLink uuid user_id plan_id now]) = true) as ->.
  { rewrite existsb_app. apply orb_true_iff. right. cbn.
    rewrite orb_false_r. by apply links_true. }
  assert (filter (λ f, links user_id plan_id f = false)
            (db_likes db ++ [mkLink uuid user_id plan_id now]) = db_likes db) as ->.
  { rewrite filter_app, existsb_links_false by done.
    rewrite filter_cons_False, filter_nil, app_nil_r; [done|].
    cbn. rewrite (proj2 (links_true user_id plan_id _)); done. }
  rewrite (update_where_map _ _ (λ r, set_like_count r (p_like_count r - 1))).
  2:{ intros r' Hr' Hhit'. apply bool_decide_eq_true in Hhit'.
      apply list_elem_of_fmap in Hr' as (r & -> & Hr).
      pose proof (Hcount r Hr) as Hc.
      case_bool_decide as Hhit; [|done].
      pose proof (Hrange r Hr Hhit). cbn [p_like_count set_like_count].
      rewrite int32_ok by lia. cbn. do 2 f_equal. lia. }
  cbn. f_equal. destruct db as [users plans favs likes gens].
  unfold with_plans, with_likes. cbn. f_equal. rewrite <- list_fmap_compose.
  transitivity (id <$> plans); [|apply list_fmap_id]. apply list_fmap_ext.
  intros i r Hr. cbn. destruct (bool_decide (p_id r = plan_id)) eqn:Hhit.
  - cbn. rewrite Hhit. destruct r. cbn. f_equal. lia.
  - by rewrite Hhit.
Qed.

(** X5: a like that is taken back leaves no trace.  In a consistent
    database, when [add_like] succeeds, [remove_like] by the same user on
    the same plan succeeds and gives back the database as it was. *)
Theorem like_then_unlike_restores (db db1 : Database) uuid now user_id plan_id :
  likes_consistent db →
  add_like db uuid now user_id plan_id = (db1, true) →
  remove_like db1 user_id plan_id = (Ok true, db).
Proof.
  intros Hdb Hadd. by eapply add_then_remove_like.
Qed.

Lemma small_db_consistent : likes_consistent small_db.
Proof.
  split; [cbn; apply NoDup_singleton|]. split; [cbn; apply NoDup_nil_2|].
  split.
  - by intros f ?%elem_of_nil.
  - intros r [->|[]%elem_of_nil]%elem_of_cons. vm_compute. reflexivity.
Qed.

(** X5 on the small database: the author likes the plan and takes the like
    back. *)
Lemma like_then_unlike_restores_witness :
  remove_like (add_like small_db (u "l1") 5 (u "u1") (u "p1")).1
    (u "u1") (u "p1")
  = (Ok true, small_db).
Proof.
  apply (like_then_unlike_restores small_db _ (u "l1") 5 (u "u1") (u "p1")
           small_db_consistent).
  vm_compute. reflexivity.
Defined.

(** ** database.py: favourites *)

Lemma filter_id_at_most_one (rows : list PlanRow) (x : pystr) (Q : PlanRow → Prop)
    `{∀ p, Decision (Q p)} :
  NoDup (p_id <$> rows) →
  (length (filter (λ p, p_id p = x ∧ Q p) rows) ≤ 1)%nat.
Proof.
  induction rows as [|r rows IH]; [cbn; lia|].
  rewrite fmap_cons, NoDup_cons. intros [Hr Hnodup].
  destruct (decide (p_id r = x ∧ Q r)) as [[Hid Hq]|Hno].
  - rewrite filter_cons_True by done.
    assert (filter (λ p, p_id p = x ∧ Q p) rows = []) as ->; [|cbn; lia].
    destruct (filter _ rows) as [|y l] eqn:Hf; [done|].
    assert (y ∈ filter (λ p, p_id p = x ∧ Q p) rows) as Hy
      by (rewrite Hf; apply elem_of_cons; by left).
    apply list_elem_of_filter in Hy as [[Hy _] Hin].
    destruct Hr. rewrite Hid, <- Hy. by apply list_elem_of_fmap_2.
  - rewrite filter_cons_False by done. by apply IH.
Qed.

(** X6: the list of a user's favourites and their count differ.  The
    rows [get_user_favorites] selects are public plans the user has marked,
    each at most once (plan ids being unique), so they are never more than
    [get_user_favorites_count]; and they are fewer as soon as one marked
    plan is private, which the count still includes. *)
Theorem favorites_listed_at_most_counted (db : Database) (user_id : pystr) :
  NoDup (p_id <$> db_plans db) →
  Forall (λ p, p_is_public p = true ∧ is_favorited db user_id (p_id p) = true)
         (favorite_plans db user_id)
  ∧ (length (favorite_plans db user_id) ≤ get_user_favorites_count db user_id)%nat
  ∧ (∀ f, f ∈ db_favorites db → l_user_id f = user_id →
          (∀ p, p ∈ db_plans db → p_id p = l_plan_id f → p_is_public p = false) →
          (length (favorite_plans db user_id)
           < get_user_favorites_count db user_id)%nat).
Proof.
  intros Hnodup. unfold favorite_plans, get_user_favorites_count, is_favorited.
  split.
  { apply Forall_forall. intros p Hp.
    apply list_elem_of_bind in Hp as (f & Hp & Hf).
    apply list_elem_of_filter in Hp as [[Hid Hpub] _].
    apply list_elem_of_filter in Hf as [Hu Hf].
    split; [done|]. apply existsb_exists. exists f.
    split; [by apply list_elem_of_In|]. by apply links_true. }
  induction (db_favorites db) as [|f favs IH]; [split; [done|by intros f ?%elem_of_nil]|].
  destruct IH as [IHle IHlt].
  pose proof (filter_id_at_most_one (db_plans db) (l_plan_id f)
                (λ p, p_is_public p = true) Hnodup) as Hone.
  destruct (decide (l_user_id f = user_id)) as [Hu|Hu].
  - rewrite (filter_cons_True (λ f, l_user_id f = user_id)) by done.
    cbn [mbind list_bind length]. rewrite length_app. split; [cbn in *; lia|].
    intros g [->|Hg]%elem_of_cons Hgu Hprivate.
    + assert (filter (λ p, p_id p = l_plan_id f ∧ p_is_public p = true)
                (db_plans db) = []) as ->; [|cbn in *; lia].
      destruct (filter _ (db_plans db)) as [|y l] eqn:Hf; [done|].
      assert (y ∈ filter (λ p, p_id p = l_plan_id f ∧ p_is_public p = true)
                    (db_plans db)) as Hy by (rewrite Hf; apply elem_of_cons; by left).
      apply list_elem_of_filter in Hy as [[Hy Hpub] Hin].
      by rewrite (Hprivate y Hin Hy) in Hpub.
    + specialize (IHlt g Hg Hgu Hprivate). cbn in *. lia.
  - rewrite (filter_cons_False (λ f, l_user_id f = user_id)) by done.
    split; [done|]. intros g [->|Hg]%elem_of_cons Hgu Hprivate; [done|].
    by apply (IHlt g).
Qed.

(** X6 on a database whose only plan is private and marked by its author:
    the count is one, the list is empty. *)
Lemma favorites_listed_at_most_counted_witness :
  (length (favorite_plans
             (with_favorites small_db [mkLink (u "f1") (u "u1") (u "p1") 3])
             (u "u1"))
   < get_user_favorites_count
       (with_favorites small_db [mkLink (u "f1") (u "u1") (u "p1") 3])
       (u "u1"))%nat.
Proof.
  assert (NoDup (p_id <$> db_plans
                   (with_favorites small_db [mkLink (u "f1") (u "u1") (u "p1") 3])))
    as Hnodup by (cbn; apply NoDup_singleton).
  apply (proj2 (proj2 (favorites_listed_at_most_counted _ (u "u1") Hnodup))
           (mkLink (u "f1") (u "u1") (u "p1") 3)).
  - apply elem_of_cons. by left.
  - reflexivity.
  - intros p [->|[]%elem_of_nil]%elem_of_cons _. reflexivity.
Defined.

(** ** database.py and routers/plan.py: the daily quota *)

Lemma get_membership_limits_values (tier : option pystr) :
  (get_membership_limits tier).2 ∈ [3; 7; 15]%Z.
Proof.
  unfold get_membership_limits. destruct tier as [t|]; [|by left].
  cbn. repeat case_decide; cbn.
  - by left.
  - right. by left.
  - do 2 right. by left.
  - by left.
Qed.

Lemma check_generation_limit_shape (db : Database) (today : Z)
    (user_id : pystr) (user : UserRow) :
  get_user_by_id db user_id = Some user →
  ∃ can name limit remaining,
    check_generation_limit db today user_id
    = Checked can (u_membership_tier user) name limit
        (get_today_generation_count db today user_id) remaining
    ∧ (can = true →
       (Z.of_nat (get_today_generation_count db today user_id) < limit)%Z).
Proof.
  intros Huser. unfold check_generation_limit. rewrite Huser.
  do 4 eexists. split; [reflexivity|]. by intros ?%Z.ltb_lt.
Qed.

(** X7: what [check_generation_limit] reports is coherent.  For a stored
    user the daily limit is 3, 7 or 15; generation is allowed exactly when
    something remains; what remains lies between 0 and the limit, and
    while generation is allowed it is the limit less today's count.  An
    unknown user gets the answer without counts. *)
Theorem check_generation_limit_coherent (db : Database) (today : Z)
    (user_id : pystr) :
  match check_generation_limit db today user_id with
  | UnknownUser => get_user_by_id db user_id = None
  | Checked can_generate tier tier_name daily_limit today_count remaining =>
    (∃ user, get_user_by_id db user_id = Some user
             ∧ tier = u_membership_tier user)
    ∧ today_count = get_today_generation_count db today user_id
    ∧ daily_limit ∈ [3; 7; 15]%Z
    ∧ (can_generate = true ↔ 0 < remaining)%Z
    ∧ (0 <= remaining <= daily_limit)%Z
    ∧ (can_generate = true → remaining + Z.of_nat today_count = daily_limit)%Z
    ∧ (can_generate = false → daily_limit <= Z.of_nat today_count)%Z
  end.
Proof.
  unfold check_generation_limit.
  destruct (get_user_by_id db user_id) as [user|]; [|done].
  pose proof (get_membership_limits_values (u_membership_tier user)) as Hlimit.
  set (limit := (get_membership_limits (u_membership_tier user)).2) in *.
  set (n := get_today_generation_count db today user_id).
  assert (0 < limit)%Z as Hpos.
  { repeat (apply elem_of_cons in Hlimit as [->|Hlimit]; [lia|]).
    by apply elem_of_nil in Hlimit. }
  split; [by eexists|]. split; [done|]. split; [done|].
  destruct (Z.of_nat n <? limit)%Z eqn:Hlt.
  - apply Z.ltb_lt in Hlt. repeat split; try done; lia.
  - apply Z.ltb_ge in Hlt. repeat split; try done; lia.
Qed.

(** ** routers/user.py: the bearer token *)

Lemma get_current_user_id_inv (db : Database) (authorization : option pystr)
    (user_id : pystr) :
  get_current_user_id db authorization = Respond user_id →
  authorization = Some (u "Bearer " ++ user_id)
  ∧ ∃ user, get_user_by_id db user_id = Some user.
Proof.
  unfold get_current_user_id.
  destruct authorization as [[|c a]|]; try done.
  destruct (startswith (c :: a) (u "Bearer ")) eqn:Hstart; [|done].
  apply startswith_prefix in Hstart as [t Ht]. rewrite Ht.
  assert (drop 7 (u "Bearer " ++ t) = t) as -> by done.
  destruct (get_user_by_id db t) as [user|] eqn:Huser; [|done].
  intros [= <-]. by eauto.
Qed.

(** X8: a token is accepted exactly when it is [Bearer ] followed by the
    id of a stored user, and that id is the caller; everything else is
    answered with status 401. *)
Theorem get_current_user_id_accepts (db : Database)
    (authorization : option pystr) (user_id : pystr) :
  (get_current_user_id db authorization = Respond user_id
   ↔ authorization = Some (u "Bearer " ++ user_id)
     ∧ ∃ user, get_user_by_id db user_id = Some user)
  ∧ (∀ status, get_current_user_id db authorization = HTTPException status →
               status = 401%Z).
Proof.
  split.
  - split; [apply get_current_user_id_inv|]. unfold get_current_user_id.
    + intros [-> [user Huser]].
      assert (u "Bearer " ++ user_id = 66 :: drop 1 (u "Bearer ") ++ user_id)
        as Hcons by done.
      rewrite Hcons, <- Hcons. rewrite startswith_app.
      assert (drop 7 (u "Bearer " ++ user_id) = user_id) as -> by done.
      by rewrite Huser.
  - unfold get_current_user_id.
    intros status. destruct authorization as [[|c a]|]; try by intros [= <-].
    destruct (startswith (c :: a) (u "Bearer ")); [|by intros [= <-]].
    destruct (get_user_by_id db (drop 7 (c :: a))); [done|by intros [= <-]].
Qed.

(** ** routers/plan.py: the generation endpoint *)

Lemma signed_in_user (db : Database) authorization user_id :
  plan_router.signed_in db authorization = Some user_id →
  ∃ user, get_user_by_id db user_id = Some user.
Proof.
  unfold plan_router.signed_in. destruct authorization as [[|c a]|]; try done.
  destruct (get_current_user_id db (Some (c :: a))) as [[|c' uid]|] eqn:Hid;
    try done.
  intros [= <-]. by apply get_current_user_id_inv in Hid as [_ ?].
Qed.

Lemma count_after_record (db : Database) today uuid now user_id dest other :
  get_today_generation_count
    (with_generations db
       (db_generations db ++ [mkGeneration uuid user_id dest now])) today other
  = (get_today_generation_count db today other
     + if bool_decide (user_id = other ∧ date_of now = today) then 1 else 0)%nat.
Proof.
  unfold get_today_generation_count. cbn [db_generations with_generations].
  rewrite filter_app, length_app. f_equal.
  rewrite filter_cons, filter_nil. cbn. case_bool_decide; by case_decide.
Qed.

(** X9: the generation endpoint keeps the daily quota.  For a signed-in
    caller whose quota is used up the answer is status 429, no provider is
    called and nothing is stored.  Otherwise a generation is recorded only
    with a successful answer, for the caller and no one else, so that
    today's count never passes the larger of its old value and the limit.
    An anonymous caller leaves the database as it is. *)
Theorem generation_endpoint_keeps_quota (py : python) (W : world)
    (db : Database) (authorization : option pystr) (today now : Z)
    (uuid : pystr) (request : PlanRequest) (h : log) :
  let out := plan_router.create_plan py W db authorization today now uuid
               request h in
  let count d who := get_today_generation_count d today who in
  (∀ user_id, plan_router.signed_in db authorization = Some user_id →
     ∃ can tier name limit remaining,
       check_generation_limit db today user_id
       = Checked can tier name limit (count db user_id) remaining
       ∧ (can = false → out = (HTTPException 429, db, h))
       ∧ (Z.of_nat (count out.1.2 user_id)
          <= Z.max (Z.of_nat (count db user_id)) limit)%Z
       ∧ (∀ other, other ≠ user_id → count out.1.2 other = count db other)
       ∧ ((∃ bundle, out.1.1 = Respond bundle)
          ∨ (out.1.2 = db ∧ ∃ status, out.1.1 = HTTPException status)))
  ∧ (plan_router.signed_in db authorization = None → out.1.2 = db).
Proof.
  intros out count. unfold out, plan_router.create_plan. split.
  - intros user_id Hsigned. rewrite Hsigned.
    destruct (signed_in_user db authorization user_id Hsigned) as [user Huser].
    pose proof (check_generation_limit_shape db today user_id user Huser)
      as (can & name & limit & remaining & Hcheck & Hcan).
    rewrite Hcheck. exists can, (u_membership_tier user), name, limit, remaining.
    split; [done|]. destruct can.
    + destruct (create_plan py W request (u "planning") h) as [[bundle|e] h'].
      * destruct (record_generation db uuid now user_id (destination request))
          as [db'|e] eqn:Hrec.
        -- unfold record_generation in Hrec.
           case_bool_decide; [done|].
           destruct (user_exists db user_id); [|done].
           injection Hrec as <-. cbn [fst snd]. split; [done|].
           unfold count. split; [|split; [|by eauto]].
           ++ rewrite count_after_record. specialize (Hcan eq_refl).
              case_bool_decide; lia.
           ++ intros other Hother. rewrite count_after_record.
              rewrite bool_decide_eq_false_2; [lia|]. by intros [-> _].
        -- cbn. split; [done|]. split; [lia|]. split; [done|]. right. by eauto.
      * cbn. split; [done|]. split; [lia|]. split; [done|]. right. by eauto.
    + cbn. split; [done|]. split; [lia|]. split; [done|]. right. by eauto.
  - intros ->.
    destruct (create_plan py W request (u "planning") h) as [[bundle|e] h']; done.
Qed.

(** ** database.py: [_parse_plan_row] *)

Lemma dict_set_keys (d : pydict) (k : pystr) (v x : json) :
  dict_get d k = Some v → (dict_set d k x).*1 = d.*1.
Proof.
  induction d as [|[k' v'] d IH]; [done|]. cbn.
  case_decide as Hk; [by subst k'|]. intros Hget. cbn. by rewrite IH.
Qed.

Lemma dict_get_keys (d : pydict) (k : pystr) :
  dict_get d k = None ↔ k ∉ d.*1.
Proof.
  induction d as [|[k' v'] d IH]; cbn.
  - split; [by intros _ ?%elem_of_nil|done].
  - rewrite not_elem_of_cons. case_decide as Hk.
    + split; [done|]. by intros [? _].
    + rewrite IH. split; [by intros ?|by intros [_ ?]].
Qed.

Lemma py_zip_keys (columns : list pystr) (row : list json) :
  (length columns ≤ length row)%nat → (py_zip columns row).*1 = columns.
Proof.
  revert row. induction columns as [|c cs IH]; intros row Hlen; [done|].
  destruct row as [|v vs]; cbn in *; [lia|]. rewrite IH; [done|lia].
Qed.

Lemma py_zip_get (columns : list pystr) (row : list json) (i : nat) (k : pystr) :
  NoDup columns → (length columns ≤ length row)%nat →
  columns !! i = Some k →
  dict_get (py_zip columns row) k = row !! i.
Proof.
  revert row i. induction columns as [|c cs IH]; intros row i Hnodup Hlen Hk;
    [done|].
  apply NoDup_cons in Hnodup as [Hc Hnodup].
  destruct row as [|v vs]; cbn in *; [lia|].
  destruct i as [|i]; cbn in *.
  - injection Hk as ->. by rewrite decide_True.
  - rewrite decide_False.
    + apply IH; [done|lia|done].
    + intros ->. destruct Hc. by eapply list_elem_of_lookup_2.
Qed.

Section parse_row_facts.
Variable py : python.

Lemma decode_column_spec (plan : pydict) (k : pystr) (fallback v : json) :
  dict_get plan k = Some v →
  ∃ plan', decode_column py plan k fallback = Ok plan'
    ∧ plan'.*1 = plan.*1
    ∧ (∀ k', k' ≠ k → dict_get plan' k' = dict_get plan k')
    ∧ (∀ s e, v = JStr s → s ≠ [] → json_loads py s = Raise e →
              dict_get plan' k = Some fallback)
    ∧ (∀ s x, v = JStr s → s ≠ [] → json_loads py s = Ok x →
              dict_get plan' k = Some x)
    ∧ (truthy v = false → plan' = plan).
Proof.
  intros Hget. unfold decode_column. rewrite Hget.
  destruct (truthy v) eqn:Htruthy.
  2:{ exists plan. repeat split; try done.
      - intros s e -> Hs. cbn in Htruthy. by rewrite bool_decide_eq_false_2 in Htruthy.
      - intros s x -> Hs. cbn in Htruthy. by rewrite bool_decide_eq_false_2 in Htruthy. }
  assert (∀ x, ∃ plan', Ok (dict_set plan k x) = Ok plan'
            ∧ plan'.*1 = plan.*1
            ∧ (∀ k', k' ≠ k → dict_get plan' k' = dict_get plan k')
            ∧ dict_get plan' k = Some x) as Hset.
  { intros x. eexists. split; [reflexivity|].
    split; [by eapply dict_set_keys|]. split; [|apply dict_get_set_eq].
    intros k' Hne. by apply dict_get_set_ne. }
  destruct v as [| | | |s| |]; try (destruct (Hset fallback) as (p & -> & ? & ? & ?);
    exists p; repeat split; done).
  destruct (json_loads py s) as [x|e] eqn:Hloads.
  - destruct (Hset x) as (p & -> & ? & ? & ?). exists p.
    repeat split; try done.
    + intros s' e [= <-] _. by rewrite Hloads.
    + intros s' x' [= <-] _. rewrite Hloads. by intros [= <-].
  - destruct (Hset fallback) as (p & -> & ? & ? & ?). exists p.
    repeat split; try done.
    intros s' x' [= <-] _. by rewrite Hloads.
Qed.

(** X10: a parsed plan has the fourteen keys of the original table and no
    others, whatever the length of the row: a short row is padded with
    [None], and of the seventeen columns the table has by now the last
    three ([start_date], [end_date], [like_count]) are dropped.  Parsing
    never raises; a [preferences] text that fails to decode becomes [[]],
    a [plan_data] text that fails to decode becomes [None], and every
    other column is handed on as stored. *)
Theorem parse_plan_row_keys (row : list json) :
  ∃ plan,
    _parse_plan_row py row = Ok plan
    ∧ plan.*1 = plan_columns
    ∧ dict_get plan (u "start_date") = None
    ∧ dict_get plan (u "end_date") = None
    ∧ dict_get plan (u "like_count") = None
    ∧ (∀ s e, row !! 4%nat = Some (JStr s) → s ≠ [] → json_loads py s = Raise e →
              dict_get plan (u "preferences") = Some (JList []))
    ∧ (∀ s e, row !! 7%nat = Some (JStr s) → s ≠ [] → json_loads py s = Raise e →
              dict_get plan (u "plan_data") = Some JNull)
    ∧ (∀ i k, plan_columns !! i = Some k →
              k ≠ u "preferences" → k ≠ u "plan_data" →
              dict_get plan k = Some (default JNull (row !! i))).
Proof.
  unfold _parse_plan_row.
  set (row_list := row ++ replicate (length plan_columns - length row) JNull).
  assert (length plan_columns ≤ length row_list)%nat as Hlen.
  { unfold row_list. rewrite length_app, length_replicate. lia. }
  assert (NoDup plan_columns) as Hnodup.
  { apply (bool_decide_unpack _). vm_compute. exact I. }
  assert (∀ i, (i < length plan_columns)%nat →
               row_list !! i = Some (default JNull (row !! i))) as Hpad.
  { intros i Hi. unfold row_list. destruct (decide (i < length row)%nat) as [Hlt|Hge].
    - rewrite lookup_app_l by done.
      destruct (lookup_lt_is_Some_2 row i Hlt) as [v ->]. done.
    - rewrite lookup_app_r by lia. rewrite (lookup_ge_None_2 row i) by lia.
      change (default JNull None) with JNull. apply lookup_replicate_2. lia. }
  set (plan0 := py_zip plan_columns row_list).
  assert (plan0.*1 = plan_columns) as Hkeys0 by by apply py_zip_keys.
  assert (∀ i k, plan_columns !! i = Some k →
                 dict_get plan0 k = Some (default JNull (row !! i))) as Hget0.
  { intros i k Hk. unfold plan0. rewrite (py_zip_get _ _ i) by done.
    apply Hpad. by eapply lookup_lt_Some. }
  destruct (decode_column_spec plan0 (u "preferences") (JList [])
              _ (Hget0 4%nat _ eq_refl))
    as (plan1 & Hrun1 & Hkeys1 & Hother1 & Hbad1 & _ & _).
  fold plan0. rewrite Hrun1. cbn [mbind result_bind].
  assert (dict_get plan1 (u "plan_data") = Some (default JNull (row !! 7%nat)))
    as Hget1.
  { rewrite Hother1; [by apply (Hget0 7%nat)|]. vm_compute. discriminate. }
  destruct (decode_column_spec plan1 (u "plan_data") JNull _ Hget1)
    as (plan2 & Hrun2 & Hkeys2 & Hother2 & Hbad2 & _ & _).
  exists plan2. split; [exact Hrun2|].
  assert (plan2.*1 = plan_columns) as Hkeys by by rewrite Hkeys2, Hkeys1.
  split; [exact Hkeys|].
  split. { apply dict_get_keys. rewrite Hkeys. vm_compute.
           intros H%list_elem_of_In. cbn in H. intuition discriminate. }
  split. { apply dict_get_keys. rewrite Hkeys. vm_compute.
           intros H%list_elem_of_In. cbn in H. intuition discriminate. }
  split. { apply dict_get_keys. rewrite Hkeys. vm_compute.
           intros H%list_elem_of_In. cbn in H. intuition discriminate. }
  split.
  { intros s e Hrow Hs Hloads. rewrite Hother2 by (vm_compute; discriminate).
    eapply Hbad1; [|done|done]. by rewrite Hrow. }
  split.
  { intros s e Hrow Hs Hloads. eapply Hbad2; [|done|done]. by rewrite Hrow. }
  intros i k Hk Hp Hd. rewrite Hother2, Hother1 by done. by apply Hget0.
Qed.
End parse_row_facts.

(** ** planner.py: an intent whose keyword list is [null] *)

Section planner_more.
Variable py : python.
Variable W : world.
Variable request : PlanRequest.

Lemma gather_specific_raises (intent : json) (h h' : log) (e : exn) :
  is_dict intent →
  gather_specific py W request intent h = (Raise e, h') → e = TypeError.
Proof.
  intros [d ->]. unfold gather_specific, py_get_default. cbn [py_get].
  unfold mbind at 1, M_bind, lift. cbn [mbind result_bind].
  unfold mbind at 1, M_bind.
  destruct (py_iter (from_option id (JList []) (dict_get d (u "specific_places"))))
    as [items|e'] eqn:Hiter.
  - destruct (search_each_returns W request items
                (λ place, JStr (destination request ++ u " " ++ py_str py place))
                2%nat (λ _ _, True) h (λ _ _, I)) as (a & h1 & -> & _).
    done.
  - intros [= <- _]. clear -Hiter.
    destruct (from_option id (JList []) (dict_get d (u "specific_places")));
      cbn in Hiter; congruence.
Qed.

Lemma gather_general_null (d : pydict) (h : log) :
  dict_get d (u "search_keywords") = Some JNull →
  gather_general W request (JDict d) h = (Raise TypeError, h).
Proof.
  intros Hnull. unfold gather_general, py_get_default. cbn [py_get].
  by rewrite Hnull.
Qed.

Lemma gather_null_keywords (d : pydict) (h : log) :
  dict_get d (u "search_keywords") = Some JNull →
  ∃ h', _gather_context_with_intent py W request (JDict d) h
        = (Raise TypeError, h').
Proof.
  intros Hnull. unfold _gather_context_with_intent.
  unfold mbind at 1, M_bind.
  destruct (wp_true_try (weather ← get_weather W (destination request);
                         mret (Some weather)) (λ _, None) h)
    as (weather & h1 & Hw & _).
  unfold gather_weather. rewrite Hw.
  unfold mbind at 1, M_bind.
  destruct (gather_city_location W request h1) as [[loc|e] h2] eqn:Hloc.
  2:{ exfalso. revert Hloc. unfold gather_city_location.
      destruct (wp_true_try
                  (geo_result ← call (EvGeocode (destination request))
                                  (λ h, amap_geocode W h (destination request));
                   mret match dict_get geo_result (u "location") with
                        | Some l => if truthy l then Some l else None
                        | None => None
                        end) (λ _, None) h1) as (a & h' & -> & _). done. }
  unfold mbind at 1, M_bind.
  destruct (gather_specific py W request (JDict d) h2) as [[specific|e] h3] eqn:Hs.
  - unfold mbind at 1, M_bind. rewrite gather_general_null by done. by eexists.
  - apply gather_specific_raises in Hs as ->; [by eexists|by eexists].
Qed.

(** X11: an intent whose keyword list is [null] stops the pipeline.  The
    intent stage hands on whatever JSON object the chat provider sent;
    when its [search_keywords] is [null], context gathering raises
    [TypeError] at the slice, outside every [try], and so does
    [create_plan], although every provider answered. *)
Theorem null_search_keywords_raise (mode : pystr) :
  (∀ d h, dict_get d (u "search_keywords") = Some JNull →
     ∃ h', _gather_context_with_intent py W request (JDict d) h
           = (Raise TypeError, h'))
  ∧ (∀ h text d,
       completions_create W h (extract_prompt request) None = Ok text →
       decode_intent py text = Ok (JDict d) →
       dict_get d (u "search_keywords") = Some JNull →
       ∃ h', create_plan py W request mode h = (Raise TypeError, h')).
Proof.
  split; [apply gather_null_keywords|].
  intros h text d Htext Hdecode Hnull. unfold create_plan.
  unfold mbind at 1, M_bind. rewrite extract_travel_intent_run, Htext, Hdecode.
  unfold mbind at 1, M_bind.
  destruct (gather_null_keywords d (h ++ [EvChat (extract_prompt request) None])
              Hnull) as [h' ->].
  by eexists.
Qed.
End planner_more.

(** X11 in a world where nothing fails but the intent is
    [{"search_keywords": null}]. *)
Lemma null_search_keywords_raise_witness :
  ∃ h', create_plan core_python null_keywords_world hangzhou (u "planning") []
        = (Raise TypeError, h').
Proof.
  apply (proj2 (null_search_keywords_raise core_python null_keywords_world
                  hangzhou (u "planning"))
           [] (uq "{'search_keywords': null}") [(u "search_keywords", JNull)]).
  - reflexivity.
  - vm_compute. reflexivity.
  - vm_compute. reflexivity.
Defined.

(** ** planner.py: the arguments of the cover image *)

(** X12: the cover stage looks for a map centre under the key [days].
    (1) For a plan whose [days] is not a list (the number of days, as the
    prompt asks for it) no centre and no markers are handed to the image
    resolver.  (2) When [days] is a list whose first POI has its
    coordinate as text, reading [lng] from it raises inside the stage's
    [try]: the cover is [None] and no image provider is called at all. *)
Theorem cover_stage_reads_days (py : python) (W : world)
    (request : PlanRequest) (d : pydict) (h : log) :
  ((∀ l, dict_get d (u "days") ≠ Some (JList l)) →
     cover_arguments py (Some (JDict d)) = Ok (None, []))
  ∧ (∀ day days poi pois s,
       dict_get d (u "days") = Some (JList (JDict day :: days)) →
       dict_get day (u "pois") = Some (JList (JDict poi :: pois)) →
       dict_get poi (u "location") = Some (JStr s) → s ≠ [] →
       cover_stage py W request (Some (JDict d)) h = (Ok JNull, h)).
Proof.
  split.
  - intros Hdays. unfold cover_arguments.
    destruct (dict_get d (u "days")) as [[| | | | |l|]|]; try done.
    by destruct (Hdays l).
  - intros day days poi pois s Hdays Hpois Hloc Hs.
    unfold cover_stage, cover_arguments. rewrite Hdays.
    destruct day as [|kv fd]; [done|]. rewrite Hpois.
    destruct poi as [|kv' fp]; [done|]. rewrite Hloc.
    assert (truthy (JStr s) = true) as ->.
    { cbn. by rewrite bool_decide_eq_false_2. }
    done.
Qed.

(** X12 on a plan with one located POI, in a world without providers. *)
Lemma cover_stage_reads_days_witness :
  cover_stage core_python offline_world hangzhou (Some located_plan) []
  = (Ok JNull, []).
Proof.
  refine (proj2 (cover_stage_reads_days core_python offline_world hangzhou
                   _ []) _ _ _ _ (u "120.1,30.2") _ _ _ _).
  - vm_compute. reflexivity.
  - vm_compute. reflexivity.
  - vm_compute. reflexivity.
  - discriminate.
Defined.

(** ** planner.py: what enrichment leaves alone *)

Lemma wp_map_M2 {X Y} (f : X → M Y) (P : X → Prop) (R : X → Y → Prop)
    (xs : list X) (h : log) :
  Forall P xs → (∀ x h, P x → wp (f x) (λ y _, R x y) h) →
  wp (map_M f xs) (λ ys _, Forall2 R xs ys) h.
Proof.
  intros Hxs Hf. revert h. induction Hxs as [|x xs Hx _ IH]; intros h.
  - apply wp_ret. constructor.
  - cbn [map_M]. apply wp_bind. eapply wp_mono; [|by apply Hf].
    intros y h1 Hy. apply wp_bind. eapply wp_mono; [|apply IH].
    intros ys h2 Hys. apply wp_ret. by constructor.
Qed.

Section enrich_names.
Variable py : python.
Variable W : world.
Variable request : PlanRequest.

Lemma fill_location_name (d : pydict) (h : log) :
  wp (fill_location W request d)
     (λ d' _, dict_get d' (u "name") = dict_get d (u "name")) h.
Proof.
  unfold fill_location. apply wp_try_any; [|intros e h' _; by apply wp_ret].
  intros d' h'. unfold mbind, M_bind, lift, call.
  destruct (py_getitem (JDict d) (u "name")) as [name|e]; [|done].
  destruct (amap_text_search W h name (destination request)) as [[|r rs]|e];
    try done.
  - by intros [= <- _].
  - intros [= <- _]. by rewrite !dict_get_set_ne by (vm_compute; congruence).
Qed.

Lemma fill_image_name (d : pydict) (h : log) :
  wp (fill_image py W request d)
     (λ d' _, dict_get d' (u "name") = dict_get d (u "name")) h.
Proof.
  unfold fill_image. apply wp_try_any; [|intros e h' _; by apply wp_ret].
  intros d' h'. unfold mbind at 1, M_bind, lift.
  destruct (py_getitem (JDict d) (u "name")) as [name|e]; [|done].
  unfold mbind, M_bind.
  destruct (search_destination_image py W _ None None h) as [[url|e] h1];
    [|done].
  destruct (truthy url).
  - intros [= <- _]. by rewrite dict_get_set_ne by (vm_compute; congruence).
  - by intros [= <- _].
Qed.

Lemma enrich_poi_name (poi : json) (h : log) :
  is_dict poi →
  wp (enrich_poi py W request poi)
     (λ poi' _, is_dict poi' ∧ poi_name_of poi' = poi_name_of poi) h.
Proof.
  intros [d ->]. unfold enrich_poi. apply wp_bind.
  apply (wp_mono _ (λ d1 _, dict_get d1 (u "name") = dict_get d (u "name"))).
  2:{ destruct (negb _); [apply fill_location_name|by apply wp_ret]. }
  intros d1 h1 Hd1. apply wp_bind.
  apply (wp_mono _ (λ d2 _, dict_get d2 (u "name") = dict_get d1 (u "name"))).
  2:{ destruct (negb _); [apply fill_image_name|by apply wp_ret]. }
  intros d2 h2 Hd2. apply wp_ret. split; [by exists d2|].
  cbn. by rewrite Hd2.
Qed.

Lemma Forall2_names (l l' : list json) :
  Forall2 (λ poi poi', is_dict poi' ∧ poi_name_of poi' = poi_name_of poi) l l' →
  Forall is_dict l' ∧ poi_name_of <$> l' = poi_name_of <$> l.
Proof.
  induction 1 as [|x y l l' [Hy Hn] _ [IH1 IH2]]; [done|].
  split; [by constructor|]. cbn. by rewrite Hn, IH2.
Qed.

Lemma enrich_day_names (day : json) (h : log) :
  day_of is_dict day →
  wp (enrich_day py W request day)
     (λ day' _, day_names day' = day_names day) h.
Proof.
  intros (d & -> & Hd).
  destruct (dict_get d (u "pois")) as [[| | | | |l|]|] eqn:Hp; try done.
  - destruct (wp_map_M2 (enrich_poi py W request) is_dict _ l h Hd
                (λ x h0, enrich_poi_name x h0)) as (l' & h1 & Hrun & Hl').
    apply Forall2_names in Hl' as [Hdicts Hnames].
    destruct (route_loop_dicts W request l' [] h1 Hdicts)
      as (routes & h2 & Hroutes & _).
    eexists _, _. split.
    { by rewrite (enrich_day_run_list py W request d l h Hp), Hrun, Hroutes. }
    unfold day_names. cbn [day_pois]. rewrite Hp.
    rewrite dict_get_set_ne by (vm_compute; congruence).
    by rewrite dict_get_set_eq.
  - eexists _, _. split.
    { by rewrite (enrich_day_run_none py W request d h Hp). }
    unfold day_names. cbn [day_pois].
    rewrite dict_get_set_ne by (vm_compute; congruence). by rewrite Hp.
Qed.

Lemma Forall2_eq_fmap {X Z} (g : X → Z) (l l' : list X) :
  Forall2 (λ x x', g x' = g x) l l' → g <$> l' = g <$> l.
Proof. induction 1 as [|x y l l' Hxy _ IH]; [done|]. cbn. by rewrite Hxy, IH. Qed.

(** X13: enrichment neither adds, drops, reorders nor renames a POI.  On
    a plan whose days and POIs are objects, [_enrich_plan] returns a plan
    with the same POI names, day by day and in the same order, whatever
    the map and image providers answer; and at the top level only [id],
    [created_at] and [daily_plans] are written. *)
Theorem enrich_plan_keeps_names (plan : json) (h : log) :
  plan_of is_dict plan →
  ∃ plan' h',
    _enrich_plan py W request plan h = (Ok plan', h')
    ∧ plan_names plan' = plan_names plan
    ∧ ∀ d d' k, plan = JDict d → plan' = JDict d' →
        k ≠ u "id" → k ≠ u "created_at" → k ≠ u "daily_plans" →
        dict_get d' k = dict_get d k.
Proof.
  intros (d & -> & Hd).
  destruct (dict_get d (u "daily_plans")) as [[| | | | |days|]|] eqn:Hdp;
    try done.
  - destruct (wp_map_M2 (enrich_day py W request) (day_of is_dict) _ days h Hd
                (λ x h0, enrich_day_names x h0)) as (days' & h1 & Hrun & Hdays').
    eexists _, _. split.
    { by rewrite (enrich_plan_run_list py W request d days h Hdp), Hrun. }
    split.
    + cbn [plan_names]. rewrite dict_get_set_eq, Hdp.
      by apply Forall2_eq_fmap.
    + intros d0 d' k [= <-] [= <-] Hid Hcreated Hdaily.
      by rewrite !dict_get_set_ne by done.
  - eexists _, _. split.
    { by rewrite (enrich_plan_run_none py W request d h Hdp). }
    split.
    + cbn [plan_names].
      rewrite !dict_get_set_ne by (vm_compute; congruence). by rewrite Hdp.
    + intros d0 d' k [= <-] [= <-] Hid Hcreated Hdaily.
      by rewrite !dict_get_set_ne by done.
Qed.
End enrich_names.

Lemma bare_plan_shape : plan_of is_dict bare_plan.
Proof.
  eexists. split; [reflexivity|].
  assert (dict_get
            [ (u "type", JStr (u "trip_plan"));
              (u "daily_plans",
               JList [ JDict [ (u "day", JInt 1);
                               (u "pois",
                                JList [ JDict [ (u "name", JStr (u "西湖")) ];
                                        JDict [ (u "name", JStr (u "灵隐寺")) ] ]) ] ]) ]
            (u "daily_plans")
          = Some (JList [ JDict [ (u "day", JInt 1);
                                  (u "pois",
                                   JList [ JDict [ (u "name", JStr (u "西湖")) ];
                                           JDict [ (u "name", JStr (u "灵隐寺")) ] ]) ] ]))
    as -> by (vm_compute; reflexivity).
  constructor; [|constructor].
  eexists. split; [reflexivity|].
  assert (dict_get
            [ (u "day", JInt 1);
              (u "pois",
               JList [ JDict [ (u "name", JStr (u "西湖")) ];
                       JDict [ (u "name", JStr (u "灵隐寺")) ] ]) ]
            (u "pois")
          = Some (JList [ JDict [ (u "name", JStr (u "西湖")) ];
                          JDict [ (u "name", JStr (u "灵隐寺")) ] ]))
    as -> by (vm_compute; reflexivity).
  repeat constructor; by eexists.
Qed.

(** X13 on a plan with two bare POIs, in a world without providers. *)
Lemma enrich_plan_keeps_names_witness :
  ∃ plan' h',
    _enrich_plan core_python offline_world hangzhou bare_plan [] = (Ok plan', h')
    ∧ plan_names plan' = [[Some (JStr (u "西湖")); Some (JStr (u "灵隐寺"))]].
Proof.
  destruct (enrich_plan_keeps_names core_python offline_world hangzhou
              bare_plan [] bare_plan_shape) as (plan' & h' & Hrun & Hnames & _).
  exists plan', h'. split; [exact Hrun|]. rewrite Hnames.
  vm_compute. reflexivity.
Defined.

(** ** search.py: the URL filter, the map URL, the number of calls *)

Section image_more.
Variable py : python.
Variable W : world.

(** X14: the filter written out inside [search_destination_image] is
    [_is_valid_image_url].  A search result whose image (or, failing that,
    thumbnail) is a text becomes a candidate exactly when
    [_is_valid_image_url] accepts that text, and the accepted texts are
    the ones that start with [https://], contain no blocked domain and
    contain, in lower case, an extension or host of the allow-list. *)
Theorem inline_filter_is_valid_image_url (item : pydict) (url : pystr) :
  py_or (get_or_none item (u "image")) (get_or_none item (u "thumbnail"))
  = JStr url →
  check_candidate py item
  = Ok (if _is_valid_image_url py url then Some url else None)
  ∧ (_is_valid_image_url py url = true ↔ candidate_ok py url).
Proof.
  intros Hurl. split.
  - unfold check_candidate, _is_valid_image_url. rewrite Hurl.
    cbn [truthy]. case_bool_decide as Hempty; [done|]. cbn [negb].
    destruct (startswith url (u "https://")); [|done]. cbn [negb].
    change (existsb (λ domain, py_in domain url) invalid_domains)
      with (existsb (λ domain, py_in domain url)
              [ u "mmbiz.qpic.cn"; u "kuaizhan.com"; u "qpic.cn"; u "sinaimg.cn";
                u "dmjnb.com"; u "bdimg.com"; u "baidustatic.com";
                u "sogoucdn.com"; u "360buyimg.com"; u "alicdn.com";
                u "ctrip.com"; u "mafengwo.net"; u "duitang.com"; u "huaban.com";
                u "nipic.com"; u "58pic.com"; u "zcool.cn" ]).
    destruct (existsb (λ domain, py_in domain url) _); [done|].
    change (existsb (λ pattern, py_in pattern (str_lower py url)) valid_patterns)
      with (existsb (λ pattern, py_in pattern (str_lower py url))
              [ u ".jpg"; u ".jpeg"; u ".png"; u ".webp"; u ".gif";
                u "unsplash.com"; u "pexels.com"; u "pixabay.com";
                u "cloudfront.net"; u "amazonaws.com";
                u "googleusercontent.com";
                u "flickr.com"; u "staticflickr.com";
                u "wikimedia.org"; u "wikipedia.org" ]).
    by destruct (existsb (λ pattern, py_in pattern (str_lower py url)) _).
  - unfold _is_valid_image_url, candidate_ok.
    change [ u "mmbiz.qpic.cn"; u "kuaizhan.com"; u "qpic.cn"; u "sinaimg.cn";
             u "dmjnb.com"; u "bdimg.com"; u "baidustatic.com";
             u "sogoucdn.com"; u "360buyimg.com"; u "alicdn.com";
             u "ctrip.com"; u "mafengwo.net"; u "duitang.com"; u "huaban.com";
             u "nipic.com"; u "58pic.com"; u "zcool.cn" ] with invalid_domains.
    change [ u ".jpg"; u ".jpeg"; u ".png"; u ".webp"; u ".gif";
             u "unsplash.com"; u "pexels.com"; u "pixabay.com";
             u "cloudfront.net"; u "amazonaws.com";
             u "googleusercontent.com";
             u "flickr.com"; u "staticflickr.com";
             u "wikimedia.org"; u "wikipedia.org" ] with valid_patterns.
    rewrite <- existsb_py_in_Forall, <- existsb_py_in_Exists.
    rewrite <- (startswith_prefix url (u "https://")).
    case_bool_decide as Hempty.
    { subst url. split; [done|]. by intros [? _]. }
    destruct (startswith url (u "https://")); cbn [negb];
      [|split; [done|by intros [? _]]].
    destruct (existsb (λ domain, py_in domain url) invalid_domains);
      [split; [done|by intros (_ & ? & _)]|].
    split; [done|by intros (_ & _ & ?)].
Qed.

End image_more.

(** X14 on a result with a thumbnail only. *)
Lemma inline_filter_is_valid_image_url_witness :
  check_candidate core_python [(u "thumbnail", JStr jpg_url)] = Ok (Some jpg_url).
Proof.
  pose proof (proj1 (inline_filter_is_valid_image_url core_python
                       [(u "thumbnail", JStr jpg_url)] jpg_url eq_refl)) as Hrun.
  vm_compute in Hrun. vm_compute. exact Hrun.
Defined.

Section image_calls.
Variable py : python.
Variable W : world.

Lemma marker_texts_dicts (ms : list json) :
  (∃ texts, marker_texts py ms = Ok texts) ↔ Forall is_dict ms.
Proof.
  induction ms as [|m ms IH]; cbn [marker_texts].
  - split; [constructor|by eexists].
  - rewrite Forall_cons, <- IH. unfold marker_text, py_get_default, py_get.
    destruct m as [| | | | | |d]; cbn;
      try (split; [by intros [? ?]|by intros [[? ?] _]]).
    destruct (marker_texts py ms) as [texts|e]; cbn.
    + split; [intros _; split; by eexists|by eexists].
    + split; [by intros [? ?]|by intros [_ [? ?]]].
Qed.

(** X15: only the first five markers matter to the map image.  The URL
    [get_amap_static_image] builds is the one it builds from the first
    five markers; an empty marker list is as good as none; and it raises
    exactly when one of the first five markers is not an object. *)
Theorem static_map_uses_five_markers (location : pystr) (ms : list json) :
  get_amap_static_image py W location (Some ms)
  = get_amap_static_image py W location (Some (take 5 ms))
  ∧ get_amap_static_image py W location (Some [])
    = get_amap_static_image py W location None
  ∧ ((∃ url, get_amap_static_image py W location (Some ms) = Ok url)
     ↔ Forall is_dict (take 5 ms)).
Proof.
  split; [|split; [done|]].
  - unfold get_amap_static_image. destruct ms as [|m ms]; [done|].
    cbn [take]. by rewrite take_take.
  - rewrite <- marker_texts_dicts. unfold get_amap_static_image.
    destruct ms as [|m ms]; [split; by eexists|].
    destruct (marker_texts py (take 5 (m :: ms))) as [texts|e]; cbn.
    + split; by eexists.
    + split; by intros [? ?].
Qed.

Lemma static_map_tier_log location markers (h : log) :
  ∃ r evs, static_map_tier py W location markers h = (Ok r, h ++ evs)
           ∧ (length evs ≤ 1)%nat ∧ Forall (λ ev, is_head_event ev = false) evs.
Proof.
  assert (∃ r evs, (mret None : M (option pystr)) h = (Ok r, h ++ evs)
                   ∧ (length evs ≤ 1)%nat
                   ∧ Forall (λ ev, is_head_event ev = false) evs) as Hnone.
  { exists (@None pystr), []. rewrite app_nil_r.
    split; [done|]. split; [cbn; lia|constructor]. }
  unfold static_map_tier. destruct location as [[|c loc]|]; try exact Hnone.
  case_bool_decide; [exact Hnone|].
  unfold try_catch, mbind, M_bind, call.
  destruct (get_amap_static_image py W (c :: loc) markers) as [url|e].
  - exists (Some url), [EvStaticMap (c :: loc)].
    split; [done|]. split; [cbn; lia|by repeat constructor].
  - exists None, [EvStaticMap (c :: loc)].
    split; [done|]. split; [cbn; lia|by repeat constructor].
Qed.

Lemma search_web_tier_log destination (h : log) :
  ∃ r evs, search_web_tier py W destination h = (Ok r, h ++ evs)
           ∧ (length evs ≤ 6)%nat
           ∧ (length (filter (λ ev, is_head_event ev = true) evs) ≤ 5)%nat.
Proof.
  rewrite search_web_tier_run. cbv zeta.
  set (candidates := scan_results py _ []).
  assert (length candidates ≤ 5)%nat as Hfive.
  { apply (scan_results_ok py); [constructor|cbn; lia]. }
  destruct (verify_loop_run py W candidates
              (h ++ [EvSearchWeb (image_query destination)]))
    as (r & n & Hrun & _).
  exists r, (EvSearchWeb (image_query destination) :: (EvHead <$> take n candidates)).
  split; [|split].
  - rewrite Hrun. unfold probed. by rewrite <- app_assoc.
  - cbn. rewrite length_fmap, length_take. lia.
  - rewrite filter_cons_False by done.
    etrans; [apply length_filter|]. rewrite length_fmap, length_take. lia.
Qed.

(** X16: the image resolver always answers and calls little.  For every
    destination, centre and marker list, whatever the providers do,
    [search_destination_image] returns (it never raises), having made at
    most eight calls, of which at most five are HEAD probes. *)
Theorem search_destination_image_bounded (destination : pystr)
    (location : option pystr) (markers : option (list json)) (h : log) :
  ∃ r evs,
    search_destination_image py W destination location markers h
    = (Ok r, h ++ evs)
    ∧ (length evs ≤ 8)%nat
    ∧ (length (filter (λ ev, is_head_event ev = true) evs) ≤ 5)%nat.
Proof.
  unfold search_destination_image.
  unfold mbind at 1, M_bind, try_catch. rewrite search_unsplash_image_run.
  assert (∃ v evs0,
            (if bool_decide (UNSPLASH_ACCESS_KEY W = [])
             then (Ok JNull, h)
             else (Ok match unsplash_get W h destination with
                      | Ok (status, data) =>
                        if (status =? 200)%Z
                        then match unsplash_first_regular data with
                             | Ok v => v
                             | Raise _ => JNull
                             end
                        else JNull
                      | Raise _ => JNull
                      end, h ++ [EvUnsplash destination]))
            = (Ok v, h ++ evs0)
            ∧ (length evs0 ≤ 1)%nat
            ∧ Forall (λ ev, is_head_event ev = false) evs0)
    as (v & evs0 & -> & Hlen0 & Hheads0).
  { case_bool_decide.
    - exists JNull, []. rewrite app_nil_r.
      split; [done|]. split; [cbn; lia|constructor].
    - eexists _, [_]. split; [done|]. split; [cbn; lia|by repeat constructor]. }
  assert (filter (λ ev, is_head_event ev = true) evs0 = []) as Hnone0.
  { clear -Hheads0. induction Hheads0 as [|ev evs Hev _ IH]; [done|].
    rewrite filter_cons_False by congruence. exact IH. }
  destruct (truthy v).
  { exists v, evs0. split; [done|]. rewrite Hnone0. cbn. lia. }
  unfold mbind, M_bind.
  destruct (static_map_tier_log location markers (h ++ evs0))
    as (amap & evs1 & -> & Hlen1 & Hheads1).
  assert (filter (λ ev, is_head_event ev = true) evs1 = []) as Hnone1.
  { clear -Hheads1. induction Hheads1 as [|ev evs Hev _ IH]; [done|].
    rewrite filter_cons_False by congruence. exact IH. }
  destruct amap as [url|].
  { exists (JStr url), (evs0 ++ evs1). split; [by rewrite app_assoc|].
    rewrite filter_app, Hnone0, Hnone1, length_app. cbn. lia. }
  destruct (search_web_tier_log destination ((h ++ evs0) ++ evs1))
    as (r & evs2 & -> & Hlen2 & Hheads2).
  exists r, (evs0 ++ evs1 ++ evs2). split; [by rewrite !app_assoc|].
  rewrite !filter_app, Hnone0, Hnone1, !length_app. cbn. lia.
Qed.
End image_calls.

(** ** deepseek_ai.py and planner.py: what the regular expression finds *)

Section regex_sound.
Context {A : Type}.

Lemma re_lit_sound (p s : pystr) (k : pystr → option A) (r : A) :
  re_lit p s k = Some r → ∃ t, s = p ++ t ∧ k t = Some r.
Proof.
  rewrite re_lit_startswith.
  destruct (startswith s p) eqn:Hs; [|done].
  apply startswith_prefix in Hs as [t ->]. rewrite drop_app_length. by exists t.
Qed.

Lemma re_spaces_sound (s : pystr) (k : pystr → option A) (r : A) :
  re_spaces s k = Some r →
  ∃ ws t, s = ws ++ t ∧ all_space ws ∧ k t = Some r.
Proof.
  induction s as [|c s IH]; cbn [re_spaces].
  - intros Hk. exists [], []. split; [done|]. split; [constructor|done].
  - destruct (is_space c) eqn:Hc.
    + destruct (re_spaces s k) as [r'|] eqn:Hrest.
      * intros [= ->]. destruct (IH eq_refl) as (ws & t & -> & Hws & Hk).
        exists (c :: ws), t. split; [done|]. split; [by constructor|done].
      * intros Hk. exists [], (c :: s). split; [done|]. split; [constructor|done].
    + intros Hk. exists [], (c :: s). split; [done|]. split; [constructor|done].
Qed.

Lemma re_spaces_some (s : pystr) (k : pystr → option A) :
  is_Some (k s) → is_Some (re_spaces s k).
Proof.
  destruct s as [|c s]; cbn [re_spaces]; [done|].
  destruct (is_space c); [|done]. by destruct (re_spaces s k).
Qed.

Lemma re_lazy_group_sound (s captured : pystr)
    (k : pystr → pystr → option A) (r : A) :
  re_lazy_group s captured k = Some r →
  ∃ g t, s = g ++ t ∧ k (captured ++ g) t = Some r.
Proof.
  revert captured. induction s as [|c s IH]; intros captured; cbn [re_lazy_group].
  - destruct (k captured []) eqn:Hk; [|done]. intros [= ->].
    exists [], []. split; [done|by rewrite app_nil_r].
  - destruct (k captured (c :: s)) eqn:Hk.
    + intros [= ->]. exists [], (c :: s). split; [done|by rewrite app_nil_r].
    + intros (g & t & -> & Hr)%IH. exists (c :: g), t.
      by rewrite <- app_assoc in Hr.
Qed.

Lemma re_lazy_group_some (g t captured : pystr)
    (k : pystr → pystr → option A) :
  is_Some (k (captured ++ g) t) → is_Some (re_lazy_group (g ++ t) captured k).
Proof.
  revert captured. induction g as [|c g IH]; intros captured Hk.
  - rewrite app_nil_r in Hk. cbn [app].
    destruct t as [|d t]; cbn [re_lazy_group]; by destruct (k captured _).
  - cbn [app re_lazy_group]. destruct (k captured (c :: g ++ t)); [done|].
    apply IH. by rewrite <- app_assoc.
Qed.
End regex_sound.

Lemma json_block_at_sound (s body : pystr) :
  json_block_at s = Some body →
  ∃ ws1 ws2 post,
    s = fence_open ++ ws1 ++ body ++ ws2 ++ fence_close ++ post
    ∧ all_space ws1 ∧ all_space ws2.
Proof.
  unfold json_block_at.
  intros (s1 & -> & H1)%re_lit_sound.
  apply re_spaces_sound in H1 as (ws1 & s2 & -> & Hws1 & H2).
  apply re_lazy_group_sound in H2 as (g & s3 & -> & H3).
  apply re_spaces_sound in H3 as (ws2 & s4 & -> & Hws2 & H4).
  apply re_lit_sound in H4 as (post & -> & [= <-]).
  by exists ws1, ws2, post.
Qed.

Lemma json_block_at_some (mid post : pystr) :
  is_Some (json_block_at (fence_open ++ mid ++ fence_close ++ post)).
Proof.
  unfold json_block_at. rewrite re_lit_app.
  apply re_spaces_some, (re_lazy_group_some mid (fence_close ++ post) []).
  apply re_spaces_some. by rewrite re_lit_app.
Qed.

Lemma re_search_sound (s body : pystr) :
  re_search_json_block s = Some body →
  ∃ pre ws1 ws2 post,
    s = pre ++ fence_open ++ ws1 ++ body ++ ws2 ++ fence_close ++ post
    ∧ all_space ws1 ∧ all_space ws2.
Proof.
  induction s as [|c s IH]; cbn [re_search_json_block].
  - destruct (json_block_at []) eqn:Hat; [|done]. intros [= ->].
    apply json_block_at_sound in Hat as (ws1 & ws2 & post & Hs & ? & ?).
    by exists [], ws1, ws2, post.
  - destruct (json_block_at (c :: s)) eqn:Hat.
    + intros [= ->].
      apply json_block_at_sound in Hat as (ws1 & ws2 & post & Hs & ? & ?).
      by exists [], ws1, ws2, post.
    + intros (pre & ws1 & ws2 & post & -> & ? & ?)%IH.
      by exists (c :: pre), ws1, ws2, post.
Qed.

Lemma re_search_some (pre mid post : pystr) :
  is_Some (re_search_json_block (pre ++ fence_open ++ mid ++ fence_close ++ post)).
Proof.
  induction pre as [|c pre IH].
  - cbn [app]. pose proof (json_block_at_some mid post) as [b Hb].
    destruct (fence_open ++ mid ++ fence_close ++ post);
      cbn [re_search_json_block]; by rewrite Hb.
  - cbn [app re_search_json_block]. by destruct (json_block_at _).
Qed.

(** X17: the pattern finds a block exactly in the texts that have an
    opening fence with a closing fence somewhere after it; and what it
    captures is then the text between such a pair of fences, less the white
    space next to them.  (Both [parse_plan_from_response] and
    [_extract_travel_intent] search with this pattern.) *)
Theorem re_search_json_block_spec (s : pystr) :
  (is_Some (re_search_json_block s)
   ↔ ∃ pre mid post, s = pre ++ fence_open ++ mid ++ fence_close ++ post)
  ∧ (∀ body, re_search_json_block s = Some body →
       ∃ pre ws1 ws2 post,
         s = pre ++ fence_open ++ ws1 ++ body ++ ws2 ++ fence_close ++ post
         ∧ all_space ws1 ∧ all_space ws2).
Proof.
  split; [|apply re_search_sound]. split.
  - intros [body (pre & ws1 & ws2 & post & -> & _)%re_search_sound].
    exists pre, (ws1 ++ body ++ ws2), post. by rewrite <- !app_assoc.
  - intros (pre & mid & post & ->). apply re_search_some.
Qed.

(** X18: a plan that [parse_plan_from_response] returns is marked and
    fenced.  Whatever is returned other than [None] decodes the text
    between an opening and a closing fence of the reply (white space next
    to the fences left out) and has [type == "trip_plan"]. *)
Theorem parse_plan_result_is_fenced (json_loads : pystr → result json)
    (response : pystr) (plan : json) :
  parse_plan_from_response json_loads response = Ok (Some plan) →
  has_marker plan = true
  ∧ ∃ pre ws1 body ws2 post,
      response = pre ++ fence_open ++ ws1 ++ body ++ ws2 ++ fence_close ++ post
      ∧ all_space ws1 ∧ all_space ws2
      ∧ json_loads body = Ok plan.
Proof.
  unfold parse_plan_from_response, parse_plan_body.
  destruct (re_search_json_block response) as [body|] eqn:Hsearch; [|done].
  destruct (json_loads body) as [v|e] eqn:Hloads; [|done].
  cbn [mbind result_bind].
  rewrite parse_plan_body_marker.
  destruct (has_marker v) eqn:Hmark.
  - intros [= <-]. split; [done|].
    apply re_search_sound in Hsearch as (pre & ws1 & ws2 & post & -> & ? & ?).
    by exists pre, ws1, body, ws2, post.
  - by destruct v.
Qed.

(** X18 on the sample reply. *)
Lemma parse_plan_result_is_fenced_witness : has_marker sample_plan = true.
Proof.
  refine (proj1 (parse_plan_result_is_fenced json_loads_core sample_response
                   sample_plan _)).
  vm_compute. reflexivity.
Defined.

(** ** deepseek_ai.py and routers/chat.py: streaming *)

Lemma stream_body_nonempty (s : delta_stream) :
  Forall (λ x, x ≠ []) (yielded (stream_body s)).
Proof.
  induction s as [| |choices rest IH]; cbn; [constructor|constructor|].
  destruct choices as [|[[|c text]|] ?]; cbn;
    [constructor|exact IH|by constructor|exact IH].
Qed.

Lemma stream_body_text (s : delta_stream) :
  match stream_text s with
  | Some text => raised (stream_body s) = None
                 ∧ concat (yielded (stream_body s)) = text
  | None => is_Some (raised (stream_body s))
  end.
Proof.
  induction s as [| |choices rest IH]; cbn; try done.
  destruct choices as [|content ?]; cbn; [done|].
  destruct (stream_text rest) as [text|]; cbn.
  - destruct IH as [Hr Hc]. by destruct content as [[|c t]|]; cbn; rewrite ?Hr, ?Hc.
  - by destruct content as [[|c t]|].
Qed.

(** X19: the streamed reply.  [chat_stream] never raises: when the
    provider's stream breaks (or a chunk has no choice) the error is
    yielded as a last text fragment.  It yields no empty fragment, and for
    a stream that does not break the fragments joined are the deltas
    joined.  So the router's generator always ends with the [DONE] frame,
    never with an error frame, after one content frame per fragment. *)
Theorem chat_stream_never_raises (py : python) (s : delta_stream) :
  raised (chat_stream s) = None
  ∧ Forall (λ x, x ≠ []) (yielded (chat_stream s))
  ∧ (∀ text, stream_text s = Some text →
       concat (yielded (chat_stream s)) = text)
  ∧ (stream_text s = None →
       ∃ fragments e, yielded (chat_stream s) = fragments ++ [error_fragment e])
  ∧ generate py (chat_stream s)
    = (sse_frame py (u "content") <$> yielded (chat_stream s)) ++ [sse_done].
Proof.
  pose proof (stream_body_nonempty s) as Hne.
  pose proof (stream_body_text s) as Htext.
  unfold chat_stream, generate.
  destruct (raised (stream_body s)) as [e|] eqn:Hraised; cbn [raised yielded].
  - split; [done|]. split.
    { apply Forall_app. split; [done|]. constructor; [|done].
      unfold error_fragment, nl. discriminate. }
    split.
    { intros text Hs. rewrite Hs in Htext. destruct Htext as [? _]. congruence. }
    split; [by eauto|done].
  - split; [done|]. split; [done|]. split.
    { intros text Hs. rewrite Hs in Htext. by destruct Htext. }
    split; [|by rewrite Hraised].
    intros Hs. rewrite Hs in Htext. destruct Htext as [? ?]. congruence.
Qed.

(** ** amap_mcp.py and planner.py: the weather that is fetched and the
    weather that is shown *)

Ltac bind_inv :=
  repeat match goal with
         | |- (?m ≫= _) = Ok _ → _ =>
           let x := fresh "x" in
           let Hx := fresh "Hx" in
           destruct m as [x|] eqn:Hx; cbn [mbind result_bind]; [|done]
         end.

Lemma forecast_entry_cast times tmax tmin precip wcode i e :
  forecast_entry times tmax tmin precip wcode i = Ok e → is_cast e.
Proof.
  unfold forecast_entry. bind_inv. intros [= <-]. vm_compute. reflexivity.
Qed.

Lemma forecast_entries_casts times tmax tmin precip wcode indices l :
  forecast_entries times tmax tmin precip wcode indices = Ok l →
  Forall is_cast l.
Proof.
  revert l. induction indices as [|i rest IH]; intros l; cbn [forecast_entries].
  { intros [= <-]. constructor. }
  destruct (forecast_entry times tmax tmin precip wcode i) as [e|] eqn:He;
    cbn [mbind result_bind]; [|done].
  destruct (forecast_entries times tmax tmin precip wcode rest) as [r|] eqn:Hr;
    cbn [mbind result_bind]; [|done].
  intros [= <-]. constructor; [by eapply forecast_entry_cast|by apply IH].
Qed.

Section weather_shown.
Variable py : python.

Lemma weather_result_keys lives forecasts w :
  weather_result lives forecasts = Ok w →
  ∃ live casts, w = [(u "live", live); (u "forecasts", casts)].
Proof.
  unfold weather_result. bind_inv. intros [= <-]. by eexists _, _.
Qed.

Lemma open_meteo_result_keys data w :
  open_meteo_result data = Ok w →
  ∃ live casts, w = [(u "live", live); (u "forecasts", JList casts)]
                ∧ Forall is_cast casts.
Proof.
  unfold open_meteo_result. bind_inv. intros [= <-].
  eexists _, _. split; [reflexivity|]. by eapply forecast_entries_casts.
Qed.

Lemma live_forecasts_plain (live casts : json) :
  (∀ f rest, casts = JList (f :: rest) → is_cast f) →
  first_cast_plain [(u "live", live); (u "forecasts", casts)].
Proof.
  intros Hcast. split; [vm_compute; reflexivity|].
  assert (dict_get [(u "live", live); (u "forecasts", casts)] (u "forecasts")
          = Some casts) as -> by (vm_compute; reflexivity).
  destruct casts as [| | | | |[|f rest]|]; try done.
  specialize (Hcast f rest eq_refl). by destruct f.
Qed.

(** X20: the weather that is fetched is never shown.  A weather dict as
    [get_weather] builds it, from the map provider's answers or from the
    Open-Meteo fallback, has the keys [live] and [forecasts] and no
    others; the prompt builder reads [lives] and a [casts] inside the
    first forecast.  So, with forecasts that are plain forecast objects,
    the weather section of the prompt is empty for every such dict. *)
Theorem fetched_weather_never_shown (w : pydict) (context : Context) (n : Z) :
  (∃ lives forecasts,
     weather_result lives forecasts = Ok w
     ∧ ∀ f rest, dict_get w (u "forecasts") = Some (JList (f :: rest)) → is_cast f)
  ∨ (∃ data, open_meteo_result data = Ok w) →
  w.*1 = [u "live"; u "forecasts"]
  ∧ dict_get w (u "lives") = None
  ∧ (ctx_weather context = Some w → weather_section_of py context n = Ok []).
Proof.
  intros Hw.
  assert (w.*1 = [u "live"; u "forecasts"] ∧ first_cast_plain w) as [Hkeys Hplain].
  { destruct Hw as [(lives & forecasts & Hw & Hcast)|[data Hw]].
    - apply weather_result_keys in Hw as (live & casts & ->).
      split; [done|]. apply live_forecasts_plain. intros f rest ->.
      apply (Hcast f rest). vm_compute. reflexivity.
    - apply open_meteo_result_keys in Hw as (live & casts & -> & Hcasts).
      split; [done|]. apply live_forecasts_plain. intros f rest [= ->].
      by apply Forall_cons in Hcasts as [? _]. }
  split; [done|]. split; [apply Hplain|].
  intros Hctx. apply weather_section_plain. intros w' Hw'. congruence.
Qed.
End weather_shown.

(** X20 on an answer of the map provider with one forecast day. *)
Lemma fetched_weather_never_shown_witness :
  weather_section_of core_python sunny_context 3 = Ok [].
Proof.
  assert ((∃ lives forecasts,
             weather_result lives forecasts = Ok sunny_weather
             ∧ ∀ f rest, dict_get sunny_weather (u "forecasts")
                         = Some (JList (f :: rest)) → is_cast f)
          ∨ (∃ data, open_meteo_result data = Ok sunny_weather)) as Hfetched.
  { left.
    exists (JList [JDict [(u "weather", JStr (u "晴"))]]),
           (JList [JDict [(u "casts",
                            JList [JDict [(u "date", JStr (u "2025-05-01"))]])]]).
    split; [vm_compute; reflexivity|].
    intros f rest Hf. vm_compute in Hf. injection Hf as <- _.
    vm_compute. reflexivity. }
  exact (proj2 (proj2 (fetched_weather_never_shown core_python sunny_weather
                         sunny_context 3 Hfetched)) eq_refl).
Defined.

(** ** amap_mcp.py: sampling a path *)

Lemma every_from_length {X} (step skip : nat) (xs : list X) :
  (0 < step)%nat → (skip < step)%nat →
  (step * length (every_from step skip xs) + skip ≤ length xs + step - 1)%nat.
Proof.
  intros Hstep. revert skip. induction xs as [|x xs IH]; intros skip Hskip.
  - cbn. lia.
  - destruct skip as [|skip]; cbn [every_from length].
    + specialize (IH (step - 1)%nat). lia.
    + specialize (IH skip). lia.
Qed.

Lemma every_from_sublist {X} (step skip : nat) (xs : list X) :
  every_from step skip xs `sublist_of` xs.
Proof.
  revert skip. induction xs as [|x xs IH]; intros skip; [done|].
  destruct skip; cbn [every_from]; [apply sublist_skip|apply sublist_cons]; apply IH.
Qed.

Lemma every_from_one {X} (xs : list X) : every_from 1 0 xs = xs.
Proof. induction xs as [|x xs IH]; [done|]. cbn. by rewrite IH. Qed.

(** X21: how far a path is thinned out.  Sampling to [cap] points keeps
    the points in order, starting with the first one, but the result is
    bounded by twice the cap, not by the cap: a path of more than [cap]
    and fewer than [2 * cap] points is kept whole.  (The route map samples
    every segment with cap 20 and the whole path with cap 100.) *)
Theorem sample_to_bound {X} (cap : nat) (xs : list X) :
  (0 < cap)%nat →
  sample_to cap xs `sublist_of` xs
  ∧ head (sample_to cap xs) = head xs
  ∧ (length (sample_to cap xs) < 2 * cap)%nat
  ∧ ((length xs < 2 * cap)%nat → sample_to cap xs = xs).
Proof.
  intros Hcap. unfold sample_to, py_slice_step.
  destruct (cap <? length xs)%nat eqn:Hlong.
  2:{ apply Nat.ltb_ge in Hlong. repeat split; try done. lia. }
  apply Nat.ltb_lt in Hlong.
  set (step := (length xs / cap)%nat).
  assert (1 ≤ step)%nat as Hstep.
  { unfold step. apply Nat.div_le_lower_bound; lia. }
  assert (length xs < (step + 1) * cap)%nat as Hup.
  { unfold step. pose proof (Nat.div_mod (length xs) cap ltac:(lia)) as Hdm.
    pose proof (Nat.mod_upper_bound (length xs) cap ltac:(lia)). nia. }
  assert (cap * step ≤ length xs)%nat as Hlow.
  { unfold step. apply Nat.Div0.mul_div_le. }
  split; [apply every_from_sublist|]. split.
  { destruct xs; [done|]. done. }
  split.
  - pose proof (every_from_length step 0 xs ltac:(lia) ltac:(lia)) as Hlen. nia.
  - intros Hshort. assert (step = 1)%nat as -> by nia. apply every_from_one.
Qed.

(** X21 on a segment of 39 points with cap 20: nothing is dropped. *)
Lemma sample_to_bound_witness :
  sample_to 20 (seq 0 39) = seq 0 39.
Proof.
  apply (proj2 (proj2 (proj2 (sample_to_bound 20 (seq 0 39) ltac:(lia))))).
  cbn. lia.
Defined.

(** ** amap_mcp.py: [_parse_pois] *)

Lemma parse_poi_shape (poi : json) :
  is_dict poi →
  ∃ d, parse_poi poi = Ok (JDict d)
       ∧ d.*1 = poi_keys
       ∧ is_str_value (dict_get d (u "address")) = true
       ∧ is_str_value (dict_get d (u "tel")) = true.
Proof.
  intros [d ->]. eexists. split; [reflexivity|]. split; [done|].
  assert (∀ a b c e v w x y : json,
            dict_get [ (u "id", a); (u "name", b); (u "address", v);
                       (u "location", c); (u "type", e); (u "tel", w);
                       (u "rating", x); (u "cost", y) ] (u "address") = Some v
            ∧ dict_get [ (u "id", a); (u "name", b); (u "address", v);
                         (u "location", c); (u "type", e); (u "tel", w);
                         (u "rating", x); (u "cost", y) ] (u "tel") = Some w)
    as Hget by (intros; split; vm_compute; reflexivity).
  split.
  - rewrite (proj1 (Hget _ _ _ _ _ _ _ _)).
    destruct (dict_get d (u "address")) as [[| | | |s| |]|]; done.
  - rewrite (proj2 (Hget _ _ _ _ _ _ _ _)).
    destruct (dict_get d (u "tel")) as [[| | | |s| |]|]; done.
Qed.

(** X22: what [_parse_pois] hands on.  For an answer whose [pois] is a
    list of objects it returns one POI per entry, in order, each with
    exactly the eight keys [id], [name], [address], [location], [type],
    [tel], [rating], [cost], and with [address] and [tel] as text
    whatever the provider sent; an answer whose [pois] is missing or not a
    list gives the empty list; an entry that is not an object makes it
    raise. *)
Theorem parse_pois_shape (answer : pydict) :
  (∀ l, dict_get answer (u "pois") = Some (JList l) → Forall is_dict l →
     ∃ pois, _parse_pois (JDict answer) = Ok pois
             ∧ length pois = length l
             ∧ Forall (λ p, ∃ d, p = JDict d ∧ d.*1 = poi_keys
                                 ∧ is_str_value (dict_get d (u "address")) = true
                                 ∧ is_str_value (dict_get d (u "tel")) = true)
                      pois)
  ∧ ((∀ l, dict_get answer (u "pois") ≠ Some (JList l)) →
     _parse_pois (JDict answer) = Ok [])
  ∧ (∀ l, dict_get answer (u "pois") = Some (JList l) →
          Exists (λ p, ¬ is_dict p) l →
          _parse_pois (JDict answer) = Raise AttributeError).
Proof.
  unfold _parse_pois, py_get_default. cbn [py_get mbind result_bind].
  split; [|split].
  - intros l -> Hl. cbn [from_option id].
    induction Hl as [|poi l Hpoi _ (pois & Hrun & Hlen & Hpois)];
      cbn [parse_poi_list]; [by exists []|].
    destruct (parse_poi_shape poi Hpoi) as (d & -> & Hkeys & Ha & Ht).
    rewrite Hrun. cbn [mbind result_bind]. eexists. split; [reflexivity|].
    split; [cbn; by rewrite Hlen|]. constructor; [by exists d|done].
  - intros Hnot.
    destruct (dict_get answer (u "pois")) as [[| | | | |l|]|]; try done.
    by destruct (Hnot l).
  - intros l -> Hl. cbn [from_option id].
    induction Hl as [poi l Hpoi|poi l _ IH]; cbn [parse_poi_list].
    + destruct poi; try done. destruct Hpoi. by eexists.
    + rewrite IH. destruct (parse_poi poi) as [p|e] eqn:Hp; [done|].
      destruct poi; cbn in Hp; cbn; congruence.
Qed.

(** X22 on an answer whose only POI has a list as its address. *)
Lemma parse_pois_shape_witness :
  ∃ pois, _parse_pois (JDict [(u "pois",
                               JList [JDict [(u "name", JStr (u "西湖"));
                                             (u "address", JList [])]])])
          = Ok pois ∧ length pois = 1%nat.
Proof.
  destruct (proj1 (parse_pois_shape
                     [(u "pois", JList [JDict [(u "name", JStr (u "西湖"));
                                               (u "address", JList [])]])])
              [JDict [(u "name", JStr (u "西湖")); (u "address", JList [])]])
    as (pois & Hrun & Hlen & _).
  - vm_compute. reflexivity.
  - repeat constructor. by eexists.
  - exists pois. by split.
Defined.

(** ** amap_mcp.py: the navigation link *)

Lemma split_on_nonempty (sep : N) (s : pystr) : split_on sep s ≠ [].
Proof.
  destruct s as [|c s]; cbn; [done|]. case_decide; [done|].
  by destruct (split_on sep s).
Qed.

Lemma split_on_join (sep : N) (s : pystr) : join [sep] (split_on sep s) = s.
Proof.
  induction s as [|c s IH]; [done|]. cbn [split_on].
  pose proof (split_on_nonempty sep s) as Hne.
  destruct (split_on sep s) as [|w ws] eqn:Hs; [done|].
  case_decide as Hc.
  - subst c.
    change (join [sep] ([] :: w :: ws))
      with ([] ++ [sep] ++ join [sep] (w :: ws)).
    by rewrite IH.
  - destruct ws as [|w' ws].
    + cbn [join] in *. by rewrite IH.
    + change (join [sep] ((c :: w) :: w' :: ws))
        with ((c :: w) ++ [sep] ++ join [sep] (w' :: ws)).
      change (join [sep] (w :: w' :: ws))
        with (w ++ [sep] ++ join [sep] (w' :: ws)) in IH.
      by rewrite <- IH.
Qed.

Lemma split_on_length (sep : N) (s : pystr) :
  length (split_on sep s) = S (length (filter (λ c, c = sep) s)).
Proof.
  induction s as [|c s IH]; [done|]. cbn [split_on].
  pose proof (split_on_nonempty sep s) as Hne. rewrite filter_cons.
  case_decide as Hc.
  - cbn. by rewrite IH.
  - destruct (split_on sep s) as [|w ws]; [done|]. by rewrite <- IH.
Qed.

(** X23: the navigation link.  [get_navigation_url] answers exactly for
    the destinations that hold one comma, and the link then carries the
    destination unchanged between [to=] and the name; any other
    destination makes it raise. *)
Theorem get_navigation_url_one_comma (quote : pystr → pystr)
    (destination dest_name : pystr) :
  (is_Some (get_navigation_url quote destination dest_name)
   ↔ length (filter (λ c, c = 44) destination) = 1%nat)
  ∧ (∀ url, get_navigation_url quote destination dest_name = Some url →
       url = u "https://uri.amap.com/navigation?to=" ++ destination ++ u ","
             ++ (if bool_decide (dest_name = []) then u "目的地"
                 else quote dest_name)
             ++ u "&mode=car&coordinate=gaode").
Proof.
  unfold get_navigation_url.
  pose proof (split_on_length 44 destination) as Hlen.
  pose proof (split_on_join 44 destination) as Hjoin.
  destruct (split_on 44 destination) as [|lng [|lat [|x rest]]];
    cbn [length] in Hlen.
  - done.
  - split; [|done]. split; [by intros [? ?]|lia].
  - split; [split; [lia|by eexists]|].
    intros url [= <-]. cbn [join] in Hjoin. rewrite <- Hjoin.
    rewrite <- !app_assoc. do 3 f_equal.
    destruct dest_name; [by rewrite bool_decide_eq_true_2|].
    by rewrite bool_decide_eq_false_2.
  - split; [|done]. split; [by intros [? ?]|lia].
Qed.

(** ** amap_mcp.py: the route map *)

Section route_map_facts.
Variable py : python.
Variable W : world.

Lemma all_str_text (l : list json) :
  Forall is_text l → ∃ strs, all_str l = Ok strs.
Proof.
  intros Hl. apply all_str_ok. induction Hl as [|x l [s ->] _ IH]; [done|].
  cbn. exact IH.
Qed.

Lemma polylines_text (steps found r : list json) :
  Forall is_text found → polylines steps found = Ok r → Forall is_text r.
Proof.
  revert found. induction steps as [|step steps IH]; intros found Hfound;
    cbn [polylines].
  { by intros [= <-]. }
  destruct (py_get_default step (u "polyline") (JStr [])) as [polyline|e];
    cbn [mbind result_bind]; [|done].
  destruct (truthy polyline); [|by apply IH].
  destruct polyline as [| | | |s| |]; try done.
  apply IH, Forall_app. split; [done|].
  apply Forall_fmap, Forall_forall. intros x _. by exists x.
Qed.

Lemma sample_to_Forall {X} (P : X → Prop) (cap : nat) (xs : list X) :
  Forall P xs → Forall P (sample_to cap xs).
Proof.
  intros Hxs. unfold sample_to, py_slice_step.
  destruct (cap <? length xs)%nat; [|done].
  generalize (length xs / cap)%nat 0%nat.
  induction Hxs as [|x xs Hx _ IH]; intros step skip; [done|].
  destruct skip; cbn [every_from]; [constructor; [done|]|]; apply IH.
Qed.

Lemma route_segment_run mode (origin dest : json) (path : list json) (h : log) :
  Forall is_text path → is_text origin → is_text dest →
  ∃ path',
    route_segment W mode origin dest path h
    = (Ok path', h ++ [EvRoute (route_mode mode) origin dest []])
    ∧ Forall is_text path'.
Proof.
  intros Hpath Ho Hd. unfold route_segment, try_catch, mbind, M_bind, call, lift.
  destruct (amap_route W h (route_mode mode) origin dest []) as [route|e].
  - unfold segment_coords.
    destruct (py_iter _) as [steps|e]; cbn [mbind result_bind].
    + destruct (polylines steps []) as [coords|e] eqn:Hcoords;
        cbn [mbind result_bind].
      * eexists. split; [reflexivity|]. apply Forall_app. split; [done|].
        apply sample_to_Forall.
        eapply (polylines_text steps []); [constructor|exact Hcoords].
      * eexists. split; [reflexivity|]. apply Forall_app. split; [done|].
        by repeat constructor.
    + eexists. split; [reflexivity|]. apply Forall_app. split; [done|].
      by repeat constructor.
  - eexists. split; [reflexivity|]. apply Forall_app. split; [done|].
    by repeat constructor.
Qed.

Lemma route_segments_run mode (coords path : list json) (h : log) :
  Forall is_text coords → Forall is_text path →
  ∃ path' evs,
    route_segments W mode coords path h = (Ok path', h ++ evs)
    ∧ Forall is_text path'
    ∧ Forall is_route_event evs
    ∧ length evs = (length coords - 1)%nat.
Proof.
  intros Hcoords. revert path h.
  induction Hcoords as [|origin rest Ho Hrest IH]; intros path h Hpath.
  { exists path, []. rewrite app_nil_r. split; [done|]. split; [done|].
    split; [constructor|done]. }
  cbn [route_segments]. destruct Hrest as [|dest rest' Hd Hrest'].
  { exists path, []. rewrite app_nil_r. split; [done|]. split; [done|].
    split; [constructor|done]. }
  unfold mbind, M_bind.
  destruct (route_segment_run mode origin dest path h Hpath Ho Hd)
    as (path1 & -> & Hpath1).
  destruct (IH path1 (h ++ [EvRoute (route_mode mode) origin dest []]) Hpath1)
    as (path' & evs & Hrun & Hpath' & Hevs & Hlen).
  exists path', (EvRoute (route_mode mode) origin dest [] :: evs).
  split; [by rewrite Hrun, <- app_assoc|]. split; [done|].
  split; [by constructor|]. cbn in *. lia.
Qed.

Lemma marker_strs_route (n i : nat) (located : list (nat * json)) :
  ∃ strs, marker_strs py i ((λ il, route_marker n il.1 il.2) <$> located)
          = Ok strs.
Proof.
  revert i. induction located as [|[j loc] located IH]; intros i; [by eexists|].
  rewrite fmap_cons. cbn [marker_strs]. destruct (IH (S i)) as [strs ->].
  unfold marker_str, route_marker, py_get_default. cbn [py_get mbind result_bind].
  by eexists.
Qed.

Lemma located_from_text (i : nat) (pois : list POI) :
  Forall (λ p, is_text (poi_location p)) pois →
  Forall is_text (located_from i pois).*2
  ∧ (length (located_from i pois) ≤ length pois)%nat.
Proof.
  intros Hpois. revert i. induction Hpois as [|p pois Hp _ IH]; intros i.
  { split; [constructor|done]. }
  cbn [located_from]. destruct (IH (S i)) as [Htext Hlen].
  destruct (truthy (poi_location p)).
  - split; [by constructor|cbn; lia].
  - split; [done|cbn; lia].
Qed.

(** X24: the route map.  With fewer than two POIs [generate_route_map]
    answers the empty text and asks for no route.  With two or more POIs
    whose coordinates are text it never raises: every pair of neighbouring
    located POIs costs one route request (a failed one is replaced by the
    straight line), nothing else is called, and the answer is a static-map
    URL. *)
Theorem generate_route_map_total (pois : list POI) (mode : pystr) (h : log) :
  ((length pois < 2)%nat → generate_route_map py W pois mode h = (Ok [], h))
  ∧ ((2 ≤ length pois)%nat → Forall (λ p, is_text (poi_location p)) pois →
     ∃ url evs,
       generate_route_map py W pois mode h = (Ok url, h ++ evs)
       ∧ startswith url static_map_base = true
       ∧ Forall is_route_event evs
       ∧ length evs = (length (located_from 0 pois) - 1)%nat
       ∧ (length evs < length pois)%nat).
Proof.
  unfold generate_route_map. split.
  - intros Hshort. apply Nat.ltb_lt in Hshort. by rewrite Hshort.
  - intros Hlong Hpois. apply Nat.ltb_ge in Hlong. rewrite Hlong.
    destruct (located_from_text 0 pois Hpois) as [Htext Hlocated].
    unfold mbind, M_bind.
    destruct (route_segments_run mode (located_from 0 pois).*2 [] h Htext
                ltac:(constructor))
      as (path & evs & -> & Hpath & Hevs & Hlen).
    set (path_coords := match path with [] => _ | _ => path end).
    assert (Forall is_text path_coords) as Hcoords.
    { unfold path_coords. by destruct path. }
    unfold lift, generate_static_map_url.
    destruct (marker_strs_route (length pois) 0 (located_from 0 pois))
      as [strs Hstrs].
    destruct (all_str_text (sample_to 100 path_coords)
                (sample_to_Forall _ _ _ Hcoords)) as [coords Hall].
    assert (∃ url, static_map_base ++ u "?" ++ url
                   = static_map_base ++ u "?" ++ url) as _ by by exists [].
    rewrite length_fmap in Hlen. apply Nat.ltb_ge in Hlong.
    destruct ((λ il, route_marker (length pois) il.1 il.2) <$> located_from 0 pois)
      as [|m ms] eqn:Hmarkers; cbn [mbind result_bind].
    + rewrite Hall.
      destruct (1 <? length (sample_to 100 path_coords))%nat;
        cbn [mbind result_bind];
        (eexists _, evs; split; [reflexivity|];
         split; [apply startswith_app|]; split; [done|]; split; [done|lia]).
    + rewrite Hstrs. cbn [mbind result_bind]. rewrite Hall.
      destruct (1 <? length (sample_to 100 path_coords))%nat;
        cbn [mbind result_bind];
        (eexists _, evs; split; [reflexivity|];
         split; [apply startswith_app|]; split; [done|]; split; [done|lia]).
Qed.
End route_map_facts.

(** X24 on two places, in a world without providers: one route request,
    and the map shows the straight line. *)
Lemma generate_route_map_total_witness :
  ∃ url evs,
    generate_route_map core_python offline_world [west_lake; lingyin]
      (u "walking") []
    = (Ok url, evs)
    ∧ length evs = 1%nat.
Proof.
  destruct (proj2 (generate_route_map_total core_python offline_world
                     [west_lake; lingyin] (u "walking") []))
    as (url & evs & Hrun & _ & _ & Hlen & _).
  - cbn. lia.
  - repeat constructor; by eexists.
  - exists url, evs. split; [exact Hrun|]. exact Hlen.
Defined.

(** ** routers/plans.py: the like button *)

Lemma get_user_by_id_exists (db : Database) user_id user :
  get_user_by_id db user_id = Some user → user_exists db user_id = true.
Proof.
  unfold get_user_by_id, user_exists. intros Hhead.
  apply bool_decide_eq_true.
  destruct (filter _ (db_users db)) as [|x l] eqn:Hf; [done|].
  assert (x ∈ filter (λ r, u_id r = user_id) (db_users db)) as Hx
    by (rewrite Hf; apply elem_of_cons; by left).
  apply list_elem_of_filter in Hx as [<- Hx]. by apply list_elem_of_fmap_2.
Qed.

Lemma add_like_succeeds (db : Database) uuid now user_id plan_id plan :
  likes_consistent db →
  user_exists db user_id = true →
  find_plan db plan_id = Some plan →
  is_liked db user_id plan_id = false →
  uuid ∉ l_id <$> db_likes db →
  (p_like_count plan < 2147483647)%Z →
  (add_like db uuid now user_id plan_id).2 = true.
Proof.
  intros (Hids & Hpairs & Hfk & Hcount) Huser Hfind Hliked Hfresh Hmax.
  destruct (find_plan_elem db plan_id plan Hfind) as [Hin Hid].
  unfold add_like, insert_link. cbn [l_id l_user_id l_plan_id].
  rewrite bool_decide_eq_false_2 by done. rewrite Huser. cbn [negb].
  rewrite bool_decide_eq_true_2 by (rewrite <- Hid; by apply list_elem_of_fmap_2).
  cbn [negb]. unfold is_liked in Hliked. rewrite Hliked.
  cbn [db_plans with_likes].
  rewrite (update_where_map _ _ (λ r, set_like_count r (p_like_count r + 1)));
    [done|].
  intros r Hr Hhit. apply bool_decide_eq_true in Hhit.
  assert (r = plan) as -> by by eapply find_plan_unique.
  pose proof (Hcount plan Hr). rewrite int32_ok; [done|lia].
Qed.

Lemma add_like_users (db : Database) uuid now user_id plan_id db' ok :
  add_like db uuid now user_id plan_id = (db', ok) → db_users db' = db_users db.
Proof.
  unfold add_like.
  destruct (insert_link db (db_likes db) _) as [likes|e]; [|by intros [= <- _]].
  cbn [db_plans with_likes].
  by destruct (update_where _ _ (db_plans db)); intros [= <- _].
Qed.

Lemma add_like_plan (db : Database) uuid now user_id plan_id db' plan :
  add_like db uuid now user_id plan_id = (db', true) →
  find_plan db plan_id = Some plan →
  find_plan db' plan_id = Some (set_like_count plan (p_like_count plan + 1)).
Proof.
  unfold add_like.
  destruct (insert_link db (db_likes db) _) as [likes|e]; [|done].
  cbn [db_plans with_likes].
  destruct (update_where _ _ (db_plans db)) as [plans|e] eqn:Hup; [|done].
  intros [= <-] Hfind.
  apply (update_where_inv _ _ (λ r, set_like_count r (p_like_count r + 1))) in Hup.
  2:{ intros r r'. destruct (int32 (p_like_count r + 1)) as [v|e] eqn:Hv; [|done].
      apply int32_inv in Hv as [-> _]. by intros [= <-]. }
  subst plans. revert Hfind. unfold find_plan. cbn [db_plans with_plans].
  induction (db_plans db) as [|r rows IH]; [done|].
  rewrite fmap_cons, !filter_cons.
  destruct (decide (p_id r = plan_id)) as [Hid|Hid].
  - rewrite bool_decide_eq_true_2 by done. cbn [p_id set_like_count].
    rewrite decide_True by done. by intros [= ->].
  - rewrite bool_decide_eq_false_2 by done. rewrite decide_False by done.
    exact IH.
Qed.

(** X25: the like button is a switch.  For a signed-in caller and a plan
    the caller may see, in a consistent database, with an unused id for
    the new row and the counter below the column's maximum: [toggle_like]
    answers with the opposite of the stored state and the stored counter,
    the database agrees with the answer, the counter moved by exactly one,
    and pressing the button a second time, when the first press set the
    like, gives back the database as it was. *)
Theorem toggle_like_is_a_switch (db : Database) (authorization : option pystr)
    (uuid : pystr) (now : Z) (plan_id user_id : pystr) (plan : PlanRow) :
  get_current_user_id db authorization = Respond user_id →
  find_plan db plan_id = Some plan →
  p_is_public plan = true ∨ p_user_id plan = user_id →
  likes_consistent db →
  uuid ∉ l_id <$> db_likes db →
  (p_like_count plan < 2147483647)%Z →
  let liked := is_liked db user_id plan_id in
  ∃ db',
    plans_router.toggle_like db authorization uuid now plan_id
    = (Respond (negb liked, get_plan_like_count db' plan_id), db')
    ∧ is_liked db' user_id plan_id = negb liked
    ∧ get_plan_like_count db' plan_id
      = (p_like_count plan + if liked then -1 else 1)%Z
    ∧ likes_consistent db'
    ∧ (liked = false →
       ∀ uuid' now',
         plans_router.toggle_like db' authorization uuid' now' plan_id
         = (Respond (false, p_like_count plan), db)).
Proof.
  intros Hauth Hfind Hvisible Hdb Hfresh Hmax liked.
  assert (get_plan_like_count db plan_id = p_like_count plan) as Hcount0.
  { unfold get_plan_like_count. by rewrite Hfind. }
  assert (user_exists db user_id = true) as Huser.
  { apply get_current_user_id_inv in Hauth as (_ & user & Huser).
    by eapply get_user_by_id_exists. }
  assert (negb (p_is_public plan) && bool_decide (p_user_id plan ≠ user_id)
          = false) as Hallowed.
  { destruct Hvisible as [->| ->]; [done|].
    rewrite bool_decide_eq_false_2 by (by intros ?). apply andb_false_r. }
  unfold plans_router.toggle_like, get_plan_by_id.
  rewrite Hauth, Hfind, Hallowed. subst liked.
  destruct (is_liked db user_id plan_id) eqn:Hliked.
  - destruct (remove_like_facts db user_id plan_id Hdb ltac:(lia))
      as (db' & Hrun & Hdb' & Hunliked & Hcount).
    rewrite Hliked in Hrun, Hcount. rewrite Hrun. exists db'.
    split; [done|]. split; [done|]. split; [lia|]. split; [done|]. done.
  - pose proof (add_like_succeeds db uuid now user_id plan_id plan Hdb Huser
                  Hfind Hliked Hfresh Hmax) as Hok.
    destruct (add_like_facts db uuid now user_id plan_id Hdb ltac:(lia))
      as (Hdb' & Hadded & _).
    destruct (Hadded Hok) as (Hliked' & Hcount & _).
    destruct (add_like db uuid now user_id plan_id) as [db' ok] eqn:Hadd.
    cbn [fst snd] in *. subst ok. exists db'.
    split; [done|]. split; [done|]. split; [lia|]. split; [done|].
    intros _ uuid' now'.
    assert (get_current_user_id db' authorization = Respond user_id) as Hauth'.
    { revert Hauth. unfold get_current_user_id, get_user_by_id.
      by rewrite (add_like_users db uuid now user_id plan_id db' true Hadd). }
    pose proof (add_like_plan db uuid now user_id plan_id db' plan Hadd Hfind)
      as Hfind'.
    rewrite Hauth', Hfind'. cbn [p_is_public p_user_id set_like_count].
    rewrite Hallowed, Hliked'.
    rewrite (add_then_remove_like db db' uuid now user_id plan_id Hdb Hadd).
    by rewrite Hcount0.
Qed.

(** X25 on the small database: the author presses the button on a private
    plan of their own. *)
Lemma toggle_like_is_a_switch_witness :
  let liked := is_liked small_db (u "u1") (u "p1") in
  ∃ db',
    plans_router.toggle_like small_db (Some (u "Bearer u1")) (u "l1") 5 (u "p1")
    = (Respond (negb liked, get_plan_like_count db' (u "p1")), db')
    ∧ is_liked db' (u "u1") (u "p1") = negb liked
    ∧ get_plan_like_count db' (u "p1")
      = (p_like_count private_plan + if liked then -1 else 1)%Z
    ∧ likes_consistent db'
    ∧ (liked = false →
       ∀ uuid' now',
         plans_router.toggle_like db' (Some (u "Bearer u1")) uuid' now' (u "p1")
         = (Respond (false, p_like_count private_plan), small_db)).
Proof.
  apply (toggle_like_is_a_switch small_db (Some (u "Bearer u1")) (u "l1") 5
           (u "p1") (u "u1") private_plan).
  - vm_compute. reflexivity.
  - vm_compute. reflexivity.
  - right. vm_compute. reflexivity.
  - exact small_db_consistent.
  - cbn. apply not_elem_of_nil.
  - vm_compute. reflexivity.
Defined.
